(** * financelake dashboard: the retrieval-validation-derivation pipeline

    A shallow embedding of [dashboard/data_fetcher.py] ([fetch_stock_data])
    and of the derivation part of [dashboard/callbacks.py] ([update_charts]),
    together with the pandas and requests operations the two functions call.

    Modelling conventions.
    - Python exceptions are values of [exn]; a computation is a function
      from the log printed so far to an [outcome] and the new log.
    - A float64 cell is an [fval]: a rational in lowest terms, an infinity
      or NaN, and the arithmetic of the frames is exact: what is stated
      of means and variances holds up to the rounding of float64.  Where
      rounding is the point (the daily returns of line 100), the column
      is embedded a second time over the kernel's binary64 floats
      ([Binary64]).
    - The square root used by [Series.rolling(...).std()] is a parameter,
      the rationals not being closed under it.
    - [print] is total in [DataFetcher]: the stream encodes every text.
      [Stdout] has the same function over a stream that may refuse a
      line, [print] then raising [UnicodeEncodeError].
    - [Domain] names the payload values on which the parsers of pandas
      and their model here agree for certain: the statements about
      values are restricted to them. *)

From Stdlib Require Import List String Ascii Bool Arith ZArith QArith Qcanon Lia.
From Stdlib Require PrimFloat FloatAxioms.
Import ListNotations.
Close Scope Qc_scope.
Close Scope Q_scope.
Open Scope string_scope.
Open Scope nat_scope.
Open Scope list_scope.

(** ** float64 values, exact *)

Module Float.
Local Open Scope Q_scope.

Inductive fval : Type :=
| Fin (q : Q)
| PInf
| NInf
| NaN.

Definition of_Z (z : Z) : fval := Fin (inject_Z z).
Definition of_nat (n : nat) : fval := of_Z (Z.of_nat n).

Definition isnan (x : fval) : bool :=
  match x with NaN => true | _ => false end.

Definition is_finite (x : fval) : bool :=
  match x with Fin _ => true | _ => false end.

Definition fneg (x : fval) : fval :=
  match x with
  | Fin q => Fin (Qred (- q))
  | PInf => NInf
  | NInf => PInf
  | NaN => NaN
  end.

Definition fadd (x y : fval) : fval :=
  match x, y with
  | NaN, _ | _, NaN => NaN
  | Fin a, Fin b => Fin (Qred (a + b))
  | PInf, NInf | NInf, PInf => NaN
  | PInf, _ | _, PInf => PInf
  | NInf, _ | _, NInf => NInf
  end.

Definition fsub (x y : fval) : fval := fadd x (fneg y).

Definition signed_inf (positive : bool) : fval :=
  if positive then PInf else NInf.

(** Sign of a value: [Some true] positive, [Some false] negative,
    [None] zero or NaN. *)
Definition sign (x : fval) : option bool :=
  match x with
  | Fin q => match (q ?= 0)%Q with
             | Gt => Some true
             | Lt => Some false
             | Eq => None
             end
  | PInf => Some true
  | NInf => Some false
  | NaN => None
  end.

Definition fmul (x y : fval) : fval :=
  match x, y with
  | NaN, _ | _, NaN => NaN
  | Fin a, Fin b => Fin (Qred (a * b))
  | _, _ =>
      match sign x, sign y with
      | Some s, Some t => signed_inf (Bool.eqb s t)
      | _, _ => NaN            (* 0 * inf *)
      end
  end.

Definition fdiv (x y : fval) : fval :=
  match x, y with
  | NaN, _ | _, NaN => NaN
  | Fin a, Fin b =>
      if Qeq_bool b 0
      then match sign x with
           | Some s => signed_inf s       (* a / 0, a <> 0 *)
           | None => NaN                  (* 0 / 0 *)
           end
      else Fin (Qred (a / b))
  | Fin _, _ => Fin 0                     (* finite / inf *)
  | _, Fin _ =>
      match sign x, sign y with
      | Some s, Some t => signed_inf (Bool.eqb s t)
      | Some s, None => signed_inf s      (* inf / 0 *)
      | _, _ => NaN
      end
  | _, _ => NaN                           (* inf / inf *)
  end.

(** Left-to-right sum, as an accumulation loop computes it. *)
Definition fsum (xs : list fval) : fval := fold_left fadd xs (Fin 0).

Section Sqrt.
(** Square root on the non-negative rationals. *)
Variable sqrtQ : Q -> Q.

Definition fsqrt (x : fval) : fval :=
  match x with
  | Fin q => if Qle_bool 0 q then Fin (sqrtQ q) else NaN
  | PInf => PInf
  | NInf => NaN
  | NaN => NaN
  end.
End Sqrt.

End Float.
Export Float.

(** ** Python values: strings, JSON documents, exceptions *)

Module Py.

(** [str.upper], on ASCII letters. *)
Definition upper_ascii (c : ascii) : ascii :=
  let n := nat_of_ascii c in
  if (97 <=? n) && (n <=? 122) then ascii_of_nat (n - 32) else c.

Fixpoint upper (s : string) : string :=
  match s with
  | EmptyString => EmptyString
  | String c s' => String (upper_ascii c) (upper s')
  end.

Definition mem (s : string) (l : list string) : bool :=
  existsb (String.eqb s) l.

(** A document as [response.json()] returns it: [None], [bool], a number,
    [str], [list] or [dict] (keys in insertion order). *)
#[local] Unset Elimination Schemes.
Inductive json : Type :=
| JNull
| JBool (b : bool)
| JNum (q : Q)
| JStr (s : string)
| JList (l : list json)
| JDict (kv : list (string * json)).
#[local] Set Elimination Schemes.

Definition record : Type := list (string * json).

(** [d.get(key)]: the first binding of [key]. *)
Fixpoint dict_get (key : string) (d : record) : option json :=
  match d with
  | [] => None
  | (k, v) :: d' => if String.eqb key k then Some v else dict_get key d'
  end.

(** [key in d]. *)
Definition dict_has (key : string) (d : record) : bool :=
  match dict_get key d with Some _ => true | None => false end.

Definition keys (d : record) : list string := map fst d.

(** The exception classes the pipeline can meet.  All derive from
    [Exception]. *)
Inductive exn : Type :=
| ConnectionError          (* requests: unreachable host *)
| ConnectTimeout           (* requests: timeout while connecting *)
| ReadTimeout              (* requests: timeout while reading *)
| TooManyRedirects
| HTTPError                (* raise_for_status *)
| RequestsJSONDecodeError  (* requests.exceptions.JSONDecodeError *)
| JSONDecodeError          (* json.JSONDecodeError *)
| UnicodeDecodeError
| AttributeError
| KeyError
| TypeError
| ValueError
| DataError                (* pandas.errors.DataError *)
| UnicodeEncodeError       (* print: text the stream cannot encode *)
| RuntimeError.

Inductive pyclass : Type :=
| cls_HTTPError
| cls_RequestException
| cls_json_JSONDecodeError
| cls_requests_JSONDecodeError
| cls_Exception.

Definition isinstance (e : exn) (c : pyclass) : bool :=
  match c, e with
  | cls_Exception, _ => true
  | cls_HTTPError, HTTPError => true
  | cls_RequestException,
    (ConnectionError | ConnectTimeout | ReadTimeout | TooManyRedirects
     | HTTPError | RequestsJSONDecodeError) => true
  | cls_json_JSONDecodeError, (JSONDecodeError | RequestsJSONDecodeError) => true
  | cls_requests_JSONDecodeError, RequestsJSONDecodeError => true
  | _, _ => false
  end.

(** *** Computations: printed log and exceptions *)

Inductive outcome (A : Type) : Type :=
| Returned (a : A)
| Raised (e : exn).
Arguments Returned {A} a.
Arguments Raised {A} e.

Section Monad.
(** The type of printed lines. *)
Variable msg : Type.

Definition M (A : Type) : Type := list msg -> outcome A * list msg.

Definition ret {A} (a : A) : M A := fun log => (Returned a, log).

Definition raise {A} (e : exn) : M A := fun log => (Raised e, log).

Definition bind {A B} (c : M A) (f : A -> M B) : M B :=
  fun log =>
    match c log with
    | (Returned a, log') => f a log'
    | (Raised e, log') => (Raised e, log')
    end.

Definition print (m : msg) : M unit := fun log => (Returned tt, log ++ [m]).

(** [try: body  except c1 as e: h1  except c2 as e: h2 ...]: the first
    clause whose class the exception is an instance of handles it; with
    no such clause the exception propagates. *)
Fixpoint dispatch {A} (handlers : list (pyclass * (exn -> M A))) (e : exn) : M A :=
  match handlers with
  | [] => raise e
  | (c, h) :: rest => if isinstance e c then h e else dispatch rest e
  end.

Definition try_except {A} (body : M A) (handlers : list (pyclass * (exn -> M A))) : M A :=
  fun log =>
    match body log with
    | (Returned a, log') => (Returned a, log')
    | (Raised e, log') => dispatch handlers e log'
    end.

(** A conditional statement without [else]. *)
Definition when (b : bool) (c : M unit) : M unit := if b then c else ret tt.

(** [for x in xs: s = f(s, x)]. *)
Fixpoint for_each {S X} (xs : list X) (f : S -> X -> M S) (s : S) : M S :=
  match xs with
  | [] => ret s
  | x :: xs' => bind (f s x) (for_each xs' f)
  end.
End Monad.

Arguments ret {msg A} a.
Arguments raise {msg A} e.
Arguments bind {msg A B} c f.
Arguments print {msg} m.
Arguments dispatch {msg A} handlers e.
Arguments try_except {msg A} body handlers.
Arguments when {msg} b c.
Arguments for_each {msg S X} xs f s.

End Py.
Export Py.

Declare Scope py_scope.
Delimit Scope py_scope with py.
Notation "x <- c ;; k" := (bind c (fun x => k))
  (at level 61, c at next level, right associativity) : py_scope.
Notation "c ;; k" := (bind c (fun _ => k))
  (at level 61, right associativity) : py_scope.
Open Scope py_scope.

(** ** pandas: the operations the two functions call *)

Module Pandas.

(** *** Parsing of cell contents *)

Definition digit (c : ascii) : option nat :=
  let n := nat_of_ascii c in
  if (48 <=? n) && (n <=? 57) then Some (n - 48) else None.

(** Value of a non-empty string of decimal digits. *)
Fixpoint digits_from (acc : nat) (s : string) : option nat :=
  match s with
  | EmptyString => Some acc
  | String c s' =>
      match digit c with
      | Some d => digits_from (10 * acc + d) s'
      | None => None
      end
  end.

Definition digits (s : string) : option nat :=
  match s with
  | EmptyString => None
  | _ => digits_from 0 s
  end.

(** [s] split at its first ['.']. *)
Fixpoint split_point (s : string) : string * option string :=
  match s with
  | EmptyString => (EmptyString, None)
  | String c s' =>
      if Ascii.eqb c "."%char then (EmptyString, Some s')
      else let (a, b) := split_point s' in (String c a, b)
  end.

Definition unsigned_decimal (s : string) : option Q :=
  match split_point s with
  | (ip, None) =>
      match digits ip with
      | Some n => Some (inject_Z (Z.of_nat n))
      | None => None
      end
  | (ip, Some fp) =>
      match digits ip, digits fp with
      | Some n, Some f =>
          Some (Qred (Qmake (Z.of_nat (n * 10 ^ String.length fp + f))
                            (Pos.of_nat (10 ^ String.length fp))))
      | _, _ => None
      end
  end.

(** The numeric strings recognised: an optional sign, digits, and an
    optional fraction.  (pandas accepts more spellings, such as
    exponents; they are outside the payload format.) *)
Definition parse_decimal (s : string) : option Q :=
  match s with
  | String "-"%char s' => option_map (fun q => Qred (Qopp q)) (unsigned_decimal s')
  | String "+"%char s' => unsigned_decimal s'
  | _ => unsigned_decimal s
  end.

Inductive Timestamp : Type :=
| NaT
| Ts (year month day : nat).

Definition leap_year (y : nat) : bool :=
  ((y mod 4 =? 0) && negb (y mod 100 =? 0)) || (y mod 400 =? 0).

Definition days_in_month (y m : nat) : nat :=
  match m with
  | 2 => if leap_year y then 29 else 28
  | 4 | 6 | 9 | 11 => 30
  | _ => 31
  end.

(** A date written [YYYY-MM-DD].  The years are those whose every day
    fits [datetime64[ns]] (1677-09-21 to 2262-04-11): outside them
    pandas 2 raises [OutOfBoundsDatetime]. *)
Definition parse_iso_date (s : string) : option Timestamp :=
  if (String.length s =? 10)
     && String.eqb (substring 4 1 s) "-" && String.eqb (substring 7 1 s) "-"
  then
    match digits (substring 0 4 s), digits (substring 5 2 s), digits (substring 8 2 s) with
    | Some y, Some m, Some d =>
        if (1678 <=? y) && (y <=? 2261)
           && (1 <=? m) && (m <=? 12) && (1 <=? d) && (d <=? days_in_month y m)
        then Some (Ts y m d) else None
    | _, _, _ => None
    end
  else None.

(** [a < b] on timestamps; comparisons with [NaT] are false. *)
Definition ts_ltb (a b : Timestamp) : bool :=
  match a, b with
  | Ts y1 m1 d1, Ts y2 m2 d2 =>
      (y1 <? y2) || ((y1 =? y2) && ((m1 <? m2) || ((m1 =? m2) && (d1 <? d2))))
  | _, _ => false
  end.

(** *** Frames *)

(** A column label: a string (a key of the records the frame was built
    from) or a position. *)
Inductive label : Type :=
| L (name : string)
| Pos (i : nat).

Definition label_eqb (a b : label) : bool :=
  match a, b with
  | L s, L t => String.eqb s t
  | Pos i, Pos j => i =? j
  | _, _ => false
  end.

(** A cell: a Python object (object dtype), a float64 or a datetime64. *)
Inductive cell : Type :=
| Obj (v : json)
| Num (x : fval)
| Stamp (t : Timestamp).

Inductive Index : Type :=
| RangeIndex (n : nat)
| LabelIndex (name : label) (values : list cell).

Record DataFrame : Type := {
  index : Index;
  columns : list (label * list cell)
}.

Definition index_values (df : DataFrame) : list cell :=
  match index df with
  | RangeIndex n => map (fun i => Num (of_nat i)) (seq 0 n)
  | LabelIndex _ vs => vs
  end.

Definition nrows (df : DataFrame) : nat :=
  match index df with
  | RangeIndex n => n
  | LabelIndex _ vs => List.length vs
  end.

(** [df.empty]: an axis of length 0. *)
Definition empty (df : DataFrame) : bool :=
  (nrows df =? 0) || (List.length (columns df) =? 0).

(** [pd.DataFrame()]. *)
Definition DataFrame_new : DataFrame :=
  {| index := RangeIndex 0; columns := [] |}.

(** [col in df.columns]. *)
Definition has_column (c : label) (df : DataFrame) : bool :=
  existsb (fun lc => label_eqb (fst lc) c) (columns df).

(** [df[col]] for a label: a Series when one column bears the label, a
    sub-frame when several do. *)
Inductive selection : Type :=
| Series (values : list cell)
| SubFrame (cols : list (list cell)).

Definition select (c : label) (df : DataFrame) : list (list cell) :=
  map snd (filter (fun lc => label_eqb (fst lc) c) (columns df)).

(** Keys of the records in order of first appearance. *)
Fixpoint add_keys (acc ks : list string) : list string :=
  match ks with
  | [] => acc
  | k :: ks' => add_keys (if mem k acc then acc else acc ++ [k]) ks'
  end.

Definition union_keys (rows : list record) : list string :=
  fold_left (fun acc r => add_keys acc (keys r)) rows [].

(** The cell of record [r] under key [k]; NaN when the key is missing. *)
Definition cell_of (k : string) (r : record) : cell :=
  match dict_get k r with
  | Some v => Obj v
  | None => Num NaN
  end.

Fixpoint as_records (data : list json) : option (list record) :=
  match data with
  | [] => Some []
  | JDict r :: rest => option_map (cons r) (as_records rest)
  | _ :: _ => None
  end.

Definition of_records (rows : list record) : DataFrame :=
  {| index := RangeIndex (List.length rows);
     columns := map (fun k => (L k, map (cell_of k) rows)) (union_keys rows) |}.

(** [df.rename(columns=mapping)]. *)
Fixpoint lookup (mapping : list (string * string)) (k : string) : string :=
  match mapping with
  | [] => k
  | (a, b) :: rest => if String.eqb k a then b else lookup rest k
  end.

Definition rename_label (mapping : list (string * string)) (c : label) : label :=
  match c with
  | L k => L (lookup mapping k)
  | Pos i => Pos i
  end.

Definition rename (mapping : list (string * string)) (df : DataFrame) : DataFrame :=
  {| index := index df;
     columns := map (fun lc => (rename_label mapping (fst lc), snd lc)) (columns df) |}.

(** [df[col] = values]: replaces the column(s) so labelled, or appends. *)
Definition setitem (c : label) (values : list cell) (df : DataFrame) : DataFrame :=
  {| index := index df;
     columns :=
       if has_column c df
       then map (fun lc => if label_eqb (fst lc) c then (fst lc, values) else lc) (columns df)
       else columns df ++ [(c, values)] |}.

Definition null (c : cell) : bool :=
  match c with
  | Obj JNull => true
  | Num x => isnan x
  | Stamp NaT => true
  | _ => false
  end.

(** [df.isnull().values.any()]. *)
Definition isnull_any (df : DataFrame) : bool :=
  existsb (fun lc => existsb null (snd lc)) (columns df).

(** [series.isnull().all()]. *)
Definition isnull_all (s : list cell) : bool := forallb null s.

(** [pd.to_numeric(..., errors='coerce')] on one value: what does not
    parse becomes NaN. *)
Definition to_numeric_cell (c : cell) : fval :=
  match c with
  | Num x => x
  | Obj (JNum q) => Fin (Qred q)
  | Obj (JBool b) => if b then of_Z 1 else of_Z 0
  | Obj (JStr s) =>
      match parse_decimal s with
      | Some q => Fin q
      | None => NaN
      end
  | Obj _ => NaN
  | Stamp _ => NaN
  end.

(** One value under [pd.to_datetime]: dates of the payload format
    [YYYY-MM-DD], and missing values (NaT).  Anything else is refused here
    (pandas reads further spellings and epoch numbers; they are outside
    the payload format). *)
Definition to_datetime_value (c : cell) : outcome cell :=
  match c with
  | Obj (JStr s) =>
      match parse_iso_date s with
      | Some t => Returned (Stamp t)
      | None => Raised ValueError
      end
  | Obj JNull => Returned (Stamp NaT)
  | Num NaN => Returned (Stamp NaT)
  | Stamp t => Returned (Stamp t)
  | _ => Raised TypeError
  end.

(** A column under [pd.to_datetime]: the first value refused raises. *)
Fixpoint to_datetime_values (s : list cell) : outcome (list cell) :=
  match s with
  | [] => Returned []
  | c :: s' =>
      match to_datetime_value c with
      | Returned t =>
          match to_datetime_values s' with
          | Returned ts => Returned (t :: ts)
          | Raised e => Raised e
          end
      | Raised e => Raised e
      end
  end.

(** *** Rolling windows and percentage change on a float64 series *)

(** Rows [max(0, i + 1 - window) .. i]. *)
Definition window_of (window i : nat) (xs : list fval) : list fval :=
  let stop := i + 1 in
  let start := stop - window in
  firstn (stop - start) (skipn start xs).

Definition observations (w : list fval) : list fval :=
  filter (fun x => negb (isnan x)) w.

(** [series.rolling(window, min_periods).agg()]: NaN where the window
    holds fewer than [min_periods] observations. *)
Definition rolling (window min_periods : nat) (agg : list fval -> fval)
           (xs : list fval) : list fval :=
  map (fun i =>
         let obs := observations (window_of window i xs) in
         if List.length obs <? min_periods then NaN else agg obs)
      (seq 0 (List.length xs)).

Definition mean (obs : list fval) : fval :=
  fdiv (fsum obs) (of_nat (List.length obs)).

Definition sqdev (m x : fval) : fval := fmul (fsub x m) (fsub x m).

(** Variance with [ddof] delta degrees of freedom: NaN unless more than
    [ddof] observations. *)
Definition var (ddof : nat) (obs : list fval) : fval :=
  if List.length obs <=? ddof then NaN
  else fdiv (fsum (map (sqdev (mean obs)) obs)) (of_nat (List.length obs - ddof)).

Section Std.
Variable sqrtQ : Q -> Q.
(** [.std()] has [ddof=1]. *)
Definition std (obs : list fval) : fval := fsqrt sqrtQ (var 1 obs).
End Std.

(** [ffill]: a NaN takes the last value seen before it. *)
Fixpoint ffill_from (last : fval) (xs : list fval) : list fval :=
  match xs with
  | [] => []
  | x :: xs' =>
      let y := if isnan x then last else x in
      y :: ffill_from y xs'
  end.

Definition ffill (xs : list fval) : list fval := ffill_from NaN xs.

(** [series.shift(1)]. *)
Definition shift (xs : list fval) : list fval :=
  match xs with
  | [] => []
  | _ => NaN :: removelast xs
  end.

Fixpoint zip_with {A B C} (f : A -> B -> C) (xs : list A) (ys : list B) : list C :=
  match xs, ys with
  | x :: xs', y :: ys' => f x y :: zip_with f xs' ys'
  | _, _ => []
  end.

(** [series.pct_change()]: [data / data.shift(1) - 1] after a forward
    fill (the default [fill_method='pad'] of pandas 1 and 2; on a series
    without NaN the fill changes nothing). *)
Definition pct_change (xs : list fval) : list fval :=
  let data := ffill xs in
  zip_with (fun cur prev => fsub (fdiv cur prev) (of_Z 1)) data (shift data).

(** [series * k]. *)
Definition scale (k : fval) (xs : list fval) : list fval :=
  map (fun x => fmul x k) xs.

Section Raising.
Variable msg : Type.

(** [pd.DataFrame(data)] for a non-empty list.  Records give one column
    per key.  Rows that are not records give positional labels only
    (one column stands for them: no string label is ever found among
    them).  A record followed by a non-record raises. *)
Definition DataFrame_of (data : list json) : M msg DataFrame :=
  match data with
  | [] => ret DataFrame_new
  | JDict _ :: _ =>
      match as_records data with
      | Some rows => ret (of_records rows)
      | None => raise AttributeError
      end
  | _ :: _ =>
      ret {| index := RangeIndex (List.length data);
             columns := [(Pos 0, map Obj data)] |}
  end.

Definition getitem (c : label) (df : DataFrame) : M msg selection :=
  match select c df with
  | [] => raise KeyError
  | [s] => ret (Series s)
  | cols => ret (SubFrame cols)
  end.

Definition lift {A} (o : outcome A) : M msg A :=
  match o with
  | Returned a => ret a
  | Raised e => raise e
  end.

(** [pd.to_datetime(arg)]; a frame is not assembled into dates. *)
Definition to_datetime (arg : selection) : M msg (list cell) :=
  match arg with
  | Series s => lift (to_datetime_values s)
  | SubFrame _ => raise ValueError
  end.

(** [pd.to_numeric(arg, errors='coerce')]; a frame is refused. *)
Definition to_numeric (arg : selection) : M msg (list cell) :=
  match arg with
  | Series s => ret (map (fun c => Num (to_numeric_cell c)) s)
  | SubFrame _ => raise TypeError
  end.

(** [df.set_index(col, inplace=True)]. *)
Definition set_index (c : label) (df : DataFrame) : M msg DataFrame :=
  match select c df with
  | [] => raise KeyError
  | s :: _ =>
      ret {| index := LabelIndex c s;
             columns := filter (fun lc => negb (label_eqb (fst lc) c)) (columns df) |}
  end.

(** The float64 values of a series; aggregating a column of another
    dtype raises. *)
Fixpoint floats (s : list cell) : M msg (list fval) :=
  match s with
  | [] => ret []
  | Num x :: s' => xs <- floats s' ;; ret (x :: xs)
  | _ :: _ => raise DataError
  end.

Definition as_series (arg : selection) : M msg (list cell) :=
  match arg with
  | Series s => ret s
  | SubFrame _ => raise ValueError
  end.
End Raising.

Arguments DataFrame_of {msg} data.
Arguments getitem {msg} c df.
Arguments lift {msg A} o.
Arguments to_datetime {msg} arg.
Arguments to_numeric {msg} arg.
Arguments set_index {msg} c df.
Arguments floats {msg} s.
Arguments as_series {msg} arg.

End Pandas.
Export Pandas.

(** ** requests: one GET and the response it yields *)

Module Requests.

(** A response: its status code and what [response.json()] does. *)
Record Response : Type := {
  status_code : Z;
  body : outcome json
}.

(** What [requests.get] does: raise, or return a response. *)
Inductive get_result : Type :=
| GetRaised (e : exn)
| GetResponse (r : Response).

(** The remote source: its behaviour for each URL and timeout. *)
Definition remote : Type := string -> nat -> get_result.

Section Calls.
Variable msg : Type.

Definition get (net : remote) (url : string) (timeout : nat) : M msg Response :=
  match net url timeout with
  | GetRaised e => raise e
  | GetResponse r => ret r
  end.

(** Raises [HTTPError] for 4XX and 5XX. *)
Definition raise_for_status (r : Response) : M msg unit :=
  if (400 <=? status_code r)%Z && (status_code r <? 600)%Z
  then raise HTTPError else ret tt.

Definition json_of (r : Response) : M msg json :=
  match body r with
  | Returned j => ret j
  | Raised e => raise e
  end.
End Calls.

Arguments get {msg} net url timeout.
Arguments raise_for_status {msg} r.
Arguments json_of {msg} r.

End Requests.
Export Requests.

(** ** dashboard/data_fetcher.py *)

Module DataFetcher.

(** The lines the function prints. *)
Inductive message : Type :=
| Attempting (api_url : string)
| ErrorDecodingJSON (symbol : string) (e : exn)
| ErrorDecodingJSONRequests (symbol : string) (e : exn)
| InvalidDataFormat (symbol : string)
| WarningSymbolMismatch (returned requested : string)
| NoDataPoints (symbol : string)
| MissingRequiredColumns (available : list label)
| WarningNonNumeric (symbol : string)
| HTTPErrorFetching (symbol : string) (e : exn)
| ErrorFetching (symbol : string) (e : exn)
| UnexpectedError (symbol : string) (e : exn).

Definition column_mapping : list (string * string) :=
  [("date", "Date"); ("open", "Open"); ("high", "High");
   ("low", "Low"); ("close", "Close"); ("volume", "Volume")].

Definition required_cols : list string :=
  ["Date"; "Open"; "High"; "Low"; "Close"; "Volume"].

Definition numeric_cols : list string := ["Open"; "High"; "Low"; "Close"].

(** [df[col] = pd.to_numeric(df[col], errors='coerce')].  Line 85 adds
    [downcast='integer'] for Volume: the dtype may change, the values do
    not. *)
Definition coerce_column (df : DataFrame) (col : string) : M message DataFrame :=
  s <- getitem (L col) df ;;
  v <- to_numeric s ;;
  ret (setitem (L col) v df).

(** Lines 56-91: from the non-empty list of point-records to the frame. *)
Definition build_frame (symbol : string) (data : list json) : M message DataFrame :=
  df <- DataFrame_of data ;;
  let df := rename column_mapping df in
  if negb (forallb (fun col => has_column (L col) df) required_cols)
  then
    print (MissingRequiredColumns (map fst (columns df))) ;;
    ret DataFrame_new
  else
    s <- getitem (L "Date") df ;;
    dates <- to_datetime s ;;
    let df := setitem (L "Date") dates df in
    df <- set_index (L "Date") df ;;
    df <- for_each numeric_cols coerce_column df ;;
    df <- coerce_column df "Volume" ;;
    when (isnull_any df) (print (WarningNonNumeric symbol)) ;;
    ret df.

(** Lines 39-91: the parsed document. *)
Definition process (symbol : string) (parsed_json_data : json) : M message DataFrame :=
  match parsed_json_data with
  | JDict d =>
      match dict_get "symbol" d, dict_get "data" d with
      | Some returned, Some (JList data) =>
          match returned with
          | JStr s =>
              when (negb (String.eqb (upper s) (upper symbol)))
                   (print (WarningSymbolMismatch s symbol))
          | _ => raise AttributeError          (* no method [upper] *)
          end ;;
          match data with
          | [] =>
              print (NoDataPoints symbol) ;;
              ret DataFrame_new
          | _ :: _ => build_frame symbol data
          end
      | _, _ =>
          print (InvalidDataFormat symbol) ;;
          ret DataFrame_new
      end
  | _ =>
      print (InvalidDataFormat symbol) ;;
      ret DataFrame_new
  end.

(** [f"{api_base_url}/data/stock/{symbol}?from={start_date}&to={end_date}"]. *)
Definition api_url (api_base_url symbol start_date end_date : string) : string :=
  (api_base_url ++ "/data/stock/" ++ symbol
     ++ "?from=" ++ start_date ++ "&to=" ++ end_date)%string.

Definition fetch_stock_data (net : remote)
           (symbol start_date end_date api_base_url : string) : M message DataFrame :=
  let api_url := api_url api_base_url symbol start_date end_date in
  print (Attempting api_url) ;;
  try_except
    (response <- get net api_url 10 ;;
     raise_for_status response ;;
     parsed <-
       try_except
         (j <- json_of response ;; ret (Some j))
         [(cls_json_JSONDecodeError,
            fun e => print (ErrorDecodingJSON symbol e) ;; ret None);
          (cls_requests_JSONDecodeError,
            fun e => print (ErrorDecodingJSONRequests symbol e) ;; ret None)] ;;
     match parsed with
     | None => ret DataFrame_new
     | Some parsed_json_data => process symbol parsed_json_data
     end)
    [(cls_HTTPError,
       fun e => print (HTTPErrorFetching symbol e) ;; ret DataFrame_new);
     (cls_RequestException,
       fun e => print (ErrorFetching symbol e) ;; ret DataFrame_new);
     (cls_Exception,
       fun e => print (UnexpectedError symbol e) ;; ret DataFrame_new)].

Definition default_api_base_url : string := "http://localhost:8000".

End DataFetcher.
Export DataFetcher.

(** ** dashboard/callbacks.py *)

Module Callbacks.

Inductive trace_kind : Type := Scatter | Bar.

(** [go.Scatter(x=..., y=..., name=...)], [go.Bar(...)]. *)
Record Trace : Type := {
  kind : trace_kind;
  name : string;
  x : list cell;
  y : list cell
}.

Record Layout : Type := {
  title_text : string;
  axes_visible : bool;
  annotation : string;
  xaxis_title : string;
  yaxis_title : string
}.

Record Figure : Type := {
  data : list Trace;
  layout : Layout
}.

(** [go.Figure()]. *)
Definition Figure_new : Figure :=
  {| data := [];
     layout := {| title_text := ""; axes_visible := true; annotation := "";
                  xaxis_title := ""; yaxis_title := "" |} |}.

(** [go.Figure(layout={'xaxis': {'visible': False}, 'yaxis': {'visible': False}})]. *)
Definition Figure_hidden (note : string) : Figure :=
  {| data := [];
     layout := {| title_text := ""; axes_visible := false; annotation := note;
                  xaxis_title := ""; yaxis_title := "" |} |}.

Definition add_trace (t : Trace) (fig : Figure) : Figure :=
  {| data := data fig ++ [t]; layout := layout fig |}.

Definition with_title (t : string) (fig : Figure) : Figure :=
  {| data := data fig;
     layout := {| title_text := t;
                  axes_visible := axes_visible (layout fig);
                  annotation := annotation (layout fig);
                  xaxis_title := xaxis_title (layout fig);
                  yaxis_title := yaxis_title (layout fig) |} |}.

(** [fig.update_layout(title_text=..., xaxis_title=..., yaxis_title=...)]. *)
Definition with_titles (t xt yt : string) (fig : Figure) : Figure :=
  {| data := data fig;
     layout := {| title_text := t;
                  axes_visible := axes_visible (layout fig);
                  annotation := annotation (layout fig);
                  xaxis_title := xt;
                  yaxis_title := yt |} |}.

(** The six outputs of the callback. *)
Record Outputs : Type := {
  price_fig : Figure;
  volume_fig : Figure;
  daily_returns_fig : Figure;
  volatility_fig : Figure;
  error_message : string;
  error_className : string
}.

(** Truth value of a component property: [None] and [''] are false. *)
Definition truthy (v : option string) : bool :=
  match v with
  | Some s => negb (String.eqb s "")
  | None => false
  end.

Definition text (v : option string) : string :=
  match v with Some s => s | None => "None" end.

(** [if v is None: v = []]. *)
Definition or_empty (v : option (list string)) : list string :=
  match v with Some l => l | None => [] end.

Definition empty_note : string := "No data found or chart hidden".

Section Derivation.
Variable sqrtQ : Q -> Q.

(** Lines 69-72 and 74-77: one moving average, its column and its
    trace. *)
Definition moving_average (selected : list string) (flag : string) (window : nat)
           (legend : string) (st : DataFrame * Figure) : M message (DataFrame * Figure) :=
  let (df, fig) := st in
  if mem flag selected then
    s <- getitem (L "Close") df ;;
    close <- as_series s ;;
    xs <- floats close ;;
    let df := setitem (L flag) (map Num (rolling window 1 mean xs)) df in
    s <- getitem (L flag) df ;;
    ma <- as_series s ;;
    if negb (isnull_all ma)
    then ret (df, add_trace {| kind := Scatter; name := legend;
                               x := index_values df; y := ma |} fig)
    else ret (df, fig)
  else ret (df, fig).

(** Lines 98-109: the daily returns, their column and their chart. *)
Definition daily_returns (symbol : string) (return_toggle_value : list string)
           (placeholder : Figure) (df : DataFrame) : M message (DataFrame * Figure) :=
  if mem "SHOW_RETURNS" return_toggle_value && has_column (L "Close") df then
    s <- getitem (L "Close") df ;;
    close <- as_series s ;;
    if negb (List.length close =? 0) then
      xs <- floats close ;;
      let df :=
        setitem (L "Daily Return")
                (map Num (scale (of_Z 100) (pct_change xs))) df in
      s <- getitem (L "Daily Return") df ;;
      returns <- as_series s ;;
      ret (df,
           with_titles (symbol ++ " Daily Return Rates (%)")%string
             "Date" "Return (%)"
             (add_trace {| kind := Bar; name := "Daily Return";
                           x := index_values df; y := returns |} Figure_new))
    else ret (df, placeholder)
  else ret (df, placeholder).

(** Lines 111-122: the volatility, its column and its chart. *)
Definition volatility (symbol : string) (volatility_toggle_value : list string)
           (placeholder : Figure) (df : DataFrame) : M message Figure :=
  if mem "SHOW_VOLATILITY" volatility_toggle_value && has_column (L "Close") df then
    s <- getitem (L "Close") df ;;
    close <- as_series s ;;
    if negb (List.length close =? 0) then
      xs <- floats close ;;
      let df :=
        setitem (L "Volatility")
                (map Num (rolling 30 1 (std sqrtQ) xs)) df in
      s <- getitem (L "Volatility") df ;;
      volatility <- as_series s ;;
      ret (with_titles (symbol ++ " 30-Day Price Volatility")%string
             "Date" "Standard Deviation"
             (add_trace {| kind := Scatter; name := "30-Day Volatility";
                           x := index_values df; y := volatility |} Figure_new))
    else ret placeholder
  else ret placeholder.

Definition update_charts (net : remote)
           (symbol start_date end_date : option string)
           (ma_selected_values return_toggle_value volatility_toggle_value
              : option (list string)) : M message Outputs :=
  if negb (truthy symbol && truthy start_date && truthy end_date) then
    let empty_fig := Figure_hidden "" in
    ret {| price_fig := empty_fig; volume_fig := empty_fig;
           daily_returns_fig := empty_fig; volatility_fig := empty_fig;
           error_message :=
             "Please ensure a stock symbol, start date, and end date are selected.";
           error_className := "error" |}
  else
    let symbol := text symbol in
    let start_date := text start_date in
    let end_date := text end_date in
    let ma_selected_values := or_empty ma_selected_values in
    let return_toggle_value := or_empty return_toggle_value in
    let volatility_toggle_value := or_empty volatility_toggle_value in
    df <- fetch_stock_data net symbol start_date end_date default_api_base_url ;;
    let daily_returns_fig :=
      with_title "Daily Returns (Toggle On or No Data)" (Figure_hidden empty_note) in
    let volatility_fig :=
      with_title "Volatility (Toggle On or No Data)" (Figure_hidden empty_note) in
    if empty df then
      ret {| price_fig :=
               with_title ("Stock Price for " ++ symbol ++ " (No Data)")%string
                          (Figure_hidden empty_note);
             volume_fig :=
               with_title ("Trading Volume for " ++ symbol ++ " (No Data)")%string
                          (Figure_hidden empty_note);
             daily_returns_fig := daily_returns_fig;
             volatility_fig := volatility_fig;
             error_message :=
               ("Error: No data found for symbol '" ++ symbol ++ "' from "
                  ++ start_date ++ " to " ++ end_date
                  ++ ". Please check the symbol or try a different range.")%string;
             error_className := "error" |}
    else
      s <- getitem (L "Close") df ;;
      close <- as_series s ;;
      let price_fig :=
        add_trace {| kind := Scatter; name := "Close";
                     x := index_values df; y := close |} Figure_new in
      st <-
        (if has_column (L "Close") df then
           st <- moving_average ma_selected_values "MA50" 50 "50-Day MA" (df, price_fig) ;;
           moving_average ma_selected_values "MA200" 200 "200-Day MA" st
         else ret (df, price_fig)) ;;
      let (df, price_fig) := st : DataFrame * Figure in
      let price_fig :=
        with_titles (symbol ++ " Stock Price with Moving Averages")%string
                    "Date" "Price (USD)" price_fig in
      s <- getitem (L "Volume") df ;;
      volume <- as_series s ;;
      let volume_fig :=
        with_titles (symbol ++ " Trading Volume")%string "Date" "Volume"
          (add_trace {| kind := Bar; name := "Volume";
                        x := index_values df; y := volume |} Figure_new) in
      st <- daily_returns symbol return_toggle_value daily_returns_fig df ;;
      let (df, daily_returns_fig) := st : DataFrame * Figure in
      volatility_fig <- volatility symbol volatility_toggle_value volatility_fig df ;;
      ret {| price_fig := price_fig; volume_fig := volume_fig;
             daily_returns_fig := daily_returns_fig;
             volatility_fig := volatility_fig;
             error_message := ""; error_className := "" |}.
End Derivation.

End Callbacks.
Export Callbacks.

(** ** Vocabulary of the statements *)

Module Spec.

(** A status on which [raise_for_status] raises ([Response.ok] false). *)
Definition bad_status (status : Z) : bool :=
  (400 <=? status)%Z && (status <? 600)%Z.

(** The structural gate: a mapping with key [symbol] and key [data], the
    latter a sequence. *)
Definition well_shaped (doc : json) : bool :=
  match doc with
  | JDict d =>
      match dict_get "symbol" d, dict_get "data" d with
      | Some _, Some (JList _) => true
      | _, _ => false
      end
  | _ => false
  end.

Definition is_str (v : json) : bool :=
  match v with JStr _ => true | _ => false end.

(** The line the outer [except] clauses print for exception [e]. *)
Definition failure_line (symbol : string) (e : exn) : message :=
  if isinstance e cls_HTTPError then HTTPErrorFetching symbol e
  else if isinstance e cls_RequestException then ErrorFetching symbol e
  else UnexpectedError symbol e.

(** The line the inner [except] clauses print for a decoding error. *)
Definition decode_line (symbol : string) (e : exn) : message :=
  if isinstance e cls_json_JSONDecodeError then ErrorDecodingJSON symbol e
  else ErrorDecodingJSONRequests symbol e.

(** [process] after its symbol comparison: the emptiness check and the
    construction of the frame. *)
Definition after_symbol (symbol : string) (data : list json) : M message DataFrame :=
  match data with
  | [] => print (NoDataPoints symbol) ;; ret DataFrame_new
  | _ :: _ => build_frame symbol data
  end.

(** The warning, if any, that [process] prints for the symbol [s] found
    in the document. *)
Definition symbol_warning (symbol s : string) : list message :=
  if negb (String.eqb (upper s) (upper symbol))
  then [WarningSymbolMismatch s symbol] else [].

(** What the [except] clauses make of an outcome. *)
Definition absorbed (o : outcome DataFrame) : DataFrame :=
  match o with
  | Returned df => df
  | Raised _ => DataFrame_new
  end.

(** The canonical name of a record key. *)
Definition canon (k : string) : string := lookup column_mapping k.

(** The frame of the point-records after renaming (lines 56-70). *)
Definition renamed (rows : list record) : DataFrame :=
  rename column_mapping (of_records rows).

Definition labels (df : DataFrame) : list label := map fst (columns df).

(** A column after [pd.to_numeric(..., errors='coerce')]. *)
Definition coerced (s : list cell) : list cell :=
  map (fun c => Num (to_numeric_cell c)) s.

(** The five value fields of the canonical series. *)
Definition value_fields : list string := ["Open"; "High"; "Low"; "Close"; "Volume"].

(** The frame after lines 78-79: [Date] parsed and moved to the index. *)
Definition indexed (dates : list cell) (df : DataFrame) : DataFrame :=
  {| index := LabelIndex (L "Date") dates;
     columns := filter (fun lc => negb (label_eqb (fst lc) (L "Date"))) (columns df) |}.

(** The frame after line 84 or 85 has run for column [col]. *)
Definition coerce (df : DataFrame) (col : string) : DataFrame :=
  match select (L col) df with
  | [s] => setitem (L col) (coerced s) df
  | _ => df
  end.

(** The frame line 91 returns. *)
Definition canonical_frame (dates : list cell) (df : DataFrame) : DataFrame :=
  fold_left coerce value_fields (indexed dates df).

(** The remote source answers the request with a status that
    [raise_for_status] accepts and a body that decodes to [doc]. *)
Definition served (net : remote) (symbol start_date end_date base : string)
           (doc : json) : Prop :=
  exists r, net (api_url base symbol start_date end_date) 10 = GetResponse r
            /\ bad_status (status_code r) = false
            /\ body r = Returned doc.

(** [doc] is a mapping with a string under [symbol] and the point-records
    [rows] under [data]. *)
Definition payload (s : string) (rows : list record) (doc : json) : Prop :=
  exists d, doc = JDict d
            /\ dict_get "symbol" d = Some (JStr s)
            /\ dict_get "data" d = Some (JList (map JDict rows)).

Fixpoint distinct (l : list string) : bool :=
  match l with
  | [] => true
  | a :: l' => negb (mem a l') && distinct l'
  end.

(** The column gate: every canonical name is the name of some key of
    some record. *)
Definition complete (rows : list record) : bool :=
  forallb (fun c => mem c (map canon (union_keys rows))) required_cols.

(** No two keys of the records are mapped to the same name. *)
Definition unambiguous (rows : list record) : bool :=
  distinct (map canon (union_keys rows)).

(** No point-record of [data] has a key that is mapped to [c]. *)
Definition absent (c : string) (data : list json) : Prop :=
  forall r, In (JDict r) data -> ~ In c (map canon (keys r)).

(** Some record of [rows] has a key that is mapped to [c]. *)
Definition present (c : string) (rows : list record) : Prop :=
  exists r, In r rows /\ In c (map canon (keys r)).

(** The key of the records that bears the canonical name [c]. *)
Definition source_key (c : string) (rows : list record) : string :=
  hd c (filter (fun k => String.eqb (canon k) c) (union_keys rows)).

(** The cells of the records under that key, in payload order. *)
Definition raw_column (c : string) (rows : list record) : list cell :=
  map (cell_of (source_key c rows)) rows.

Definition cell_ltb (a b : cell) : bool :=
  match a, b with
  | Stamp s, Stamp t => ts_ltb s t
  | _, _ => false
  end.

(** Every date is later than the one before it. *)
Fixpoint increasing (ds : list cell) : bool :=
  match ds with
  | a :: (b :: _) as rest => cell_ltb a b && increasing rest
  | _ => true
  end.

(** Exact sum, arithmetic mean and sample variance (divisor [n - 1]) of
    a list of rationals. *)
Definition sum_Q (l : list Q) : Q := fold_right Qplus 0%Q l.

Definition count_Q (n : nat) : Q := inject_Z (Z.of_nat n).

Definition mean_Q (l : list Q) : Q := (sum_Q l / count_Q (List.length l))%Q.

Definition var_Q (l : list Q) : Q :=
  (sum_Q (map (fun x => (x - mean_Q l) * (x - mean_Q l)) l)
   / count_Q (List.length l - 1))%Q.

(** The [k] rows that end at row [t]. *)
Definition trailing {A} (k t : nat) (l : list A) : list A :=
  firstn k (skipn (t + 1 - k) l).

(** What [to_numeric] yields: a rational in lowest terms, or NaN. *)
Definition reduced (x : fval) : Prop :=
  match x with
  | Fin q => Qred q = q
  | NaN => True
  | PInf | NInf => False
  end.

(** The canonical series: a non-empty frame indexed by [Date] whose labels
    are pairwise distinct and whose [Close] and [Volume] columns hold one
    float64 per row, the closing prices being [closes]. *)
Definition canonical_series (df : DataFrame) (closes : list fval) : Prop :=
  NoDup (labels df)
  /\ select (L "Close") df = [map Num closes]
  /\ (exists volume, select (L "Volume") df = [volume])
  /\ List.length closes = nrows df
  /\ closes <> []
  /\ Forall reduced closes.

(** The working frame of [update_charts], as far as the charts read it:
    distinct labels, the closing prices, the volumes and the dates. *)
Definition tidy (df : DataFrame) (closes : list fval) (volume dates : list cell) : Prop :=
  NoDup (labels df)
  /\ select (L "Close") df = [map Num closes]
  /\ select (L "Volume") df = [volume]
  /\ index_values df = dates.

(** The values of the derived columns. *)
Definition ma_values (window : nat) (closes : list fval) : list cell :=
  map Num (rolling window 1 mean closes).

Definition return_values (closes : list fval) : list cell :=
  map Num (scale (of_Z 100) (pct_change closes)).

Definition volatility_values (sqrtQ : Q -> Q) (closes : list fval) : list cell :=
  map Num (rolling 30 1 (std sqrtQ) closes).

(** The price figure after lines 69-72 (or 74-77) have run. *)
Definition with_ma (selected : list string) (flag : string) (window : nat)
           (legend : string) (dates : list cell) (closes : list fval)
           (fig : Figure) : Figure :=
  if mem flag selected && negb (isnull_all (ma_values window closes))
  then add_trace {| kind := Scatter; name := legend; x := dates;
                    y := ma_values window closes |} fig
  else fig.

Definition returns_placeholder : Figure :=
  with_title "Daily Returns (Toggle On or No Data)" (Figure_hidden empty_note).

Definition volatility_placeholder : Figure :=
  with_title "Volatility (Toggle On or No Data)" (Figure_hidden empty_note).

(** The chart of lines 98-109 and that of lines 111-122, when shown. *)
Definition returns_chart (symbol : string) (dates : list cell) (closes : list fval)
  : Figure :=
  with_titles (symbol ++ " Daily Return Rates (%)")%string "Date" "Return (%)"
    (add_trace {| kind := Bar; name := "Daily Return"; x := dates;
                  y := return_values closes |} Figure_new).

Definition volatility_chart (sqrtQ : Q -> Q) (symbol : string) (dates : list cell)
           (closes : list fval) : Figure :=
  with_titles (symbol ++ " 30-Day Price Volatility")%string "Date" "Standard Deviation"
    (add_trace {| kind := Scatter; name := "30-Day Volatility"; x := dates;
                  y := volatility_values sqrtQ closes |} Figure_new).

(** What [update_charts] returns for a canonical series. *)
Definition charts (sqrtQ : Q -> Q) (symbol : string)
           (ma_selected_values return_toggle_value volatility_toggle_value : list string)
           (dates : list cell) (closes : list fval) (volume : list cell) : Outputs :=
  {| price_fig :=
       with_titles (symbol ++ " Stock Price with Moving Averages")%string
         "Date" "Price (USD)"
         (with_ma ma_selected_values "MA200" 200 "200-Day MA" dates closes
            (with_ma ma_selected_values "MA50" 50 "50-Day MA" dates closes
               (add_trace {| kind := Scatter; name := "Close"; x := dates;
                             y := map Num closes |} Figure_new)));
     volume_fig :=
       with_titles (symbol ++ " Trading Volume")%string "Date" "Volume"
         (add_trace {| kind := Bar; name := "Volume"; x := dates; y := volume |}
                    Figure_new);
     daily_returns_fig :=
       if mem "SHOW_RETURNS" return_toggle_value
       then returns_chart symbol dates closes else returns_placeholder;
     volatility_fig :=
       if mem "SHOW_VOLATILITY" volatility_toggle_value
       then volatility_chart sqrtQ symbol dates closes else volatility_placeholder;
     error_message := "";
     error_className := "" |}.

(** The traces of a figure that bear a given name. *)
Definition traces_named (n : string) (fig : Figure) : list Trace :=
  filter (fun t => String.eqb (name t) n) (data fig).

(** The frame a call returns and the lines it prints, from a given log. *)
Definition returned {A} (r : outcome A * list message) : outcome A := fst r.
Definition printed {A} (r : outcome A * list message) : list message := snd r.

(** A computation whose outcome does not depend on the log it starts
    from, and which only appends to it. *)
Definition uniform {A} (c : M message A) : Prop :=
  forall log, c log = (fst (c []), log ++ snd (c [])).

End Spec.
Export Spec.

(** ** Sample payloads, after tests/test_dashboard.py *)

Module Samples.

Definition num (z : Z) : json := JNum (inject_Z z).

Definition point (date : string) (open close high low volume : json) : record :=
  [("date", JStr date); ("open", open); ("close", close);
   ("high", high); ("low", low); ("volume", volume)].

Definition document (symbol : json) (rows : list record) : json :=
  JDict [("symbol", symbol); ("data", JList (map JDict rows))].

(** A remote source that answers every request with [status] and [doc]. *)
Definition answering (status : Z) (doc : json) : remote :=
  fun _ _ => GetResponse {| status_code := status; body := Returned doc |}.

(** [test_fetch_stock_data_success]. *)
Definition rows_success : list record :=
  [point "2024-01-01" (num 150) (num 155) (num 157) (num 149) (num 1000000);
   point "2024-01-02" (num 156) (num 158) (num 159) (num 154) (num 1100000)].

(** [test_fetch_stock_data_non_numeric_ohlc]. *)
Definition rows_non_numeric : list record :=
  [point "2024-01-01" (JStr "not-a-number") (num 155) (num 157) (num 149) (num 1000000);
   point "2024-01-02" (num 156) (num 158) (num 159) (num 154) (num 1100000)].

(** Two point-records for the same day. *)
Definition rows_repeated_date : list record :=
  [point "2024-01-02" (num 150) (num 155) (num 157) (num 149) (num 1000000);
   point "2024-01-02" (num 156) (num 158) (num 159) (num 154) (num 1100000)].

(** [test_fetch_stock_data_missing_columns_in_df]: no record has [open]. *)
Definition rows_missing_open : list record :=
  [[("date", JStr "2024-01-01"); ("close", num 155); ("high", num 157);
    ("low", num 149); ("volume", num 1000000)]].

(** [open] present in the first record, missing in the second. *)
Definition rows_partial_open : list record :=
  [point "2024-01-01" (num 150) (num 155) (num 157) (num 149) (num 1000000);
   [("date", JStr "2024-01-02"); ("close", num 158); ("high", num 159);
    ("low", num 154); ("volume", num 1100000)]].

(** Closing prices 100 and 110. *)
Definition rows_100_110 : list record :=
  [point "2024-01-01" (num 100) (num 100) (num 100) (num 100) (num 1000);
   point "2024-01-02" (num 110) (num 110) (num 110) (num 110) (num 1000)].

(** No closing price is a number. *)
Definition rows_no_close : list record :=
  [point "2024-01-01" (num 150) (JStr "n/a") (num 157) (num 149) (num 1000000);
   point "2024-01-02" (num 156) JNull (num 159) (num 154) (num 1100000)].

Definition day (d : nat) : cell := Stamp (Ts 2024 1 d).

(** A stand-in for the square root: rounded down to three decimals. *)
Definition sqrt_milli (q : Q) : Q :=
  Qred (Qmake (Z.sqrt (Qnum q * 1000000 / Zpos (Qden q))) 1000).

(** The dashboard's inputs for the symbol TEST over two days. *)
Definition test_symbol : option string := Some "TEST".
Definition test_start : option string := Some "2024-01-01".
Definition test_end : option string := Some "2024-01-02".
Definition all_on : option (list string) :=
  Some ["MA50"; "MA200"; "SHOW_RETURNS"; "SHOW_VOLATILITY"].

(** What [fetch_stock_data] does for the dashboard on given records. *)
Definition dashboard_fetch (rows : list record) : outcome DataFrame * list message :=
  fetch_stock_data (answering 200 (document (JStr "TEST") rows))
                   "TEST" "2024-01-01" "2024-01-02" default_api_base_url [].

End Samples.
Export Samples.

(** ** dashboard/app.py: the values the layout starts with *)

Module App.

(** The [value] of [stock-symbol-input] (line 34). *)
Definition stock_symbol_input : option string := Some "AAPL".

(** The [value] of [ma-toggles] (line 68), of [return-chart-toggle]
    (line 76) and of [volatility-chart-toggle] (line 84). *)
Definition ma_toggles : option (list string) := Some ["MA50"; "MA200"].
Definition return_chart_toggle : option (list string) := Some [].
Definition volatility_chart_toggle : option (list string) := Some [].

(** The call Dash makes when the page loads: the callback registered on
    line 98, on the layout's values.  The two dates of the picker
    (lines 46-47, computed from the clock) are taken as given, in the
    [YYYY-MM-DD] form in which Dash hands them to the callback. *)
Definition initial_update (sqrtQ : Q -> Q) (net : remote)
           (three_months_ago today : string) : M message Outputs :=
  update_charts sqrtQ net stock_symbol_input (Some three_months_ago) (Some today)
                ma_toggles return_chart_toggle volatility_chart_toggle.

End App.
Export App.

(** ** Further vocabulary *)

Module Readings.

(** A line that reports why nothing is returned, as opposed to the
    announcement of the request and the two warnings. *)
Definition is_diagnostic (m : message) : bool :=
  match m with
  | Attempting _ | WarningSymbolMismatch _ _ | WarningNonNumeric _ => false
  | _ => true
  end.

(** The announcement or a warning. *)
Definition quiet (m : message) : bool := negb (is_diagnostic m).

Definition is_stamp (c : cell) : bool :=
  match c with Stamp _ => true | _ => false end.

Definition is_num (c : cell) : bool :=
  match c with Num _ => true | _ => false end.

(** The numbers of a float64 series, NaN left out. *)
Fixpoint numbers (xs : list fval) : list Q :=
  match xs with
  | [] => []
  | Fin q :: xs' => q :: numbers xs'
  | _ :: xs' => numbers xs'
  end.

(** The traces of the four figures. *)
Definition all_traces (out : Outputs) : list Trace :=
  data (price_fig out) ++ data (volume_fig out)
    ++ data (daily_returns_fig out) ++ data (volatility_fig out).


(** What [update_charts] answers when an input is missing (lines 26-33)
    and when the series is empty (lines 52-58). *)
Definition missing_inputs : Outputs :=
  {| price_fig := Figure_hidden ""; volume_fig := Figure_hidden "";
     daily_returns_fig := Figure_hidden ""; volatility_fig := Figure_hidden "";
     error_message :=
       "Please ensure a stock symbol, start date, and end date are selected.";
     error_className := "error" |}.

Definition no_data (symbol start_date end_date : string) : Outputs :=
  {| price_fig :=
       with_title ("Stock Price for " ++ symbol ++ " (No Data)")%string
                  (Figure_hidden empty_note);
     volume_fig :=
       with_title ("Trading Volume for " ++ symbol ++ " (No Data)")%string
                  (Figure_hidden empty_note);
     daily_returns_fig := returns_placeholder;
     volatility_fig := volatility_placeholder;
     error_message :=
       ("Error: No data found for symbol '" ++ symbol ++ "' from "
          ++ start_date ++ " to " ++ end_date
          ++ ". Please check the symbol or try a different range.")%string;
     error_className := "error" |}.

(** The lines a call added to the log. *)
Definition appended (log log' new : list message) : Prop := log' = log ++ new.

(** A point-record with one key more than the API documents. *)
Definition rows_adjusted : list record :=
  [point "2024-01-01" (num 150) (num 155) (num 157) (num 149) (num 1000000)
     ++ [("adj_close", num 154)];
   point "2024-01-02" (num 156) (num 158) (num 159) (num 154) (num 1100000)
     ++ [("adj_close", JStr "n/a")]].

(** Numeric prices and volumes, and a key more whose value is null in
    the second record. *)
Definition rows_note : list record :=
  [point "2024-01-01" (num 150) (num 155) (num 157) (num 149) (num 1000000)
     ++ [("note", JStr "ex-dividend")];
   point "2024-01-02" (num 156) (num 158) (num 159) (num 154) (num 1100000)
     ++ [("note", JNull)]].

(** Closing prices 0 and 5. *)
Definition rows_0_5 : list record :=
  [point "2024-01-01" (num 1) (num 0) (num 1) (num 0) (num 1000);
   point "2024-01-02" (num 5) (num 5) (num 5) (num 5) (num 1000)].

(** Closing prices 100, missing, 110. *)
Definition rows_gap : list record :=
  [point "2024-01-01" (num 100) (num 100) (num 100) (num 100) (num 1000);
   point "2024-01-02" (num 100) JNull (num 100) (num 100) (num 1000);
   point "2024-01-03" (num 110) (num 110) (num 110) (num 110) (num 1000)].

End Readings.
Export Readings.

(** ** The values on which exact arithmetic and the library agree *)

Module Domain.

Fixpoint odd_part (p : positive) : positive :=
  match p with
  | xO p' => odd_part p'
  | _ => p
  end.

(** [q] is a finite float64 value: [m * 2^e] with [|m| < 2^53] and
    [-1074 <= e <= 971].  It is what [json] reads a number with a point
    or an exponent as, and an integer that float64 holds exactly. *)
Definition binary64 (q : Q) : bool :=
  match Qnum (Qred q) with
  | Z0 => true
  | Zpos n | Zneg n =>
      let d := Qden (Qred q) in
      Pos.eqb (odd_part d) 1
      && (Z.log2 (Zpos (odd_part n)) <? 53)%Z
      && (Z.log2 (Zpos d) <=? 1074)%Z
      && (Z.log2 (Zpos n) - Z.log2 (Zpos d) <? 1024)%Z
  end.

(** The characters of which spellings of numbers, of infinities, of NaN
    and of truth values are made, in decimal or hexadecimal. *)
Definition numeric_alphabet : string :=
  "0123456789+-.,_abcdefijlnoprstuxyABCDEFIJLNOPRSTUXY".

(** A printable ASCII character outside that alphabet. *)
Definition alien (c : ascii) : bool :=
  (33 <=? nat_of_ascii c) && (nat_of_ascii c <=? 126)
  && negb (existsb (Ascii.eqb c) (list_ascii_of_string numeric_alphabet)).

(** A string that no parser of numbers reads as a number: it holds a
    character that no spelling of a number contains. *)
Definition wordy (s : string) : bool :=
  existsb alien (list_ascii_of_string s).

(** A cell of the payload on whose numeric reading nothing depends on
    the parser, the rounding or the dtype: a number that float64 holds
    exactly, a null, a missing key or a wordy string.  (Booleans,
    numbers out of range, lists, mappings and strings that may spell a
    number are not.) *)
Definition plain (c : cell) : bool :=
  match c with
  | Obj (JNum q) => binary64 q
  | Obj JNull => true
  | Obj (JStr s) => wordy s
  | Num x => isnan x
  | _ => false
  end.

(** The value under a key fails numeric parsing for certain. *)
Definition unparsable (v : option json) : Prop :=
  v = None \/ v = Some JNull \/ exists s, v = Some (JStr s) /\ wordy s = true.

(** Every value of every numeric field of the point-records is plain. *)
Definition plain_fields (rows : list record) : bool :=
  forallb (fun f => forallb plain (raw_column f rows)) value_fields.

Definition is_text (c : cell) : bool :=
  match c with Obj (JStr _) => true | _ => false end.

(** A string that every encoding of an output stream can encode. *)
Definition is_ascii (s : string) : bool :=
  forallb (fun c => nat_of_ascii c <? 128) (list_ascii_of_string s).

(** Whatever document the remote source serves for the request, its
    symbol is in ASCII and its numeric fields are plain: no line fails
    to print for the symbol, and no column is read otherwise than here
    (in particular, no column of booleans reaches the division of line
    100, which on Python objects raises [ZeroDivisionError]). *)
Definition plain_payload (net : remote) (symbol start_date end_date : string) : Prop :=
  forall doc s rows,
    served net symbol start_date end_date default_api_base_url doc ->
    payload s rows doc -> is_ascii s = true /\ plain_fields rows = true.



(** A non-numeric opening price, and a date that does not parse. *)
Definition rows_not_dated : list record :=
  [point "soon" (JStr "not-a-number") (num 155) (num 157) (num 149) (num 1000000);
   point "2024-01-02" (num 156) (num 158) (num 159) (num 154) (num 1100000)].


End Domain.
Export Domain.

(** ** Line 100 of callbacks.py in binary64

    [df['Close'].pct_change() * 100] on a float64 column, every
    operation rounded as IEEE 754 prescribes: the kernel's primitive
    floats. *)

Module Binary64.
Import PrimFloat.

Definition one : float := 1%float.
Definition ten : float := 10%float.
Definition hundred : float := 100%float.

Fixpoint ffill_from (last : float) (xs : list float) : list float :=
  match xs with
  | [] => []
  | x :: xs' =>
      let y := if is_nan x then last else x in
      y :: ffill_from y xs'
  end.

Definition ffill (xs : list float) : list float := ffill_from nan xs.

(** [series.shift(1)]. *)
Definition shift (xs : list float) : list float :=
  match xs with
  | [] => []
  | _ => nan :: removelast xs
  end.

(** [series.pct_change()]: [data / data.shift(1) - 1]. *)
Definition pct_change (xs : list float) : list float :=
  let data := ffill xs in
  zip_with (fun cur prev => sub (div cur prev) one) data (shift data).

(** [series * k]. *)
Definition scale (k : float) (xs : list float) : list float :=
  map (fun x => mul x k) xs.

(** Line 100: the column [Daily Return]. *)
Definition daily_return (close : list float) : list float :=
  scale hundred (pct_change close).

(** The quotient the specification writes,
    [(Close[t] - Close[t-1]) / Close[t-1] * 100], in binary64. *)
Definition stated_return (c p : float) : float :=
  mul (div (sub c p) p) hundred.

(** Lines 99-102: the values of the bar trace [Daily Return], when the
    chart is requested and the frame has a non-empty column [Close]
    ([None]: the placeholder figure stays). *)
Definition daily_returns (return_toggle_value : list string)
           (close : option (list float)) : option (list float) :=
  match close with
  | Some xs =>
      if mem "SHOW_RETURNS" return_toggle_value && negb (List.length xs =? 0)
      then Some (daily_return xs)
      else None
  | None => None
  end.

(** Closing prices 100 and 110. *)
Definition price_100 : float := 100%float.
Definition price_110 : float := 110%float.
Definition closes_100_110 : list float := [price_100; price_110].

(** The float64 that Python prints as [10.000000000000009]: five units
    in the last place above ten. *)
Definition ten_and_five_ulps : float := 0x1.4000000000005p+3%float.

End Binary64.

(** ** fetch_stock_data on a stream that cannot encode every text

    [print] raises [UnicodeEncodeError] on a line that [sys.stdout]
    cannot encode.  Here the stream is a parameter: [accepts m] tells
    whether it can encode line [m].  With a stream that accepts every
    line these are the definitions of [DataFetcher]. *)

Module Stdout.

Section Stream.
Variable accepts : message -> bool.

Definition print (m : message) : M message unit :=
  if accepts m then Py.print m else raise UnicodeEncodeError.

(** Lines 56-91. *)
Definition build_frame (symbol : string) (data : list json) : M message DataFrame :=
  df <- DataFrame_of data ;;
  let df := rename column_mapping df in
  if negb (forallb (fun col => has_column (L col) df) required_cols)
  then
    print (MissingRequiredColumns (map fst (columns df))) ;;
    ret DataFrame_new
  else
    s <- getitem (L "Date") df ;;
    dates <- to_datetime s ;;
    let df := setitem (L "Date") dates df in
    df <- set_index (L "Date") df ;;
    df <- for_each numeric_cols coerce_column df ;;
    df <- coerce_column df "Volume" ;;
    when (isnull_any df) (print (WarningNonNumeric symbol)) ;;
    ret df.

(** Lines 51-91. *)
Definition after_symbol (symbol : string) (data : list json) : M message DataFrame :=
  match data with
  | [] =>
      print (NoDataPoints symbol) ;;
      ret DataFrame_new
  | _ :: _ => build_frame symbol data
  end.

(** Lines 39-91. *)
Definition process (symbol : string) (parsed_json_data : json) : M message DataFrame :=
  match parsed_json_data with
  | JDict d =>
      match dict_get "symbol" d, dict_get "data" d with
      | Some returned, Some (JList data) =>
          match returned with
          | JStr s =>
              when (negb (String.eqb (upper s) (upper symbol)))
                   (print (WarningSymbolMismatch s symbol))
          | _ => raise AttributeError
          end ;;
          after_symbol symbol data
      | _, _ =>
          print (InvalidDataFormat symbol) ;;
          ret DataFrame_new
      end
  | _ =>
      print (InvalidDataFormat symbol) ;;
      ret DataFrame_new
  end.

(** The [except] clauses of lines 93-101. *)
Definition handlers (symbol : string) : list (pyclass * (exn -> M message DataFrame)) :=
  [(cls_HTTPError,
     fun e => print (HTTPErrorFetching symbol e) ;; ret DataFrame_new);
   (cls_RequestException,
     fun e => print (ErrorFetching symbol e) ;; ret DataFrame_new);
   (cls_Exception,
     fun e => print (UnexpectedError symbol e) ;; ret DataFrame_new)].

Definition fetch_stock_data (net : remote)
           (symbol start_date end_date api_base_url : string) : M message DataFrame :=
  let api_url := api_url api_base_url symbol start_date end_date in
  print (Attempting api_url) ;;
  try_except
    (response <- get net api_url 10 ;;
     raise_for_status response ;;
     parsed <-
       try_except
         (j <- json_of response ;; ret (Some j))
         [(cls_json_JSONDecodeError,
            fun e => print (ErrorDecodingJSON symbol e) ;; ret None);
          (cls_requests_JSONDecodeError,
            fun e => print (ErrorDecodingJSONRequests symbol e) ;; ret None)] ;;
     match parsed with
     | None => ret DataFrame_new
     | Some parsed_json_data => process symbol parsed_json_data
     end)
    (handlers symbol).

End Stream.




End Stdout.

(** ** The computation monad *)

Lemma bind_returned {A B} (c : M message A) (f : A -> M message B) log a log' :
  c log = (Returned a, log') -> bind c f log = f a log'.
Proof. intros H. unfold bind. now rewrite H. Qed.

Lemma bind_raised {A B} (c : M message A) (f : A -> M message B) log e log' :
  c log = (Raised e, log') -> bind c f log = (Raised e, log').
Proof. intros H. unfold bind. now rewrite H. Qed.

Lemma uniform_ret {A} (a : A) : uniform (ret a).
Proof. intros log. unfold ret. simpl. now rewrite app_nil_r. Qed.

Lemma uniform_raise {A} (e : exn) : uniform (@raise message A e).
Proof. intros log. unfold raise. simpl. now rewrite app_nil_r. Qed.

Lemma uniform_print (m : message) : uniform (print m).
Proof. intros log. reflexivity. Qed.

Lemma uniform_bind {A B} (c : M message A) (f : A -> M message B) :
  uniform c -> (forall a, uniform (f a)) -> uniform (bind c f).
Proof.
  intros Hc Hf log. unfold bind.
  destruct (c []) as [r o] eqn:E.
  rewrite (Hc log), E. simpl.
  destruct r as [a | e].
  - rewrite (Hf a (log ++ o)), (Hf a o). simpl. now rewrite app_assoc.
  - reflexivity.
Qed.

Lemma uniform_dispatch {A} (hs : list (pyclass * (exn -> M message A))) e :
  Forall (fun ch => forall e', uniform (snd ch e')) hs -> uniform (dispatch hs e).
Proof.
  induction 1 as [| [c h] hs Hh _ IH]; simpl.
  - apply uniform_raise.
  - destruct (isinstance e c); [apply Hh | apply IH].
Qed.

Lemma uniform_try_except {A} (c : M message A) hs :
  uniform c -> Forall (fun ch => forall e', uniform (snd ch e')) hs ->
  uniform (try_except c hs).
Proof.
  intros Hc Hh log. unfold try_except.
  destruct (c []) as [r o] eqn:E.
  rewrite (Hc log), E. simpl.
  destruct r as [a | e]; [reflexivity |].
  rewrite (uniform_dispatch hs e Hh (log ++ o)), (uniform_dispatch hs e Hh o).
  simpl. now rewrite app_assoc.
Qed.

Lemma uniform_when b (c : M message unit) : uniform c -> uniform (when b c).
Proof. intros Hc. destruct b; [exact Hc | apply uniform_ret]. Qed.

Lemma uniform_for_each {S X} (xs : list X) (f : S -> X -> M message S) :
  (forall s x, uniform (f s x)) -> forall s, uniform (for_each xs f s).
Proof.
  intros Hf. induction xs as [| x xs IH]; intros s; simpl.
  - apply uniform_ret.
  - apply uniform_bind; [apply Hf | exact IH].
Qed.

Lemma uniform_lift {A} (o : outcome A) : uniform (lift o).
Proof. destruct o; [apply uniform_ret | apply uniform_raise]. Qed.

Create HintDb uniform.
#[export] Hint Resolve uniform_ret uniform_raise uniform_print uniform_when
  uniform_lift : uniform.

Ltac uniform_step :=
  first [ apply uniform_bind; [| intros ? ]
        | apply uniform_for_each; intros ? ?
        | apply uniform_try_except; [| repeat constructor; intros ? ]
        | solve [ auto with uniform ] ].

Lemma uniform_getitem c df : uniform (@getitem message c df).
Proof.
  unfold getitem. destruct (select c df) as [| s [| s' rest]]; auto with uniform.
Qed.

Lemma uniform_to_datetime arg : uniform (@to_datetime message arg).
Proof.
  destruct arg; simpl; auto with uniform.
Qed.

Lemma uniform_to_numeric arg : uniform (@to_numeric message arg).
Proof. destruct arg; simpl; auto with uniform. Qed.

Lemma uniform_set_index c df : uniform (@set_index message c df).
Proof. unfold set_index. destruct (select c df); auto with uniform. Qed.

Lemma uniform_DataFrame_of data : uniform (@DataFrame_of message data).
Proof.
  unfold DataFrame_of. destruct data as [| [] rest]; auto with uniform.
  destruct (as_records _); auto with uniform.
Qed.

#[export] Hint Resolve uniform_getitem uniform_to_datetime uniform_to_numeric
  uniform_set_index uniform_DataFrame_of : uniform.

Lemma uniform_coerce_column df col : uniform (coerce_column df col).
Proof. unfold coerce_column. repeat uniform_step. Qed.

#[export] Hint Resolve uniform_coerce_column : uniform.

Lemma uniform_build_frame symbol data : uniform (build_frame symbol data).
Proof.
  unfold build_frame.
  apply uniform_bind; [auto with uniform | intros df0].
  destruct (negb _); repeat uniform_step.
Qed.

Lemma uniform_process symbol doc : uniform (process symbol doc).
Proof.
  unfold process. destruct doc as [| | | | | d]; try solve [repeat uniform_step].
  destruct (dict_get "symbol" d) as [v |]; try solve [repeat uniform_step].
  destruct (dict_get "data" d) as [[| | | | data |] |]; try solve [repeat uniform_step].
  apply uniform_bind.
  - destruct v; auto with uniform.
  - intros _. destruct data; [repeat uniform_step | apply uniform_build_frame].
Qed.

(** ** [fetch_stock_data]: transport, decoding and the [except] clauses *)

Section Fetch.
Variables (net : remote) (symbol start_date end_date base : string).
Let url := api_url base symbol start_date end_date.

Lemma fetch_get_raised e log :
  net url 10 = GetRaised e ->
  fetch_stock_data net symbol start_date end_date base log
  = (Returned DataFrame_new, log ++ [Attempting url; failure_line symbol e]).
Proof.
  intros H. unfold fetch_stock_data, bind, print, try_except, get. fold url.
  rewrite H. unfold raise, ret, failure_line.
  destruct e; simpl; now rewrite <- app_assoc.
Qed.

Lemma fetch_bad_status r log :
  net url 10 = GetResponse r -> bad_status (status_code r) = true ->
  fetch_stock_data net symbol start_date end_date base log
  = (Returned DataFrame_new, log ++ [Attempting url; HTTPErrorFetching symbol HTTPError]).
Proof.
  intros H Hs. unfold fetch_stock_data, bind, print, try_except, get, raise_for_status.
  fold url. rewrite H. unfold bad_status in Hs. unfold ret. rewrite Hs. simpl.
  now rewrite <- app_assoc.
Qed.

Lemma fetch_body_raised r e log :
  net url 10 = GetResponse r -> bad_status (status_code r) = false ->
  body r = Raised e ->
  fetch_stock_data net symbol start_date end_date base log
  = (Returned DataFrame_new,
     log ++ [Attempting url;
             if isinstance e cls_json_JSONDecodeError || isinstance e cls_requests_JSONDecodeError
             then decode_line symbol e else failure_line symbol e]).
Proof.
  intros H Hs Hb.
  unfold fetch_stock_data, bind, print, try_except, get, raise_for_status, json_of.
  fold url. rewrite H. unfold bad_status in Hs. unfold ret. rewrite Hs, Hb.
  unfold raise, decode_line, failure_line. simpl.
  destruct e; simpl; now rewrite <- app_assoc.
Qed.

(** A served document is handed to [process]; what [process] raises is
    turned into the empty frame. *)
Lemma fetch_served r doc log :
  net url 10 = GetResponse r -> bad_status (status_code r) = false ->
  body r = Returned doc ->
  fetch_stock_data net symbol start_date end_date base log
  = match process symbol doc (log ++ [Attempting url]) with
    | (Returned df, log') => (Returned df, log')
    | (Raised e, log') => (Returned DataFrame_new, log' ++ [failure_line symbol e])
    end.
Proof.
  intros H Hs Hb.
  unfold fetch_stock_data, bind, print, try_except, get, raise_for_status, json_of.
  fold url. rewrite H. unfold bad_status in Hs. unfold ret. rewrite Hs, Hb.
  destruct (process symbol doc (log ++ [Attempting url])) as [[df | e] log'].
  - reflexivity.
  - unfold failure_line. destruct e; reflexivity.
Qed.

Lemma process_ill_shaped doc log :
  well_shaped doc = false ->
  process symbol doc log = (Returned DataFrame_new, log ++ [InvalidDataFormat symbol]).
Proof.
  unfold well_shaped, process. intros H.
  destruct doc as [| | | | | d]; try reflexivity.
  destruct (dict_get "symbol" d); [| reflexivity].
  destruct (dict_get "data" d) as [[] |]; try reflexivity. discriminate.
Qed.

Lemma process_symbol_not_str d v data log :
  dict_get "symbol" d = Some v -> dict_get "data" d = Some (JList data) ->
  is_str v = false ->
  process symbol (JDict d) log = (Raised AttributeError, log).
Proof.
  intros Hv Hd Hs. unfold process. rewrite Hv, Hd.
  destruct v; try discriminate; reflexivity.
Qed.
End Fetch.


(** ** The symbol comparison *)

Lemma uniform_after_symbol symbol data : uniform (after_symbol symbol data).
Proof.
  destruct data; simpl; [repeat uniform_step | apply uniform_build_frame].
Qed.

Lemma process_symbol_str symbol d s data log :
  dict_get "symbol" d = Some (JStr s) -> dict_get "data" d = Some (JList data) ->
  process symbol (JDict d) log = after_symbol symbol data (log ++ symbol_warning symbol s).
Proof.
  intros Hs Hd. unfold process, symbol_warning. rewrite Hs, Hd.
  unfold bind, when, after_symbol.
  destruct (negb (String.eqb (upper s) (upper symbol))); simpl.
  - destruct data; reflexivity.
  - unfold ret. rewrite app_nil_r. destruct data; reflexivity.
Qed.

(** The frame [fetch_stock_data] returns for a served, well-shaped document
    whose symbol is a string: a function of the point-records alone. *)
Lemma fetch_well_shaped net symbol start_date end_date base log r d s data :
  net (api_url base symbol start_date end_date) 10 = GetResponse r ->
  bad_status (status_code r) = false ->
  body r = Returned (JDict d) ->
  dict_get "symbol" d = Some (JStr s) -> dict_get "data" d = Some (JList data) ->
  fetch_stock_data net symbol start_date end_date base log
  = (Returned (absorbed (fst (after_symbol symbol data []))),
     log ++ [Attempting (api_url base symbol start_date end_date)]
         ++ symbol_warning symbol s
         ++ snd (after_symbol symbol data [])
         ++ match fst (after_symbol symbol data []) with
            | Returned _ => []
            | Raised e => [failure_line symbol e]
            end).
Proof.
  intros Hnet Hst Hb Hs Hd.
  rewrite (fetch_served _ _ _ _ _ _ _ log Hnet Hst Hb).
  rewrite (process_symbol_str _ _ _ _ _ Hs Hd).
  rewrite (uniform_after_symbol symbol data _).
  destruct (after_symbol symbol data []) as [[df | e] out]; simpl;
    rewrite <- ?app_assoc; simpl; rewrite ?app_nil_r; reflexivity.
Qed.

(** C10.  A document with keys [symbol] and [data], the latter a list,
    passes the structural gate whatever the value under [symbol]; when that
    value is not a string the comparison [.upper()] raises
    [AttributeError], the last [except] clause absorbs it, and the empty
    frame is returned. *)
Theorem non_string_symbol_returns_empty :
  forall (net : remote) (symbol start_date end_date base : string) (log : list message)
         (r : Response) (d : record) (v : json) (data : list json),
    net (api_url base symbol start_date end_date) 10 = GetResponse r ->
    bad_status (status_code r) = false ->
    body r = Returned (JDict d) ->
    dict_get "symbol" d = Some v ->
    dict_get "data" d = Some (JList data) ->
    is_str v = false ->
    well_shaped (JDict d) = true
    /\ process symbol (JDict d) (log ++ [Attempting (api_url base symbol start_date end_date)])
       = (Raised AttributeError,
          log ++ [Attempting (api_url base symbol start_date end_date)])
    /\ fetch_stock_data net symbol start_date end_date base log
       = (Returned DataFrame_new,
          log ++ [Attempting (api_url base symbol start_date end_date);
                  UnexpectedError symbol AttributeError]).
Proof.
  intros net symbol start_date end_date base log r d v data Hnet Hst Hb Hv Hd Hs.
  split; [| split].
  - unfold well_shaped. now rewrite Hv, Hd.
  - apply (process_symbol_not_str _ _ _ _ _ Hv Hd Hs).
  - rewrite (fetch_served _ _ _ _ _ _ _ log Hnet Hst Hb).
    rewrite (process_symbol_not_str _ _ _ _ _ Hv Hd Hs).
    unfold failure_line. simpl. now rewrite <- app_assoc.
Qed.

(** ** Frames: selection and assignment of columns *)

Lemma label_eqb_spec a b : reflect (a = b) (label_eqb a b).
Proof.
  destruct a as [s | i], b as [t | j]; simpl; try (constructor; congruence).
  - destruct (String.eqb_spec s t); constructor; congruence.
  - destruct (Nat.eqb_spec i j); constructor; congruence.
Qed.

Lemma label_eqb_refl a : label_eqb a a = true.
Proof. destruct (label_eqb_spec a a); congruence. Qed.

Lemma label_eqb_sym a b : label_eqb a b = label_eqb b a.
Proof.
  destruct (label_eqb_spec a b), (label_eqb_spec b a); congruence.
Qed.

Lemma has_column_select c df :
  has_column c df = match select c df with [] => false | _ :: _ => true end.
Proof.
  unfold has_column, select. induction (columns df) as [| lc cols IH]; simpl.
  - reflexivity.
  - destruct (label_eqb (fst lc) c); simpl; [reflexivity | exact IH].
Qed.

Lemma select_setitem_other c c' w df :
  label_eqb c' c = false -> select c (setitem c' w df) = select c df.
Proof.
  intros H. unfold select, setitem. simpl.
  destruct (has_column c' df).
  - induction (columns df) as [| lc cols IH]; simpl; [reflexivity |].
    destruct (label_eqb_spec (fst lc) c') as [E | N]; simpl.
    + rewrite E, H. exact IH.
    + destruct (label_eqb (fst lc) c); simpl; now rewrite IH.
  - rewrite filter_app, map_app. simpl. rewrite H. simpl. now rewrite app_nil_r.
Qed.

Lemma select_setitem_same c w df :
  has_column c df = true ->
  select c (setitem c w df) = map (fun _ => w) (select c df).
Proof.
  intros H. unfold select, setitem. simpl. rewrite H.
  induction (columns df) as [| lc cols IH]; simpl; [reflexivity |].
  destruct (label_eqb (fst lc) c) eqn:E; simpl; rewrite ?E; simpl; now rewrite IH.
Qed.

Lemma select_setitem_one c w df v :
  select c df = [v] -> select c (setitem c w df) = [w].
Proof.
  intros H. rewrite select_setitem_same.
  - now rewrite H.
  - rewrite has_column_select. now rewrite H.
Qed.

Lemma select_setitem_new c w df :
  select c df = [] -> select c (setitem c w df) = [w].
Proof.
  intros H. unfold select, setitem. simpl.
  rewrite has_column_select, H.
  rewrite filter_app, map_app. fold (select c df). rewrite H. simpl.
  now rewrite label_eqb_refl.
Qed.

Lemma index_setitem c w df : index (setitem c w df) = index df.
Proof. reflexivity. Qed.

Lemma nrows_setitem c w df : nrows (setitem c w df) = nrows df.
Proof. reflexivity. Qed.

Lemma labels_setitem_present c w df :
  has_column c df = true -> labels (setitem c w df) = labels df.
Proof.
  intros H. unfold labels, setitem. simpl. rewrite H. rewrite map_map.
  apply map_ext. intros lc. now destruct (label_eqb (fst lc) c).
Qed.

Lemma labels_setitem_absent c w df :
  has_column c df = false -> labels (setitem c w df) = labels df ++ [c].
Proof.
  intros H. unfold labels, setitem. simpl. rewrite H. now rewrite map_app.
Qed.

Lemma select_indexed c dates df :
  label_eqb c (L "Date") = false -> select c (indexed dates df) = select c df.
Proof.
  intros H. unfold select, indexed. simpl.
  induction (columns df) as [| lc cols IH]; simpl; [reflexivity |].
  destruct (label_eqb_spec (fst lc) (L "Date")) as [E | N]; simpl.
  - rewrite E. rewrite label_eqb_sym, H. exact IH.
  - destruct (label_eqb (fst lc) c); simpl; now rewrite IH.
Qed.

Lemma set_index_ok (c : label) df s rest log :
  select c df = s :: rest ->
  @set_index message c df log
  = (Returned {| index := LabelIndex c s;
                 columns := filter (fun lc => negb (label_eqb (fst lc) c)) (columns df) |},
     log).
Proof. intros H. unfold set_index. now rewrite H. Qed.

Lemma getitem_one (c : label) df s log :
  select c df = [s] -> @getitem message c df log = (Returned (Series s), log).
Proof. intros H. unfold getitem. now rewrite H. Qed.

Lemma coerce_column_ok df col s log :
  select (L col) df = [s] ->
  coerce_column df col log = (Returned (coerce df col), log).
Proof.
  intros H. unfold coerce_column, coerce, bind.
  rewrite (getitem_one _ _ _ _ H). simpl. now rewrite H.
Qed.

Lemma select_coerce_other df col c :
  label_eqb (L col) c = false -> select c (coerce df col) = select c df.
Proof.
  intros H. unfold coerce.
  destruct (select (L col) df) as [| s [| s' rest]]; try reflexivity.
  now apply select_setitem_other.
Qed.

Lemma select_coerce_same df col s :
  select (L col) df = [s] -> select (L col) (coerce df col) = [coerced s].
Proof.
  intros H. unfold coerce. rewrite H. now apply select_setitem_one with (v := s).
Qed.

Lemma index_coerce df col : index (coerce df col) = index df.
Proof.
  unfold coerce. now destruct (select (L col) df) as [| s [| s' rest]].
Qed.

Lemma labels_coerce df col : labels (coerce df col) = labels df.
Proof.
  unfold coerce. destruct (select (L col) df) as [| s [| s' rest]] eqn:E; try reflexivity.
  apply labels_setitem_present. rewrite has_column_select. now rewrite E.
Qed.

(** ** [build_frame]: the path through every gate *)

Lemma as_records_map rows : as_records (map JDict rows) = Some rows.
Proof.
  induction rows as [| r rows IH]; simpl; [reflexivity | now rewrite IH].
Qed.

Lemma DataFrame_of_records rows log :
  rows <> [] ->
  @DataFrame_of message (map JDict rows) log = (Returned (of_records rows), log).
Proof.
  destruct rows as [| r rows]; [congruence |]. intros _.
  unfold DataFrame_of. change (map JDict (r :: rows)) with (JDict r :: map JDict rows).
  cbv iota beta. change (JDict r :: map JDict rows) with (map JDict (r :: rows)).
  now rewrite as_records_map.
Qed.

Lemma indexed_setitem dates df :
  has_column (L "Date") df = true ->
  {| index := LabelIndex (L "Date") dates;
     columns := filter (fun lc => negb (label_eqb (fst lc) (L "Date")))
                       (columns (setitem (L "Date") dates df)) |}
  = indexed dates df.
Proof.
  intros H. unfold indexed, setitem. simpl. rewrite H. f_equal.
  induction (columns df) as [| lc cols IH]; simpl; [reflexivity |].
  destruct (label_eqb (fst lc) (L "Date")) eqn:E; simpl; rewrite E; simpl; now rewrite IH.
Qed.

Lemma select_fold_coerce_other cols c df :
  ~ In c cols -> select (L c) (fold_left coerce cols df) = select (L c) df.
Proof.
  revert df. induction cols as [| col cols IH]; intros df H; simpl; [reflexivity |].
  rewrite IH by (intros F; apply H; now right).
  apply select_coerce_other. simpl.
  destruct (String.eqb_spec col c) as [E | N]; [| reflexivity].
  exfalso. apply H. now left.
Qed.

Lemma for_each_coerce cols df log :
  NoDup cols ->
  (forall col, In col cols -> exists s, select (L col) df = [s]) ->
  for_each cols coerce_column df log = (Returned (fold_left coerce cols df), log).
Proof.
  revert df. induction cols as [| col cols IH]; intros df Hnd Hsel; simpl.
  - reflexivity.
  - destruct (Hsel col (or_introl eq_refl)) as [s Hs].
    rewrite (bind_returned _ _ _ _ _ (coerce_column_ok df col s log Hs)).
    inversion Hnd as [| ? ? Hnotin Hnd']; subst.
    apply IH; [exact Hnd' |].
    intros c Hc. destruct (Hsel c (or_intror Hc)) as [s' Hs'].
    exists s'. rewrite <- Hs'. apply select_coerce_other. simpl.
    destruct (String.eqb_spec col c) as [E | N]; [| reflexivity].
    subst. contradiction.
Qed.

(** The frame and the log when no gate stops the records. *)
Lemma build_frame_ok symbol rows log sd dates so sh sl sc sv :
  rows <> [] ->
  select (L "Date") (renamed rows) = [sd] ->
  to_datetime_values sd = Returned dates ->
  select (L "Open") (renamed rows) = [so] ->
  select (L "High") (renamed rows) = [sh] ->
  select (L "Low") (renamed rows) = [sl] ->
  select (L "Close") (renamed rows) = [sc] ->
  select (L "Volume") (renamed rows) = [sv] ->
  build_frame symbol (map JDict rows) log
  = (Returned (canonical_frame dates (renamed rows)),
     log ++ (if isnull_any (canonical_frame dates (renamed rows))
             then [WarningNonNumeric symbol] else [])).
Proof.
  intros Hne Hd Hdates Ho Hh Hl Hc Hv.
  unfold build_frame.
  rewrite (bind_returned _ _ _ _ _ (DataFrame_of_records rows log Hne)).
  fold (renamed rows).
  assert (Hgate : forallb (fun col => has_column (L col) (renamed rows)) required_cols = true).
  { simpl. rewrite !has_column_select, Hd, Ho, Hh, Hl, Hc, Hv. reflexivity. }
  rewrite Hgate. cbv [negb].
  rewrite (bind_returned _ _ _ _ _ (getitem_one _ _ _ log Hd)).
  unfold to_datetime. rewrite Hdates.
  unfold lift at 1. unfold bind at 1, ret at 1.
  assert (Hcol : has_column (L "Date") (renamed rows) = true)
    by (rewrite has_column_select, Hd; reflexivity).
  rewrite (bind_returned _ _ _ _ _
             (set_index_ok _ _ _ [] log (select_setitem_one _ dates _ _ Hd))).
  rewrite (indexed_setitem dates _ Hcol).
  set (df1 := indexed dates (renamed rows)).
  assert (H1 : for_each numeric_cols coerce_column df1 log
               = (Returned (fold_left coerce numeric_cols df1), log)).
  { apply for_each_coerce.
    - unfold numeric_cols. repeat constructor; simpl; intuition discriminate.
    - intros col Hin. subst df1. rewrite select_indexed.
      + simpl in Hin. intuition (subst; eauto).
      + simpl in Hin. intuition (subst; reflexivity). }
  rewrite (bind_returned _ _ _ _ _ H1).
  assert (H2 : select (L "Volume") (fold_left coerce numeric_cols df1) = [sv]).
  { rewrite select_fold_coerce_other.
    - subst df1. rewrite select_indexed by reflexivity. exact Hv.
    - simpl. intuition discriminate. }
  rewrite (bind_returned _ _ _ _ _ (coerce_column_ok _ "Volume" sv log H2)).
  change (coerce (fold_left coerce numeric_cols df1) "Volume")
    with (canonical_frame dates (renamed rows)).
  unfold bind, when, print, ret.
  destruct (isnull_any (canonical_frame dates (renamed rows))); simpl;
    now rewrite ?app_nil_r.
Qed.

(** ** From the point-records to the columns of the frame *)

Lemma mem_In s l : mem s l = true <-> In s l.
Proof.
  unfold mem. rewrite existsb_exists. split.
  - intros [x [Hin Hx]]. apply String.eqb_eq in Hx. now subst.
  - intros H. exists s. split; [exact H | apply String.eqb_refl].
Qed.

Lemma distinct_NoDup l : distinct l = true <-> NoDup l.
Proof.
  induction l as [| a l IH]; simpl.
  - split; [constructor | reflexivity].
  - rewrite andb_true_iff, negb_true_iff, IH. split.
    + intros [Hm Hd]. constructor; [| exact Hd].
      intros Hin. apply mem_In in Hin. congruence.
    + intros H. inversion H as [| ? ? Hn Hd]; subst. split; [| exact Hd].
      destruct (mem a l) eqn:E; [| reflexivity].
      apply mem_In in E. contradiction.
Qed.

Lemma select_renamed c rows :
  select (L c) (renamed rows)
  = map (fun k => map (cell_of k) rows)
        (filter (fun k => String.eqb (canon k) c) (union_keys rows)).
Proof.
  unfold select, renamed, rename, of_records. cbn [columns].
  induction (union_keys rows) as [| k ks IH]; [reflexivity |].
  cbn [map filter fst snd rename_label].
  change (label_eqb (L (lookup column_mapping k)) (L c)) with (String.eqb (canon k) c).
  destruct (String.eqb (canon k) c); cbn [map]; now rewrite IH.
Qed.

Lemma filter_none {A} (f : A -> bool) l :
  (forall x, In x l -> f x = false) -> filter f l = [].
Proof.
  induction l as [| a l IH]; simpl; intros H; [reflexivity |].
  rewrite (H a (or_introl eq_refl)). apply IH. intros x Hx. apply H. now right.
Qed.

Lemma filter_canon_one ks k :
  NoDup (map canon ks) -> In k ks ->
  filter (fun k' => String.eqb (canon k') (canon k)) ks = [k].
Proof.
  induction ks as [| a ks IH]; simpl; intros Hnd Hin; [contradiction |].
  inversion Hnd as [| ? ? Hn Hnd']; subst.
  destruct Hin as [-> | Hin].
  - rewrite String.eqb_refl. f_equal.
    apply filter_none.
    intros x Hx. destruct (String.eqb_spec (canon x) (canon k)) as [E | N]; [| reflexivity].
    exfalso. apply Hn. rewrite <- E. now apply in_map.
  - destruct (String.eqb_spec (canon a) (canon k)) as [E | N].
    + exfalso. apply Hn. rewrite E. now apply in_map.
    + now apply IH.
Qed.

(** A complete and unambiguous set of records has, for each canonical
    name, exactly one column: the cells under its source key. *)
Lemma select_canonical c rows :
  unambiguous rows = true -> In c (map canon (union_keys rows)) ->
  canon (source_key c rows) = c
  /\ In (source_key c rows) (union_keys rows)
  /\ select (L c) (renamed rows) = [raw_column c rows].
Proof.
  intros Hu Hin. apply distinct_NoDup in Hu.
  apply in_map_iff in Hin. destruct Hin as [k [Hk Hin]]. subst c.
  unfold raw_column, source_key. rewrite select_renamed.
  rewrite (filter_canon_one _ _ Hu Hin). simpl. auto.
Qed.

Lemma complete_In rows c :
  complete rows = true -> In c required_cols -> In c (map canon (union_keys rows)).
Proof.
  unfold complete. rewrite forallb_forall. intros H Hc. apply mem_In. now apply H.
Qed.

Lemma to_datetime_values_length s dates :
  to_datetime_values s = Returned dates -> List.length dates = List.length s.
Proof.
  revert dates. induction s as [| c s IH]; simpl; intros dates H.
  - now inversion H.
  - destruct (to_datetime_value c); [| discriminate].
    destruct (to_datetime_values s) as [ts |]; [| discriminate].
    inversion H. simpl. now rewrite (IH ts).
Qed.

Lemma to_datetime_values_nth s dates i c :
  to_datetime_values s = Returned dates -> nth_error s i = Some c ->
  exists t, nth_error dates i = Some t /\ to_datetime_value c = Returned t.
Proof.
  revert dates i. induction s as [| a s IH]; simpl; intros dates i H Hi.
  - destruct i; discriminate.
  - destruct (to_datetime_value a) as [t |] eqn:Ea; [| discriminate].
    destruct (to_datetime_values s) as [ts |]; [| discriminate].
    inversion H; subst. destruct i as [| i]; simpl in *.
    + inversion Hi; subst. eauto.
    + now apply IH.
Qed.

(** ** The frame line 91 returns *)

Lemma select_fold_coerce_same cols c df s :
  NoDup cols -> In c cols -> select (L c) df = [s] ->
  select (L c) (fold_left coerce cols df) = [coerced s].
Proof.
  revert df. induction cols as [| col cols IH]; intros df Hnd Hin Hs; simpl;
    [contradiction |].
  inversion Hnd as [| ? ? Hn Hnd']; subst.
  destruct Hin as [-> | Hin].
  - rewrite select_fold_coerce_other by exact Hn. now apply select_coerce_same.
  - apply IH; [exact Hnd' | exact Hin |].
    rewrite select_coerce_other; [exact Hs |]. simpl.
    destruct (String.eqb_spec col c) as [E | N]; [| reflexivity].
    subst. contradiction.
Qed.

Lemma index_fold_coerce cols df : index (fold_left coerce cols df) = index df.
Proof.
  revert df. induction cols as [| col cols IH]; intros df; simpl; [reflexivity |].
  now rewrite IH, index_coerce.
Qed.

Lemma labels_fold_coerce cols df : labels (fold_left coerce cols df) = labels df.
Proof.
  revert df. induction cols as [| col cols IH]; intros df; simpl; [reflexivity |].
  now rewrite IH, labels_coerce.
Qed.

Lemma NoDup_value_fields : NoDup value_fields.
Proof. unfold value_fields. repeat constructor; simpl; intuition discriminate. Qed.

Lemma select_canonical_frame dates df c s :
  In c value_fields -> select (L c) df = [s] ->
  select (L c) (canonical_frame dates df) = [coerced s].
Proof.
  intros Hin Hs. unfold canonical_frame.
  apply select_fold_coerce_same; [apply NoDup_value_fields | exact Hin |].
  rewrite select_indexed; [exact Hs |].
  simpl in Hin. intuition (subst; reflexivity).
Qed.

Lemma index_canonical_frame dates df :
  index (canonical_frame dates df) = LabelIndex (L "Date") dates.
Proof. unfold canonical_frame. now rewrite index_fold_coerce. Qed.

Lemma empty_canonical_frame dates df s :
  dates <> [] -> select (L "Close") df = [s] ->
  empty (canonical_frame dates df) = false.
Proof.
  intros Hd Hs. unfold empty, nrows. rewrite index_canonical_frame.
  pose proof (select_canonical_frame dates df "Close" s
                ltac:(simpl; tauto) Hs) as H.
  destruct dates; [congruence |]. simpl.
  unfold select in H. destruct (columns (canonical_frame (c :: dates) df)); [discriminate |].
  reflexivity.
Qed.

(** ** Keys of the records *)

Lemma add_keys_In acc ks k :
  In k (add_keys acc ks) <-> In k acc \/ In k ks.
Proof.
  revert acc. induction ks as [| a ks IH]; intros acc; simpl.
  - tauto.
  - rewrite IH. destruct (mem a acc) eqn:E.
    + apply mem_In in E. split; [tauto |].
      intros [H | [H | H]]; subst; auto.
    + rewrite in_app_iff. simpl. tauto.
Qed.

Lemma add_keys_NoDup acc ks : NoDup acc -> NoDup (add_keys acc ks).
Proof.
  revert acc. induction ks as [| a ks IH]; intros acc H; simpl; [exact H |].
  apply IH. destruct (mem a acc) eqn:E; [exact H |].
  apply NoDup_app; [exact H | repeat constructor; simpl; tauto |].
  intros x Hx [Hin | []]. subst x.
  apply mem_In in Hx. congruence.
Qed.

Lemma fold_add_keys_In rows acc k :
  In k (fold_left (fun acc r => add_keys acc (keys r)) rows acc)
  <-> In k acc \/ exists r, In r rows /\ In k (keys r).
Proof.
  revert acc. induction rows as [| r rows IH]; intros acc; simpl.
  - split; [tauto | intros [H | [r [[] _]]]; exact H].
  - rewrite IH, add_keys_In. split.
    + intros [[H | H] | [r' [Hr Hk]]]; eauto.
    + intros [H | [r' [[-> | Hr] Hk]]]; eauto.
Qed.

Lemma union_keys_In rows k :
  In k (union_keys rows) <-> exists r, In r rows /\ In k (keys r).
Proof.
  unfold union_keys. rewrite fold_add_keys_In. simpl. tauto.
Qed.

Lemma union_keys_NoDup rows : NoDup (union_keys rows).
Proof.
  unfold union_keys. generalize (@NoDup_nil string).
  generalize (@nil string). induction rows as [| r rows IH]; intros acc H; simpl.
  - exact H.
  - apply IH. now apply add_keys_NoDup.
Qed.

(** ** [fetch_stock_data] when every gate is passed *)

Lemma fetch_canonical_frame net symbol start_date end_date base log doc s rows dates :
  served net symbol start_date end_date base doc ->
  payload s rows doc ->
  rows <> [] ->
  complete rows = true ->
  unambiguous rows = true ->
  to_datetime_values (raw_column "Date" rows) = Returned dates ->
  fetch_stock_data net symbol start_date end_date base log
  = (Returned (canonical_frame dates (renamed rows)),
     log ++ [Attempting (api_url base symbol start_date end_date)]
         ++ symbol_warning symbol s
         ++ (if isnull_any (canonical_frame dates (renamed rows))
             then [WarningNonNumeric symbol] else [])).
Proof.
  intros [r [Hnet [Hst Hb]]] [d [-> [Hs Hd]]] Hne Hc Hu Hdates.
  rewrite (fetch_well_shaped _ _ _ _ _ log _ _ _ _ Hnet Hst Hb Hs Hd).
  assert (Hsel : forall c, In c required_cols ->
                           select (L c) (renamed rows) = [raw_column c rows]).
  { intros c Hin. apply select_canonical; [exact Hu | now apply complete_In]. }
  assert (Hbf : after_symbol symbol (map JDict rows) []
                = (Returned (canonical_frame dates (renamed rows)),
                   if isnull_any (canonical_frame dates (renamed rows))
                   then [WarningNonNumeric symbol] else [])).
  { unfold after_symbol. destruct rows as [| r0 rows']; [congruence |].
    change (map JDict (r0 :: rows')) with (JDict r0 :: map JDict rows').
    cbv iota. change (JDict r0 :: map JDict rows') with (map JDict (r0 :: rows')).
    apply (build_frame_ok symbol (r0 :: rows') [] _ dates _ _ _ _ _ Hne
             (Hsel "Date" ltac:(simpl; tauto)) Hdates
             (Hsel "Open" ltac:(simpl; tauto)) (Hsel "High" ltac:(simpl; tauto))
             (Hsel "Low" ltac:(simpl; tauto)) (Hsel "Close" ltac:(simpl; tauto))
             (Hsel "Volume" ltac:(simpl; tauto))). }
  rewrite Hbf. simpl. now rewrite app_nil_r.
Qed.

Lemma nrows_canonical_frame dates rows :
  to_datetime_values (raw_column "Date" rows) = Returned dates ->
  nrows (canonical_frame dates (renamed rows)) = List.length rows.
Proof.
  intros H. unfold nrows. rewrite index_canonical_frame.
  rewrite (to_datetime_values_length _ _ H). unfold raw_column. apply length_map.
Qed.

Lemma served_answering status doc symbol start_date end_date base :
  bad_status status = false ->
  served (answering status doc) symbol start_date end_date base doc.
Proof.
  intros H. eexists. split; [reflexivity |]. split; [exact H | reflexivity].
Qed.

Lemma payload_document s rows : payload s rows (document (JStr s) rows).
Proof. eexists. split; [reflexivity |]. split; reflexivity. Qed.

(** The test [test_fetch_stock_data_non_numeric_ohlc], evaluated. *)
Example fetch_non_numeric_open :
  fetch_stock_data (answering 200 (document (JStr "TEST") rows_non_numeric))
                   "TEST" "2024-01-01" "2024-01-02" "http://mockapi.com" []
  = (Returned
       {| index := LabelIndex (L "Date") [day 1; day 2];
          columns :=
            [(L "Open", [Num NaN; Num (of_Z 156)]);
             (L "Close", [Num (of_Z 155); Num (of_Z 158)]);
             (L "High", [Num (of_Z 157); Num (of_Z 159)]);
             (L "Low", [Num (of_Z 149); Num (of_Z 154)]);
             (L "Volume", [Num (of_Z 1000000); Num (of_Z 1100000)])] |},
     [Attempting "http://mockapi.com/data/stock/TEST?from=2024-01-01&to=2024-01-02";
      WarningNonNumeric "TEST"]).
Proof. reflexivity. Qed.

(** ** The dates of the series *)

(** Two point-records for the same day pass every gate: the series comes
    back with that day twice. *)
Example fetch_repeated_date :
  fetch_stock_data (answering 200 (document (JStr "TEST") rows_repeated_date))
                   "TEST" "2024-01-01" "2024-01-02" "http://mockapi.com" []
  = (Returned
       {| index := LabelIndex (L "Date") [day 2; day 2];
          columns :=
            [(L "Open", [Num (of_Z 150); Num (of_Z 156)]);
             (L "Close", [Num (of_Z 155); Num (of_Z 158)]);
             (L "High", [Num (of_Z 157); Num (of_Z 159)]);
             (L "Low", [Num (of_Z 149); Num (of_Z 154)]);
             (L "Volume", [Num (of_Z 1000000); Num (of_Z 1100000)])] |},
     [Attempting "http://mockapi.com/data/stock/TEST?from=2024-01-01&to=2024-01-02"]).
Proof. reflexivity. Qed.

(** C3, as stated, fails: a returned non-empty series need not have
    strictly increasing dates. *)
Lemma returned_dates_need_not_increase :
  ~ (forall (net : remote) (symbol start_date end_date base : string)
            (log log' : list message) (df : DataFrame),
        fetch_stock_data net symbol start_date end_date base log = (Returned df, log') ->
        empty df = false ->
        increasing (index_values df) = true).
Proof.
  intros H.
  specialize (H _ _ _ _ _ _ _ _ fetch_repeated_date eq_refl).
  discriminate H.
Qed.

(** C3, amended.  The dates of the series returned for point-records that
    pass every gate are the dates of the records, parsed, in the order of
    the payload: row [i] bears the date of the [i]-th record.  Nothing is
    sorted or dropped, so the dates increase strictly exactly when those of
    the payload do. *)
Theorem returned_dates_follow_the_payload :
  forall (net : remote) (symbol start_date end_date base : string) (log : list message)
         (doc : json) (s : string) (rows : list record) (dates : list cell),
    served net symbol start_date end_date base doc ->
    payload s rows doc ->
    rows <> [] ->
    complete rows = true ->
    unambiguous rows = true ->
    to_datetime_values (raw_column "Date" rows) = Returned dates ->
    exists df log',
      fetch_stock_data net symbol start_date end_date base log = (Returned df, log')
      /\ empty df = false
      /\ index_values df = dates
      /\ List.length (index_values df) = List.length rows
      /\ (forall i r, nth_error rows i = Some r ->
            exists t, nth_error (index_values df) i = Some t
                      /\ to_datetime_value (cell_of (source_key "Date" rows) r) = Returned t)
      /\ (increasing (index_values df) = true <-> increasing dates = true).
Proof.
  intros net symbol start_date end_date base log doc s rows dates
         Hserved Hpayload Hne Hc Hu Hdates.
  eexists _, _. split;
    [apply (fetch_canonical_frame _ _ _ _ _ log _ _ _ _ Hserved Hpayload Hne Hc Hu Hdates) |].
  assert (Hidx : index_values (canonical_frame dates (renamed rows)) = dates).
  { unfold index_values. now rewrite index_canonical_frame. }
  rewrite Hidx.
  split; [| split; [reflexivity | split; [| split; [| tauto]]]].
  - apply empty_canonical_frame with (s := raw_column "Close" rows).
    + intros E. subst dates. apply to_datetime_values_length in Hdates.
      unfold raw_column in Hdates. rewrite length_map in Hdates.
      destruct rows; [congruence | discriminate].
    + apply select_canonical; [exact Hu |]. apply complete_In; [exact Hc |]. simpl. tauto.
  - rewrite (to_datetime_values_length _ _ Hdates). unfold raw_column. apply length_map.
  - intros i r Hi.
    apply (to_datetime_values_nth _ _ i _ Hdates).
    unfold raw_column. now rewrite nth_error_map, Hi.
Qed.

Lemma returned_dates_follow_the_payload_witness :
  exists df log',
    fetch_stock_data (answering 200 (document (JStr "TEST") rows_repeated_date))
                     "TEST" "2024-01-01" "2024-01-02" "http://mockapi.com" []
    = (Returned df, log')
    /\ empty df = false
    /\ index_values df = [day 2; day 2]
    /\ List.length (index_values df) = List.length rows_repeated_date
    /\ (forall i r, nth_error rows_repeated_date i = Some r ->
          exists t, nth_error (index_values df) i = Some t
                    /\ to_datetime_value (cell_of (source_key "Date" rows_repeated_date) r)
                       = Returned t)
    /\ (increasing (index_values df) = true <-> increasing [day 2; day 2] = true).
Proof.
  apply (returned_dates_follow_the_payload
           (answering 200 (document (JStr "TEST") rows_repeated_date))
           "TEST" "2024-01-01" "2024-01-02" "http://mockapi.com" []
           (document (JStr "TEST") rows_repeated_date) "TEST" rows_repeated_date
           [day 2; day 2]).
  - apply served_answering. reflexivity.
  - apply payload_document.
  - discriminate.
  - reflexivity.
  - reflexivity.
  - reflexivity.
Defined.

(** ** The column gate *)

Lemma as_records_Some data rows :
  as_records data = Some rows -> data = map JDict rows.
Proof.
  revert rows. induction data as [| x data IH]; simpl; intros rows H.
  - now inversion H.
  - destruct x; try discriminate.
    destruct (as_records data) as [rows' |]; [| discriminate].
    inversion H. simpl. now rewrite (IH rows').
Qed.

Lemma forallb_false {A} (f : A -> bool) l a :
  In a l -> f a = false -> forallb f l = false.
Proof.
  intros Hin Hf. destruct (forallb f l) eqn:E; [| reflexivity].
  rewrite forallb_forall in E. rewrite (E a Hin) in Hf. discriminate.
Qed.

Lemma has_column_renamed c rows :
  has_column (L c) (renamed rows) = mem c (map canon (union_keys rows)).
Proof.
  rewrite has_column_select, select_renamed.
  induction (union_keys rows) as [| k ks IH]; simpl; [reflexivity |].
  rewrite (String.eqb_sym c). destruct (String.eqb (canon k) c); simpl; [reflexivity | exact IH].
Qed.

Lemma complete_present rows :
  (forall c, In c required_cols -> present c rows) -> complete rows = true.
Proof.
  intros H. unfold complete. apply forallb_forall. intros c Hc.
  destruct (H c Hc) as [r [Hr Hk]]. apply mem_In.
  apply in_map_iff in Hk. destruct Hk as [k [Hk Hin]]. subst c.
  apply in_map. apply union_keys_In. eauto.
Qed.

Lemma build_frame_absent symbol data log c :
  data <> [] -> In c required_cols -> absent c data ->
  absorbed (fst (build_frame symbol data log)) = DataFrame_new.
Proof.
  intros Hne Hc Ha. destruct data as [| x rest]; [congruence |].
  unfold build_frame.
  destruct x as [| b | q | s | l | kv]; try reflexivity.
  unfold DataFrame_of.
  destruct (as_records (JDict kv :: rest)) as [rows |] eqn:E; [| reflexivity].
  apply as_records_Some in E.
  unfold bind at 1, ret at 1. fold (renamed rows).
  assert (Hgate : forallb (fun col => has_column (L col) (renamed rows)) required_cols = false).
  { apply forallb_false with (a := c); [exact Hc |].
    rewrite has_column_renamed.
    destruct (mem c (map canon (union_keys rows))) eqn:Em; [| reflexivity].
    exfalso. apply mem_In in Em. apply in_map_iff in Em.
    destruct Em as [k [Hk Hin]]. apply union_keys_In in Hin.
    destruct Hin as [r [Hr Hkr]].
    apply (Ha r); [rewrite E; now apply in_map |].
    rewrite <- Hk. now apply in_map. }
  rewrite Hgate. reflexivity.
Qed.

(** C5.  Once the document is served and well-shaped with a non-empty
    list of point-records: if some canonical column is the name of no key
    of any record, the empty frame is returned; if every canonical column
    is the name of a key of at least one record -- other records may lack
    it -- the column gate is passed, and the series comes back non-empty
    with one row per record whenever the dates then parse. *)
Theorem column_gate_looks_at_the_whole_point_set :
  (forall (net : remote) (symbol start_date end_date base : string) (log : list message)
          (d : record) (v : json) (data : list json) (c : string),
      served net symbol start_date end_date base (JDict d) ->
      dict_get "symbol" d = Some v ->
      dict_get "data" d = Some (JList data) ->
      data <> [] ->
      In c required_cols ->
      absent c data ->
      exists log',
        fetch_stock_data net symbol start_date end_date base log
        = (Returned DataFrame_new, log'))
  /\ (forall (net : remote) (symbol start_date end_date base : string) (log : list message)
             (doc : json) (s : string) (rows : list record) (dates : list cell),
         served net symbol start_date end_date base doc ->
         payload s rows doc ->
         rows <> [] ->
         (forall c, In c required_cols -> present c rows) ->
         unambiguous rows = true ->
         to_datetime_values (raw_column "Date" rows) = Returned dates ->
         forallb (fun col => has_column (L col) (renamed rows)) required_cols = true
         /\ exists df log',
              fetch_stock_data net symbol start_date end_date base log = (Returned df, log')
              /\ empty df = false
              /\ nrows df = List.length rows).
Proof.
  split.
  - intros net symbol start_date end_date base log d v data c
           [r [Hnet [Hst Hb]]] Hv Hd Hne Hc Ha.
    destruct (is_str v) eqn:Hs.
    + destruct v as [| | | s | |]; try discriminate.
      rewrite (fetch_well_shaped _ _ _ _ _ log _ _ _ _ Hnet Hst Hb Hv Hd).
      assert (E : after_symbol symbol data = build_frame symbol data)
        by (destruct data; [congruence | reflexivity]).
      rewrite E, (build_frame_absent symbol data [] c Hne Hc Ha). eauto.
    + rewrite (fetch_served _ _ _ _ _ _ _ log Hnet Hst Hb).
      rewrite (process_symbol_not_str _ _ _ _ _ Hv Hd Hs). eauto.
  - intros net symbol start_date end_date base log doc s rows dates
           Hserved Hpayload Hne Hp Hu Hdates.
    pose proof (complete_present rows Hp) as Hc.
    split.
    + apply forallb_forall. intros c Hin. rewrite has_column_renamed.
      apply mem_In. now apply complete_In.
    + eexists _, _. split;
        [apply (fetch_canonical_frame _ _ _ _ _ log _ _ _ _
                  Hserved Hpayload Hne Hc Hu Hdates) |].
      split.
      * apply empty_canonical_frame with (s := raw_column "Close" rows).
        -- intros E. subst dates. apply to_datetime_values_length in Hdates.
           unfold raw_column in Hdates. rewrite length_map in Hdates.
           destruct rows; [congruence | discriminate].
        -- apply select_canonical; [exact Hu |]. apply complete_In; [exact Hc |].
           simpl. tauto.
      * now apply nrows_canonical_frame.
Qed.

Lemma column_gate_looks_at_the_whole_point_set_witness :
  (exists log',
      fetch_stock_data (answering 200 (document (JStr "TEST") rows_missing_open))
                       "TEST" "2024-01-01" "2024-01-02" "http://mockapi.com" []
      = (Returned DataFrame_new, log'))
  /\ (forallb (fun col => has_column (L col) (renamed rows_partial_open)) required_cols = true
      /\ exists df log',
           fetch_stock_data (answering 200 (document (JStr "TEST") rows_partial_open))
                            "TEST" "2024-01-01" "2024-01-02" "http://mockapi.com" []
           = (Returned df, log')
           /\ empty df = false
           /\ nrows df = List.length rows_partial_open).
Proof.
  split.
  - apply (proj1 column_gate_looks_at_the_whole_point_set
             (answering 200 (document (JStr "TEST") rows_missing_open))
             "TEST" "2024-01-01" "2024-01-02" "http://mockapi.com" []
             [("symbol", JStr "TEST"); ("data", JList (map JDict rows_missing_open))]
             (JStr "TEST") (map JDict rows_missing_open) "Open").
    + apply served_answering. reflexivity.
    + reflexivity.
    + reflexivity.
    + discriminate.
    + simpl. tauto.
    + intros r [E | []]. inversion E; subst. simpl. intuition discriminate.
  - apply (proj2 column_gate_looks_at_the_whole_point_set
             (answering 200 (document (JStr "TEST") rows_partial_open))
             "TEST" "2024-01-01" "2024-01-02" "http://mockapi.com" []
             (document (JStr "TEST") rows_partial_open) "TEST" rows_partial_open
             [day 1; day 2]).
    + apply served_answering. reflexivity.
    + apply payload_document.
    + discriminate.
    + intros c Hc. exists (hd [] rows_partial_open). split; [simpl; tauto |].
      simpl in Hc. simpl. intuition (subst; tauto).
    + reflexivity.
    + reflexivity.
Defined.

(** ** What a returned non-empty frame tells about the payload *)

Lemma bind_inv {A B} (c : M message A) (f : A -> M message B) log b log' :
  bind c f log = (Returned b, log') ->
  exists a log1, c log = (Returned a, log1) /\ f a log1 = (Returned b, log').
Proof.
  unfold bind. destruct (c log) as [[a | e] log1]; intros H; [eauto | discriminate].
Qed.

Lemma coerce_column_inv df col log df' log' :
  coerce_column df col log = (Returned df', log') ->
  exists s, select (L col) df = [s] /\ df' = coerce df col /\ log' = log.
Proof.
  unfold coerce_column, getitem, coerce, bind.
  destruct (select (L col) df) as [| s [| s' rest]]; simpl; intros H;
    try discriminate.
  inversion H. eauto.
Qed.

Lemma for_each_coerce_inv cols df log df' log' :
  NoDup cols ->
  for_each cols coerce_column df log = (Returned df', log') ->
  (forall col, In col cols -> exists s, select (L col) df = [s])
  /\ df' = fold_left coerce cols df /\ log' = log.
Proof.
  revert df. induction cols as [| col cols IH]; intros df Hnd H; simpl in *.
  - inversion H. split; [intros ? [] | auto].
  - inversion Hnd as [| ? ? Hn Hnd']; subst.
    apply bind_inv in H. destruct H as [df1 [log1 [H1 H2]]].
    apply coerce_column_inv in H1. destruct H1 as [s [Hs [-> ->]]].
    destruct (IH _ Hnd' H2) as [Hsel [-> ->]].
    split; [| auto].
    intros c [<- | Hc]; [eauto |].
    destruct (Hsel c Hc) as [s' Hs']. exists s'. rewrite <- Hs'.
    symmetry. apply select_coerce_other. simpl.
    destruct (String.eqb_spec col c) as [E | N]; [| reflexivity].
    subst. contradiction.
Qed.

Lemma canon_cases k : In (canon k) required_cols \/ canon k = k.
Proof.
  unfold canon, column_mapping, lookup, required_cols.
  repeat match goal with
         | |- context [String.eqb k ?a] => destruct (String.eqb k a)
         end; simpl; tauto.
Qed.

Lemma NoDup_canon ks :
  NoDup ks ->
  (forall c, In c required_cols ->
             (List.length (filter (fun k => String.eqb (canon k) c) ks) <= 1)%nat) ->
  NoDup (map canon ks).
Proof.
  induction ks as [| a ks IH]; intros Hnd Hone; simpl; [constructor |].
  inversion Hnd as [| ? ? Hn Hnd']; subst.
  constructor.
  - intros Hin. apply in_map_iff in Hin. destruct Hin as [k' [Hk' Hin]].
    assert (Hreq : In (canon a) required_cols).
    { destruct (canon_cases a) as [H | H]; [exact H |].
      destruct (canon_cases k') as [H' | H']; [now rewrite <- Hk' |].
      exfalso. apply Hn. congruence. }
    specialize (Hone (canon a) Hreq). simpl in Hone.
    rewrite String.eqb_refl in Hone. simpl in Hone.
    assert (Hk : In k' (filter (fun k => String.eqb (canon k) (canon a)) ks)).
    { apply filter_In. split; [exact Hin |]. rewrite Hk'. apply String.eqb_refl. }
    destruct (filter (fun k => String.eqb (canon k) (canon a)) ks); [contradiction |].
    simpl in Hone. lia.
  - apply IH; [exact Hnd' |].
    intros c Hc. specialize (Hone c Hc). simpl in Hone.
    destruct (String.eqb (canon a) c); simpl in Hone; lia.
Qed.

Lemma build_frame_inv symbol data log df log' :
  data <> [] ->
  build_frame symbol data log = (Returned df, log') ->
  empty df = false ->
  exists rows dates,
    data = map JDict rows
    /\ rows <> []
    /\ complete rows = true
    /\ unambiguous rows = true
    /\ to_datetime_values (raw_column "Date" rows) = Returned dates
    /\ df = canonical_frame dates (renamed rows).
Proof.
  intros Hne H Hnonempty.
  destruct data as [| x rest]; [congruence |].
  unfold build_frame in H.
  destruct x as [| b | q | s | l | kv];
    try (simpl in H; inversion H; subst; discriminate).
  unfold DataFrame_of in H.
  destruct (as_records (JDict kv :: rest)) as [rows |] eqn:E; [| discriminate].
  apply as_records_Some in E.
  assert (Hrows : rows <> []) by (destruct rows; [discriminate | congruence]).
  unfold bind at 1, ret at 1 in H. fold (renamed rows) in H.
  destruct (forallb (fun col => has_column (L col) (renamed rows)) required_cols) eqn:Hgate;
    [| simpl in H; inversion H; subst; discriminate].
  cbv [negb] in H.
  apply bind_inv in H. destruct H as [sel [log1 [Hget H]]].
  apply bind_inv in H. destruct H as [dates [log2 [Hdt H]]].
  unfold getitem, raise, ret in Hget.
  destruct (select (L "Date") (renamed rows)) as [| sd [| sd' more]] eqn:Hd;
    [discriminate Hget | | inversion Hget; subst sel; discriminate Hdt].
  inversion Hget; subst sel log1; clear Hget.
  unfold to_datetime, lift, raise, ret in Hdt.
  destruct (to_datetime_values sd) as [dts |] eqn:Hdates; [| discriminate Hdt].
  inversion Hdt; subst dts log2; clear Hdt.
  assert (Hcol : has_column (L "Date") (renamed rows) = true)
    by (rewrite has_column_select, Hd; reflexivity).
  rewrite (bind_returned _ _ _ _ _
             (set_index_ok _ _ _ [] log (select_setitem_one _ dates _ _ Hd))) in H.
  rewrite (indexed_setitem dates _ Hcol) in H.
  apply bind_inv in H. destruct H as [df2 [log2 [Hnum H]]].
  apply for_each_coerce_inv in Hnum;
    [| unfold numeric_cols; repeat constructor; simpl; intuition discriminate].
  destruct Hnum as [Hsel [-> ->]].
  apply bind_inv in H. destruct H as [df3 [log3 [Hvol H]]].
  apply coerce_column_inv in Hvol. destruct Hvol as [sv [Hv [-> ->]]].
  rewrite select_fold_coerce_other in Hv by (simpl; intuition discriminate).
  rewrite select_indexed in Hv by reflexivity.
  assert (Hone : forall c, In c required_cols -> exists s, select (L c) (renamed rows) = [s]).
  { intros c Hc. simpl in Hc.
    destruct Hc as [<- | [<- | [<- | [<- | [<- | [<- | []]]]]]];
      try solve [eauto];
      match goal with
      | |- exists s, select (L ?c) _ = _ =>
          destruct (Hsel c ltac:(simpl; tauto)) as [s' Hs'];
          rewrite select_indexed in Hs' by reflexivity; eauto
      end. }
  assert (Hu : unambiguous rows = true).
  { apply distinct_NoDup. apply NoDup_canon; [apply union_keys_NoDup |].
    intros c Hc. destruct (Hone c Hc) as [s' Hs'].
    rewrite select_renamed in Hs'.
    apply (f_equal (@List.length _)) in Hs'. rewrite length_map in Hs'.
    simpl in Hs'. lia. }
  assert (Hcomp : complete rows = true).
  { apply forallb_forall. intros c Hc. rewrite <- has_column_renamed.
    rewrite has_column_select. destruct (Hone c Hc) as [s' ->]. reflexivity. }
  assert (Hraw : sd = raw_column "Date" rows).
  { destruct (select_canonical "Date" rows Hu) as [_ [_ Hs]].
    - apply complete_In; [exact Hcomp | simpl; tauto].
    - congruence. }
  exists rows, dates. subst sd.
  repeat (split; [assumption |]).
  change (coerce (fold_left coerce numeric_cols (indexed dates (renamed rows))) "Volume")
    with (canonical_frame dates (renamed rows)) in H.
  unfold bind, when, print, ret in H.
  destruct (isnull_any (canonical_frame dates (renamed rows))); inversion H; reflexivity.
Qed.

Lemma empty_DataFrame_new : empty DataFrame_new = true.
Proof. reflexivity. Qed.

Lemma fetch_nonempty_inv net symbol start_date end_date base log df log' :
  fetch_stock_data net symbol start_date end_date base log = (Returned df, log') ->
  empty df = false ->
  exists rows dates,
    rows <> []
    /\ complete rows = true
    /\ unambiguous rows = true
    /\ to_datetime_values (raw_column "Date" rows) = Returned dates
    /\ df = canonical_frame dates (renamed rows).
Proof.
  intros H Hne.
  assert (Hnew : df <> DataFrame_new) by (intros ->; discriminate).
  destruct (net (api_url base symbol start_date end_date) 10) as [e | r] eqn:Hnet.
  { rewrite (fetch_get_raised _ _ _ _ _ _ _ Hnet) in H. inversion H. congruence. }
  destruct (bad_status (status_code r)) eqn:Hst.
  { rewrite (fetch_bad_status _ _ _ _ _ _ _ Hnet Hst) in H. inversion H. congruence. }
  destruct (body r) as [doc | e] eqn:Hb.
  2: { rewrite (fetch_body_raised _ _ _ _ _ _ _ _ Hnet Hst Hb) in H. inversion H. congruence. }
  rewrite (fetch_served _ _ _ _ _ _ _ log Hnet Hst Hb) in H.
  destruct (process symbol doc _) as [[df0 | e] log1] eqn:Hp;
    [| inversion H; congruence].
  inversion H; subst df0 log1; clear H.
  destruct (well_shaped doc) eqn:Hw.
  2: { rewrite (process_ill_shaped symbol doc _ Hw) in Hp. inversion Hp. congruence. }
  unfold well_shaped in Hw.
  destruct doc as [| | | | | d]; try discriminate.
  destruct (dict_get "symbol" d) as [v |] eqn:Hv; [| discriminate].
  destruct (dict_get "data" d) as [[| | | | data |] |] eqn:Hd; try discriminate.
  destruct (is_str v) eqn:Hs.
  2: { rewrite (process_symbol_not_str _ _ _ _ _ Hv Hd Hs) in Hp. discriminate. }
  destruct v as [| | | s | |]; try discriminate.
  rewrite (process_symbol_str _ _ _ _ _ Hv Hd) in Hp.
  destruct data as [| x rest].
  { simpl in Hp. inversion Hp. congruence. }
  unfold after_symbol in Hp.
  destruct (build_frame_inv symbol (x :: rest) _ df log' ltac:(discriminate) Hp Hne)
    as [rows [dates [_ Hrest]]].
  eauto.
Qed.

Lemma Qred_inject_Z z : Qred (inject_Z z) = inject_Z z.
Proof. apply Qred_identity. simpl. apply Z.gcd_1_r. Qed.

Lemma Some_inj {A} (a b : A) : Some a = Some b -> a = b.
Proof. now intros [=]. Qed.

Lemma parse_decimal_reduced s q : parse_decimal s = Some q -> Qred q = q.
Proof.
  assert (U : forall t q', unsigned_decimal t = Some q' -> Qred q' = q').
  { intros t q'. unfold unsigned_decimal.
    destruct (split_point t) as [ip [fp |]].
    - destruct (digits ip); [| discriminate]. destruct (digits fp); [| discriminate].
      intros E. apply Some_inj in E. rewrite <- E. apply Qred_involutive.
    - destruct (digits ip); [| discriminate].
      intros E. apply Some_inj in E. rewrite <- E. apply Qred_inject_Z. }
  unfold parse_decimal.
  destruct s as [| c s']; [apply U |].
  destruct (Ascii.eqb_spec c "-"%char) as [-> | Hm].
  - destruct (unsigned_decimal s'); cbn [option_map]; [| discriminate].
    intros E. apply Some_inj in E. rewrite <- E. apply Qred_involutive.
  - destruct (Ascii.eqb_spec c "+"%char) as [-> | Hp]; [apply U |].
    intros H. apply (U (String c s')).
    destruct c as [[] [] [] [] [] [] [] []]; try exact H; congruence.
Qed.

Lemma to_numeric_cell_reduced k r : reduced (to_numeric_cell (cell_of k r)).
Proof.
  unfold cell_of. destruct (dict_get k r) as [v |]; [| exact I].
  destruct v as [| [] | q | s | |]; simpl; try exact I; try reflexivity.
  - apply Qred_involutive.
  - destruct (parse_decimal s) eqn:E; [| exact I]. simpl.
    now apply parse_decimal_reduced with (s := s).
Qed.

Lemma NoDup_filter {A} (f : A -> bool) l : NoDup l -> NoDup (filter f l).
Proof.
  induction 1 as [| a l Hn Hnd IH]; simpl; [constructor |].
  destruct (f a); [| exact IH].
  constructor; [| exact IH]. intros Hin. apply filter_In in Hin. tauto.
Qed.

Lemma NoDup_map_L l : NoDup l -> NoDup (map L l).
Proof.
  induction 1 as [| a l Hn Hnd IH]; simpl; constructor; [| exact IH].
  intros Hin. apply in_map_iff in Hin. destruct Hin as [b [E Hb]].
  inversion E. congruence.
Qed.

Lemma labels_canonical_frame dates rows :
  unambiguous rows = true ->
  NoDup (labels (canonical_frame dates (renamed rows))).
Proof.
  intros Hu. apply distinct_NoDup in Hu.
  unfold canonical_frame. rewrite labels_fold_coerce.
  unfold labels, indexed. cbn [columns].
  assert (Hl : NoDup (map fst (columns (renamed rows)))).
  { unfold renamed, rename, of_records. cbn [columns]. rewrite !map_map. cbn [fst].
    change (fun x => rename_label column_mapping (L x)) with (fun x => L (canon x)).
    rewrite <- (map_map canon L).
    now apply NoDup_map_L. }
  revert Hl. generalize (columns (renamed rows)). intros cols.
  induction cols as [| lc cols IH]; simpl; intros Hl; [constructor |].
  inversion Hl as [| ? ? Hn Hl']; subst.
  destruct (negb (label_eqb (fst lc) (L "Date"))); simpl; [| now apply IH].
  constructor; [| now apply IH].
  intros Hin. apply Hn. apply in_map_iff in Hin. destruct Hin as [x [Hx Hin]].
  apply filter_In in Hin. rewrite <- Hx. apply in_map. tauto.
Qed.

(** A non-empty frame returned by [fetch_stock_data] is a canonical
    series. *)
Lemma fetch_returns_canonical_series net symbol start_date end_date base log df log' :
  fetch_stock_data net symbol start_date end_date base log = (Returned df, log') ->
  empty df = false ->
  exists closes, canonical_series df closes.
Proof.
  intros H Hne.
  destruct (fetch_nonempty_inv _ _ _ _ _ _ _ _ H Hne)
    as [rows [dates [Hrows [Hc [Hu [Hdates ->]]]]]].
  assert (Hsel : forall c, In c required_cols ->
                           select (L c) (renamed rows) = [raw_column c rows]).
  { intros c Hin. apply select_canonical; [exact Hu | now apply complete_In]. }
  exists (map to_numeric_cell (raw_column "Close" rows)).
  split; [now apply labels_canonical_frame |].
  split.
  { rewrite (select_canonical_frame dates _ "Close" _ ltac:(simpl; tauto)
               (Hsel "Close" ltac:(simpl; tauto))).
    unfold coerced. now rewrite map_map. }
  split.
  { eexists. apply (select_canonical_frame dates _ "Volume" _ ltac:(simpl; tauto)
                      (Hsel "Volume" ltac:(simpl; tauto))). }
  split.
  { rewrite (nrows_canonical_frame _ _ Hdates). unfold raw_column. now rewrite !length_map. }
  split.
  { unfold raw_column. destruct rows; [congruence | discriminate]. }
  unfold raw_column. rewrite map_map. apply Forall_forall.
  intros x Hx. apply in_map_iff in Hx. destruct Hx as [r [<- _]].
  apply to_numeric_cell_reduced.
Qed.

(** ** Exact arithmetic on float64 values *)

Section Arithmetic.
Local Open Scope Q_scope.

Lemma fold_fadd_Fin l a :
  exists q, fold_left fadd (map Fin l) (Fin a) = Fin q /\ q == a + sum_Q l.
Proof.
  revert a. induction l as [| x l IH]; intros a; simpl.
  - exists a. split; [reflexivity | ring].
  - destruct (IH (Qred (a + x))) as [q [Hq Hs]].
    exists q. split; [exact Hq |]. rewrite Hs, Qred_correct. ring.
Qed.

Lemma fsum_Fin l : exists q, fsum (map Fin l) = Fin q /\ q == sum_Q l.
Proof.
  destruct (fold_fadd_Fin l 0) as [q [Hq Hs]].
  exists q. split; [exact Hq |]. rewrite Hs. ring.
Qed.

Lemma count_Q_nonzero n : (0 < n)%nat -> ~ count_Q n == 0.
Proof.
  intros H E. unfold count_Q, Qeq in E. simpl in E. lia.
Qed.

Lemma count_Q_pos n : (0 < n)%nat -> 0 < count_Q n.
Proof. intros H. unfold count_Q, Qlt. simpl. lia. Qed.

Lemma fdiv_count a n :
  (0 < n)%nat -> fdiv (Fin a) (of_nat n) = Fin (Qred (a / count_Q n)).
Proof.
  intros H. unfold fdiv, of_nat, of_Z. fold (count_Q n).
  destruct (Qeq_bool (count_Q n) 0) eqn:E; [| reflexivity].
  apply Qeq_bool_eq in E. now apply count_Q_nonzero in E.
Qed.

Lemma mean_Fin l :
  l <> [] -> mean (map Fin l) = Fin (Qred (mean_Q l)).
Proof.
  intros Hne. unfold mean. rewrite length_map.
  destruct (fsum_Fin l) as [q [-> Hs]].
  rewrite fdiv_count by (destruct l; [congruence | simpl; lia]).
  f_equal. apply Qred_complete. unfold mean_Q. now rewrite Hs.
Qed.

Lemma sum_Q_ext {A} (f g : A -> Q) l :
  (forall x, f x == g x) -> sum_Q (map f l) == sum_Q (map g l).
Proof.
  intros H. induction l as [| x l IH]; simpl; [reflexivity |].
  now rewrite IH, H.
Qed.

Lemma sum_Q_squares_nonneg (f : Q -> Q) l : 0 <= sum_Q (map (fun x => f x * f x) l).
Proof.
  induction l as [| x l IH]; simpl; [apply Qle_refl |].
  assert (H : 0 <= f x * f x).
  { destruct (Qlt_le_dec (f x) 0) as [Hn | Hp].
    - setoid_replace (f x * f x) with ((- f x) * (- f x)) by ring.
      apply Qmult_le_0_compat; apply (Qopp_le_compat (f x) 0); now apply Qlt_le_weak.
    - now apply Qmult_le_0_compat. }
  setoid_replace 0 with (0 + 0) by ring. now apply Qplus_le_compat.
Qed.

Lemma var_Q_nonneg l : (2 <= List.length l)%nat -> 0 <= var_Q l.
Proof.
  intros H. unfold var_Q. apply Qle_shift_div_l.
  - apply count_Q_pos. lia.
  - setoid_replace (0 * count_Q (List.length l - 1)) with 0 by ring.
    apply (sum_Q_squares_nonneg (fun x => x - mean_Q l)).
Qed.

Lemma sqdev_Fin m x :
  sqdev (Fin m) (Fin x)
  = Fin (Qred (Qred (x + Qred (- m)) * Qred (x + Qred (- m)))).
Proof. reflexivity. Qed.

Lemma var_Fin l :
  (2 <= List.length l)%nat ->
  var 1 (map Fin l) = Fin (Qred (var_Q l)).
Proof.
  intros H. unfold var. rewrite length_map.
  destruct (Nat.leb_spec (List.length l) 1) as [Hle | _]; [lia |].
  rewrite mean_Fin by (destruct l; [simpl in H; lia | discriminate]).
  rewrite map_map.
  rewrite (map_ext _ (fun x => Fin (Qred (Qred (x + Qred (- Qred (mean_Q l)))
                                          * Qred (x + Qred (- Qred (mean_Q l)))))))
    by (intros x; apply sqdev_Fin).
  rewrite <- (map_map _ Fin).
  destruct (fsum_Fin (map (fun x => Qred (Qred (x + Qred (- Qred (mean_Q l)))
                                         * Qred (x + Qred (- Qred (mean_Q l))))) l))
    as [q [-> Hs]].
  rewrite fdiv_count by lia.
  f_equal. apply Qred_complete. unfold var_Q. rewrite Hs.
  apply Qdiv_comp; [| reflexivity].
  apply sum_Q_ext. intros x. rewrite !Qred_correct. ring.
Qed.

Lemma fsub_Fin a b : fsub (Fin a) (Fin b) = Fin (Qred (a + Qred (- b))).
Proof. reflexivity. Qed.

Lemma fdiv_Fin_zero a b :
  Qeq_bool b 0 = true ->
  fdiv (Fin a) (Fin b)
  = match sign (Fin a) with Some s => signed_inf s | None => NaN end.
Proof. intros E. unfold fdiv. now rewrite E. Qed.

Lemma fdiv_Fin_nonzero a b :
  Qeq_bool b 0 = false -> fdiv (Fin a) (Fin b) = Fin (Qred (a / b)).
Proof. intros E. unfold fdiv. now rewrite E. Qed.

(** The return of a row, as [pct_change] computes it and as the
    difference quotient: the same value, also when the previous close is
    zero. *)
End Arithmetic.

(** ** Rolling windows and percentage change *)

Lemma window_trailing w t (xs : list fval) :
  window_of w t xs = trailing (min (t + 1) w) t xs.
Proof.
  unfold window_of, trailing.
  replace (t + 1 - (t + 1 - w)) with (min (t + 1) w) by lia.
  replace (t + 1 - min (t + 1) w) with (t + 1 - w) by lia.
  reflexivity.
Qed.

Lemma trailing_map {A B} (f : A -> B) k t l :
  trailing k t (map f l) = map f (trailing k t l).
Proof. unfold trailing. now rewrite skipn_map, firstn_map. Qed.

Lemma length_trailing {A} k t (l : list A) :
  k <= t + 1 -> t < List.length l -> List.length (trailing k t l) = k.
Proof.
  intros Hk Ht. unfold trailing. rewrite length_firstn, length_skipn. lia.
Qed.

Lemma observations_Fin l : observations (map Fin l) = map Fin l.
Proof.
  unfold observations. induction l as [| q l IH]; simpl; [reflexivity | now rewrite IH].
Qed.

Lemma nth_error_seq_from a n i : i < n -> nth_error (seq a n) i = Some (a + i).
Proof.
  revert a i. induction n as [| n IH]; intros a i H; [lia |].
  destruct i as [| i]; simpl.
  - f_equal. lia.
  - rewrite IH by lia. f_equal. lia.
Qed.

Lemma rolling_nth w m agg xs t :
  t < List.length xs ->
  nth_error (rolling w m agg xs) t
  = Some (let obs := observations (window_of w t xs) in
          if List.length obs <? m then NaN else agg obs).
Proof.
  intros H. unfold rolling.
  rewrite nth_error_map, (nth_error_seq_from 0 _ t H). reflexivity.
Qed.

Lemma length_rolling w m agg xs : List.length (rolling w m agg xs) = List.length xs.
Proof. unfold rolling. now rewrite length_map, length_seq. Qed.

(** On numbers, the rolling aggregate of row [t] is the aggregate of the
    [min (t + 1) window] rows that end at [t]. *)
Lemma rolling_Fin_nth w agg qs t :
  0 < w -> t < List.length qs ->
  nth_error (rolling w 1 agg (map Fin qs)) t
  = Some (agg (map Fin (trailing (min (t + 1) w) t qs))).
Proof.
  intros Hw Ht.
  rewrite rolling_nth by (now rewrite length_map).
  cbv zeta. rewrite window_trailing, trailing_map, observations_Fin, length_map.
  rewrite length_trailing by lia.
  destruct (Nat.ltb_spec (min (t + 1) w) 1) as [Hlt | _]; [lia | reflexivity].
Qed.

Lemma ffill_Fin last l : ffill_from last (map Fin l) = map Fin l.
Proof.
  revert last. induction l as [| q l IH]; intros last; simpl; [reflexivity |].
  now rewrite IH.
Qed.

Lemma zip_with_removelast {A B C} (f : A -> B -> C) xs (b : B) ys :
  List.length xs <= List.length ys ->
  zip_with f xs (b :: removelast ys) = zip_with f xs (b :: ys).
Proof.
  revert b ys. induction xs as [| x xs IH]; intros b ys H; [reflexivity |].
  simpl. f_equal. destruct xs as [| x' xs']; [reflexivity |].
  destruct ys as [| y ys]; [simpl in H; lia |].
  destruct ys as [| y' ys']; [simpl in H; lia |].
  change (removelast (y :: y' :: ys')) with (y :: removelast (y' :: ys')).
  apply IH. simpl in *. lia.
Qed.

Lemma zip_with_shifted_nth {A C} (f : A -> A -> C) xs a t x p :
  nth_error xs (S t) = Some x -> nth_error xs t = Some p ->
  nth_error (zip_with f xs (a :: xs)) (S t) = Some (f x p).
Proof.
  revert a t. induction xs as [| y ys IH]; intros a t Hx Hp; [discriminate |].
  destruct ys as [| y' ys']; [destruct t; discriminate |].
  destruct t as [| t].
  - simpl in *. congruence.
  - change (zip_with f (y :: y' :: ys') (a :: y :: y' :: ys'))
      with (f y a :: zip_with f (y' :: ys') (y :: y' :: ys')).
    change (nth_error (f y a :: zip_with f (y' :: ys') (y :: y' :: ys')) (S (S t)))
      with (nth_error (zip_with f (y' :: ys') (y :: y' :: ys')) (S t)).
    apply IH; assumption.
Qed.

Lemma length_zip_with_shifted {A C} (f : A -> A -> C) xs a :
  List.length (zip_with f xs (a :: xs)) = List.length xs.
Proof.
  revert a. induction xs as [| y ys IH]; intros a; simpl; [reflexivity |].
  now rewrite IH.
Qed.

Lemma pct_change_Fin qs :
  pct_change (map Fin qs)
  = zip_with (fun cur prev => fsub (fdiv cur prev) (of_Z 1))
             (map Fin qs) (NaN :: map Fin qs).
Proof.
  unfold pct_change, ffill. rewrite ffill_Fin. unfold shift.
  destruct qs as [| q qs]; [reflexivity |].
  change (map Fin (q :: qs)) with (Fin q :: map Fin qs).
  cbv iota. apply zip_with_removelast. simpl. lia.
Qed.

Lemma length_pct_change_Fin qs :
  List.length (scale (of_Z 100) (pct_change (map Fin qs))) = List.length qs.
Proof.
  unfold scale. rewrite length_map, pct_change_Fin, length_zip_with_shifted.
  apply length_map.
Qed.

Lemma pct_change_first q qs :
  nth_error (scale (of_Z 100) (pct_change (map Fin (q :: qs)))) 0 = Some NaN.
Proof. rewrite pct_change_Fin. reflexivity. Qed.

Lemma pct_change_next qs t c p :
  nth_error qs (S t) = Some c -> nth_error qs t = Some p ->
  nth_error (scale (of_Z 100) (pct_change (map Fin qs))) (S t)
  = Some (fmul (fsub (fdiv (Fin c) (Fin p)) (of_Z 1)) (of_Z 100)).
Proof.
  intros Hc Hp. unfold scale. rewrite nth_error_map, pct_change_Fin.
  rewrite (zip_with_shifted_nth _ (map Fin qs) NaN t (Fin c) (Fin p)).
  - reflexivity.
  - now rewrite nth_error_map, Hc.
  - now rewrite nth_error_map, Hp.
Qed.

(** ** [update_charts] on a canonical series *)

Lemma select_NoDup c df :
  NoDup (labels df) -> select c df = [] \/ exists v, select c df = [v].
Proof.
  unfold labels, select. induction (columns df) as [| lc cols IH]; simpl; intros H.
  - now left.
  - inversion H as [| ? ? Hn Hnd]; subst.
    destruct (label_eqb_spec (fst lc) c) as [E | N].
    + right. exists (snd lc). simpl. f_equal.
      rewrite filter_none; [reflexivity |].
      intros x Hx. destruct (label_eqb_spec (fst x) c) as [E' | _]; [| reflexivity].
      exfalso. apply Hn. rewrite E, <- E'. now apply in_map.
    + now apply IH.
Qed.

Lemma select_setitem_any c w df :
  NoDup (labels df) -> select c (setitem c w df) = [w].
Proof.
  intros H. destruct (select_NoDup c df H) as [E | [v E]].
  - now apply select_setitem_new.
  - now apply select_setitem_one with (v := v).
Qed.

Lemma NoDup_labels_setitem c w df :
  NoDup (labels df) -> NoDup (labels (setitem c w df)).
Proof.
  intros H. destruct (has_column c df) eqn:E.
  - now rewrite labels_setitem_present.
  - rewrite labels_setitem_absent by exact E.
    apply NoDup_app; [exact H | repeat constructor; simpl; tauto |].
    intros x Hx [<- | []].
    unfold has_column in E. unfold labels in Hx.
    apply in_map_iff in Hx. destruct Hx as [lc [Hlc Hin]].
    assert (T : existsb (fun lc => label_eqb (fst lc) c) (columns df) = true).
    { apply existsb_exists. exists lc. split; [exact Hin |].
      rewrite Hlc. apply label_eqb_refl. }
    congruence.
Qed.

Lemma tidy_setitem c w df closes volume dates :
  label_eqb c (L "Close") = false -> label_eqb c (L "Volume") = false ->
  tidy df closes volume dates -> tidy (setitem c w df) closes volume dates.
Proof.
  intros Hc Hv [Hnd [Hcl [Hvo Hix]]].
  split; [now apply NoDup_labels_setitem |].
  split; [now rewrite select_setitem_other |].
  split; [now rewrite select_setitem_other | exact Hix].
Qed.

Lemma floats_Num xs log : @floats message (map Num xs) log = (Returned xs, log).
Proof.
  induction xs as [| x xs IH]; simpl; [reflexivity |].
  unfold bind. now rewrite IH.
Qed.

Lemma getitem_series c df s log :
  select c df = [s] ->
  (sel <- @getitem message c df ;; as_series sel) log = (Returned s, log).
Proof.
  intros H. now rewrite (bind_returned _ _ _ _ _ (getitem_one _ _ _ log H)).
Qed.

Lemma moving_average_ok selected flag window legend df fig log closes volume dates :
  label_eqb (L flag) (L "Close") = false ->
  label_eqb (L flag) (L "Volume") = false ->
  tidy df closes volume dates ->
  exists df',
    moving_average selected flag window legend (df, fig) log
    = (Returned (df', with_ma selected flag window legend dates closes fig), log)
    /\ tidy df' closes volume dates.
Proof.
  intros Hc Hv Ht. pose proof Ht as [Hnd [Hcl [Hvo Hix]]].
  unfold moving_average, with_ma.
  destruct (mem flag selected); [| exists df; split; [reflexivity | exact Ht]].
  exists (setitem (L flag) (ma_values window closes) df).
  split; [| now apply tidy_setitem].
  rewrite (bind_returned _ _ _ _ _ (getitem_one _ _ _ log Hcl)).
  unfold as_series at 1. unfold bind at 1, ret at 1.
  rewrite (bind_returned _ _ _ _ _ (floats_Num closes log)).
  fold (ma_values window closes).
  rewrite (bind_returned _ _ _ _ _
             (getitem_one _ _ _ log (select_setitem_any _ (ma_values window closes) _ Hnd))).
  unfold as_series. unfold bind, ret.
  change (index_values (setitem (L flag) (ma_values window closes) df))
    with (index_values df). rewrite Hix.
  now destruct (isnull_all (ma_values window closes)).
Qed.

Lemma bind_ret {A B} (a : A) (f : A -> M message B) log :
  bind (ret a) f log = f a log.
Proof. reflexivity. Qed.

Lemma length_nonzero {A} (l : list A) : l <> [] -> negb (List.length l =? 0) = true.
Proof. destruct l; [congruence | reflexivity]. Qed.

Lemma daily_returns_ok symbol toggles placeholder df log closes volume dates :
  closes <> [] ->
  tidy df closes volume dates ->
  exists df',
    daily_returns symbol toggles placeholder df log
    = (Returned (df', if mem "SHOW_RETURNS" toggles
                      then returns_chart symbol dates closes else placeholder), log)
    /\ tidy df' closes volume dates.
Proof.
  intros Hne Ht. pose proof Ht as [Hnd [Hcl [Hvo Hix]]].
  unfold daily_returns. rewrite has_column_select, Hcl.
  destruct (mem "SHOW_RETURNS" toggles); cbn [andb];
    [| exists df; split; [reflexivity | exact Ht]].
  exists (setitem (L "Daily Return") (return_values closes) df).
  split; [| now apply tidy_setitem].
  rewrite (bind_returned _ _ _ _ _ (getitem_one _ _ _ log Hcl)).
  cbn [as_series]. rewrite bind_ret.
  rewrite length_nonzero by (destruct closes; [congruence | discriminate]).
  rewrite (bind_returned _ _ _ _ _ (floats_Num closes log)).
  fold (return_values closes).
  rewrite (bind_returned _ _ _ _ _
             (getitem_one _ _ _ log
                (select_setitem_any _ (return_values closes) _ Hnd))).
  cbn [as_series]. rewrite bind_ret.
  change (index_values (setitem (L "Daily Return") (return_values closes) df))
    with (index_values df). rewrite Hix. reflexivity.
Qed.

Lemma volatility_ok sqrtQ symbol toggles placeholder df log closes volume dates :
  closes <> [] ->
  tidy df closes volume dates ->
  volatility sqrtQ symbol toggles placeholder df log
  = (Returned (if mem "SHOW_VOLATILITY" toggles
               then volatility_chart sqrtQ symbol dates closes else placeholder), log).
Proof.
  intros Hne [Hnd [Hcl [Hvo Hix]]].
  unfold volatility. rewrite has_column_select, Hcl.
  destruct (mem "SHOW_VOLATILITY" toggles); cbn [andb]; [| reflexivity].
  rewrite (bind_returned _ _ _ _ _ (getitem_one _ _ _ log Hcl)).
  cbn [as_series]. rewrite bind_ret.
  rewrite length_nonzero by (destruct closes; [congruence | discriminate]).
  rewrite (bind_returned _ _ _ _ _ (floats_Num closes log)).
  fold (volatility_values sqrtQ closes).
  rewrite (bind_returned _ _ _ _ _
             (getitem_one _ _ _ log
                (select_setitem_any _ (volatility_values sqrtQ closes) _ Hnd))).
  cbn [as_series]. rewrite bind_ret.
  change (index_values (setitem (L "Volatility") (volatility_values sqrtQ closes) df))
    with (index_values df). rewrite Hix. reflexivity.
Qed.

(** For a non-empty frame from [fetch_stock_data], [update_charts] raises
    nothing and returns the charts of the closing prices. *)
Lemma update_charts_ok sqrtQ net symbol start_date end_date ma rt vt log df log'
      closes volume :
  truthy symbol && truthy start_date && truthy end_date = true ->
  fetch_stock_data net (text symbol) (text start_date) (text end_date)
                   default_api_base_url log = (Returned df, log') ->
  empty df = false ->
  closes <> [] ->
  tidy df closes volume (index_values df) ->
  update_charts sqrtQ net symbol start_date end_date ma rt vt log
  = (Returned (charts sqrtQ (text symbol) (or_empty ma) (or_empty rt) (or_empty vt)
                      (index_values df) closes volume), log').
Proof.
  intros Htruthy Hfetch Hnonempty Hne Ht. pose proof Ht as [Hnd [Hcl [Hvo _]]].
  unfold update_charts. rewrite Htruthy. cbn [negb].
  rewrite (bind_returned _ _ _ _ _ Hfetch). rewrite Hnonempty.
  rewrite (bind_returned _ _ _ _ _ (getitem_one _ _ _ log' Hcl)).
  cbn [as_series]. rewrite bind_ret.
  rewrite has_column_select, Hcl.
  set (fig0 := add_trace {| kind := Scatter; name := "Close";
                            x := index_values df; y := map Num closes |} Figure_new).
  destruct (moving_average_ok (or_empty ma) "MA50" 50 "50-Day MA" df fig0 log'
              closes volume (index_values df) eq_refl eq_refl Ht) as [df1 [E1 T1]].
  destruct (moving_average_ok (or_empty ma) "MA200" 200 "200-Day MA" df1
              (with_ma (or_empty ma) "MA50" 50 "50-Day MA" (index_values df) closes fig0)
              log' closes volume (index_values df) eq_refl eq_refl T1) as [df2 [E2 T2]].
  assert (E12 : (st <- moving_average (or_empty ma) "MA50" 50 "50-Day MA" (df, fig0) ;;
                 moving_average (or_empty ma) "MA200" 200 "200-Day MA" st) log'
                = (Returned (df2, with_ma (or_empty ma) "MA200" 200 "200-Day MA"
                                   (index_values df) closes
                                   (with_ma (or_empty ma) "MA50" 50 "50-Day MA"
                                      (index_values df) closes fig0)), log')).
  { rewrite (bind_returned _ _ _ _ _ E1). exact E2. }
  rewrite (bind_returned _ _ _ _ _ E12).
  pose proof T2 as [Hnd2 [Hcl2 [Hvo2 Hix2]]].
  rewrite (bind_returned _ _ _ _ _ (getitem_one _ _ _ log' Hvo2)).
  cbn [as_series]. rewrite bind_ret.
  destruct (daily_returns_ok (text symbol) (or_empty rt) returns_placeholder df2 log'
              closes volume (index_values df) Hne T2) as [df3 [E3 T3]].
  fold returns_placeholder. rewrite (bind_returned _ _ _ _ _ E3).
  fold volatility_placeholder.
  rewrite (bind_returned _ _ _ _ _
             (volatility_ok sqrtQ (text symbol) (or_empty vt) volatility_placeholder
                df3 log' closes volume (index_values df) Hne T3)).
  unfold ret, charts. rewrite Hix2. reflexivity.
Qed.

Lemma map_Num_inj xs ys : map Num xs = map Num ys -> xs = ys.
Proof.
  revert ys. induction xs as [| x xs IH]; intros [| y ys] H; try discriminate.
  - reflexivity.
  - simpl in H. inversion H. f_equal. now apply IH.
Qed.

(** The charts of a frame that [fetch_stock_data] returned non-empty, from
    the closing prices it holds. *)
Lemma charts_of_fetch sqrtQ net symbol start_date end_date ma rt vt log df log' closes :
  truthy symbol && truthy start_date && truthy end_date = true ->
  fetch_stock_data net (text symbol) (text start_date) (text end_date)
                   default_api_base_url log = (Returned df, log') ->
  empty df = false ->
  select (L "Close") df = [map Num closes] ->
  exists volume,
    update_charts sqrtQ net symbol start_date end_date ma rt vt log
    = (Returned (charts sqrtQ (text symbol) (or_empty ma) (or_empty rt) (or_empty vt)
                        (index_values df) closes volume), log')
    /\ closes <> [] /\ Forall reduced closes.
Proof.
  intros Htruthy Hfetch Hne Hcl.
  destruct (fetch_returns_canonical_series _ _ _ _ _ _ _ _ Hfetch Hne)
    as [closes' [Hnd [Hcl' [[volume Hvo] [Hlen [Hne' Hred]]]]]].
  assert (closes' = closes) by (apply map_Num_inj; congruence). subst closes'.
  exists volume. split; [| split; assumption].
  apply update_charts_ok; try assumption.
  repeat split; assumption.
Qed.

(** ** The moving averages *)

Lemma rolling_Fin w agg qs :
  0 < w ->
  rolling w 1 agg (map Fin qs)
  = map (fun t => agg (map Fin (trailing (min (t + 1) w) t qs))) (seq 0 (List.length qs)).
Proof.
  intros Hw. unfold rolling. rewrite length_map.
  apply map_ext_in. intros t Ht. apply in_seq in Ht.
  cbv zeta. rewrite window_trailing, trailing_map, observations_Fin, length_map.
  rewrite length_trailing by lia.
  destruct (Nat.ltb_spec (min (t + 1) w) 1) as [Hlt | _]; [lia | reflexivity].
Qed.

Lemma rolling_mean_Fin w qs :
  0 < w ->
  rolling w 1 mean (map Fin qs)
  = map (fun t => Fin (Qred (mean_Q (trailing (min (t + 1) w) t qs))))
        (seq 0 (List.length qs)).
Proof.
  intros Hw. rewrite rolling_Fin by exact Hw.
  apply map_ext_in. intros t Ht. apply in_seq in Ht.
  apply mean_Fin. intros E.
  apply (f_equal (@List.length Q)) in E. rewrite length_trailing in E by lia.
  simpl in E. lia.
Qed.

Lemma mean_Q_single q : (mean_Q [q] == q)%Q.
Proof. unfold mean_Q, sum_Q, count_Q. simpl. field. Qed.

Lemma mean_Q_pair a b : (mean_Q [a; b] == (a + b) / 2)%Q.
Proof. unfold mean_Q, sum_Q, count_Q. simpl. field. Qed.

Lemma traces_named_ma sqrtQ symbol selected rt vt dates closes volume flag window legend :
  In (flag, window, legend) [("MA50", 50, "50-Day MA"); ("MA200", 200, "200-Day MA")] ->
  traces_named legend
    (price_fig (charts sqrtQ symbol selected rt vt dates closes volume))
  = if mem flag selected && negb (isnull_all (ma_values window closes))
    then [{| kind := Scatter; name := legend; x := dates;
             y := ma_values window closes |}]
    else [].
Proof.
  intros [E | [E | []]]; inversion E; subst; clear E;
    unfold traces_named, charts, with_ma; cbn [price_fig with_titles data];
    destruct (mem "MA50" selected && negb (isnull_all (ma_values 50 closes)));
    destruct (mem "MA200" selected && negb (isnull_all (ma_values 200 closes)));
    reflexivity.
Qed.

(** C6.  On a non-empty series whose closing prices are the numbers [qs],
    a requested moving average (MA50 with window 50, MA200 with window 200)
    is plotted, and its value at row [t] is the arithmetic mean of the
    [min (t + 1) window] closing prices that end at row [t].  The first
    value is the first closing price; for two prices [a], [b] the values
    are [a] and [(a + b) / 2]. *)
Theorem moving_average_is_the_trailing_mean :
  forall (sqrtQ : Q -> Q) (net : remote) (symbol start_date end_date : option string)
         (ma rt vt : option (list string)) (log log' : list message)
         (df : DataFrame) (qs : list Q) (flag : string) (window : nat) (legend : string),
    truthy symbol && truthy start_date && truthy end_date = true ->
    fetch_stock_data net (text symbol) (text start_date) (text end_date)
                     default_api_base_url log = (Returned df, log') ->
    empty df = false ->
    select (L "Close") df = [map Num (map Fin qs)] ->
    In (flag, window, legend) [("MA50", 50, "50-Day MA"); ("MA200", 200, "200-Day MA")] ->
    mem flag (or_empty ma) = true ->
    exists out tr,
      update_charts sqrtQ net symbol start_date end_date ma rt vt log = (Returned out, log')
      /\ traces_named legend (price_fig out) = [tr]
      /\ List.length (y tr) = List.length qs
      /\ (forall t, t < List.length qs ->
            nth_error (y tr) t
            = Some (Num (Fin (Qred (mean_Q (trailing (min (t + 1) window) t qs))))))
      /\ nth_error (y tr) 0 = option_map (fun q => Num (Fin q)) (nth_error qs 0)
      /\ (forall a b, qs = [a; b] ->
            y tr = [Num (Fin a); Num (Fin (Qred ((a + b) / 2)))]).
Proof.
  intros sqrtQ net symbol start_date end_date ma rt vt log log' df qs flag window legend
         Htruthy Hfetch Hne Hcl Hin Hsel.
  destruct (charts_of_fetch sqrtQ _ _ _ _ ma rt vt _ _ _ _ Htruthy Hfetch Hne Hcl)
    as [volume [Hup [Hqs' Hred]]].
  assert (Hqs : qs <> []) by (intros ->; now apply Hqs').
  assert (Hw : 2 <= window) by (destruct Hin as [E | [E | []]]; inversion E; lia).
  assert (Hy : ma_values window (map Fin qs)
               = map Num (map (fun t => Fin (Qred (mean_Q (trailing (min (t + 1) window) t qs))))
                              (seq 0 (List.length qs)))).
  { unfold ma_values. now rewrite rolling_mean_Fin by lia. }
  assert (Hnull : isnull_all (ma_values window (map Fin qs)) = false).
  { rewrite Hy. destruct qs; [congruence | reflexivity]. }
  eexists _, _. split; [exact Hup |].
  split; [rewrite (traces_named_ma _ _ _ _ _ _ _ _ _ _ _ Hin), Hsel, Hnull; reflexivity |].
  cbn [y]. rewrite Hy.
  assert (Hfirst : forall q l, qs = q :: l -> Qred q = q).
  { intros q l ->. inversion Hred as [| ? ? H1 H2]. exact H1. }
  split; [now rewrite !length_map, length_seq |].
  split; [| split].
  - intros t Ht. rewrite !nth_error_map, (nth_error_seq_from 0 _ t Ht). reflexivity.
  - destruct qs as [| q l]; [congruence |].
    cbn [List.length seq map nth_error option_map].
    replace (min (0 + 1) window) with 1 by lia.
    change (trailing 1 0 (q :: l)) with [q]. do 3 f_equal.
    rewrite <- (Hfirst q l eq_refl) at 2. apply Qred_complete.
    apply mean_Q_single.
  - intros a b ->. cbn [List.length seq map].
    replace (min (0 + 1) window) with 1 by lia.
    replace (min (1 + 1) window) with 2 by lia.
    change (trailing 1 0 [a; b]) with [a].
    change (trailing 2 1 [a; b]) with [a; b].
    f_equal; [do 2 f_equal | f_equal; do 2 f_equal].
    + rewrite <- (Hfirst a [b] eq_refl) at 2. apply Qred_complete. apply mean_Q_single.
    + apply Qred_complete. apply mean_Q_pair.
Qed.

Lemma In_window w t (xs : list fval) x : In x (window_of w t xs) -> In x xs.
Proof.
  unfold window_of. intros H.
  apply In_nth_error in H. destruct H as [i Hi].
  rewrite nth_error_firstn in Hi.
  destruct (i <? t + 1 - (t + 1 - w)); [| discriminate].
  rewrite nth_error_skipn in Hi. now apply nth_error_In in Hi.
Qed.

Lemma window_holds_its_row w t (xs : list fval) x :
  0 < w -> nth_error xs t = Some x -> In x (window_of w t xs).
Proof.
  intros Hw Hx. unfold window_of.
  apply nth_error_In with (n := t - (t + 1 - w)).
  rewrite nth_error_firstn.
  destruct (Nat.ltb_spec (t - (t + 1 - w)) (t + 1 - (t + 1 - w))) as [_ | Hge]; [| lia].
  rewrite nth_error_skipn. replace (t + 1 - w + (t - (t + 1 - w))) with t by lia.
  exact Hx.
Qed.

Lemma observations_reduced w :
  Forall reduced w -> exists l, observations w = map Fin l.
Proof.
  induction 1 as [| x w Hx Hw [l IH]]; [exists []; reflexivity |].
  destruct x as [q | | |]; simpl in Hx; try contradiction.
  - exists (q :: l). simpl. now rewrite <- IH.
  - exists l. exact IH.
Qed.

(** A moving average whose every value is NaN comes from closing prices
    that are all NaN. *)
Lemma all_nan_mean window closes :
  0 < window -> Forall reduced closes ->
  isnull_all (ma_values window closes) = true ->
  Forall (fun x => x = NaN) closes.
Proof.
  intros Hw Hred Hnull. apply Forall_forall. intros x Hx.
  apply In_nth_error in Hx. destruct Hx as [t Ht].
  assert (Hlt : t < List.length closes) by (apply nth_error_Some; congruence).
  unfold isnull_all, ma_values in Hnull. rewrite forallb_forall in Hnull.
  pose proof (rolling_nth window 1 mean closes t Hlt) as Hr. cbv zeta in Hr.
  assert (Hwin : Forall reduced (window_of window t closes)).
  { apply Forall_forall. intros z Hz. apply In_window in Hz.
    rewrite Forall_forall in Hred. now apply Hred. }
  destruct (observations_reduced _ Hwin) as [l Hl].
  rewrite Hl, length_map in Hr.
  destruct x as [q | | |]; try reflexivity.
  - exfalso.
    assert (Hin : In (Fin q) (observations (window_of window t closes))).
    { apply filter_In. split; [now apply window_holds_its_row | reflexivity]. }
    rewrite Hl in Hin.
    assert (Hl0 : l <> []) by (intros ->; contradiction).
    destruct (Nat.ltb_spec (List.length l) 1) as [Hlen | _];
      [destruct l; [congruence | simpl in Hlen; lia] |].
    rewrite (mean_Fin l Hl0) in Hr.
    specialize (Hnull (Num (Fin (Qred (mean_Q l))))). simpl in Hnull.
    assert (F : false = true); [| discriminate F].
    apply Hnull. apply in_map_iff. eexists. split; [reflexivity |].
    now apply nth_error_In in Hr.
  - exfalso. apply nth_error_In in Ht. rewrite Forall_forall in Hred.
    exact (Hred _ Ht).
  - exfalso. apply nth_error_In in Ht. rewrite Forall_forall in Hred.
    exact (Hred _ Ht).
Qed.

(** ** The volatility *)

Lemma std_single sqrtQ q : std sqrtQ (map Fin [q]) = NaN.
Proof. reflexivity. Qed.

Lemma std_Fin sqrtQ l :
  2 <= List.length l ->
  std sqrtQ (map Fin l) = Fin (sqrtQ (Qred (var_Q l))).
Proof.
  intros H. unfold std. rewrite (var_Fin l H). unfold fsqrt.
  destruct (Qle_bool 0 (Qred (var_Q l))) eqn:E; [reflexivity |].
  assert (T : Qle_bool 0 (Qred (var_Q l)) = true).
  { apply Qle_bool_iff. rewrite Qred_correct. now apply var_Q_nonneg. }
  congruence.
Qed.

(** C8.  On a non-empty series whose closing prices are the numbers [qs],
    the requested volatility is plotted: at row [t] it is the standard
    deviation (the square root of the variance with divisor [n - 1]) of the
    [n = min (t + 1) 30] closing prices that end at row [t]; at the first
    row, where [n = 1], it is NaN. *)
Theorem volatility_is_the_trailing_deviation :
  forall (sqrtQ : Q -> Q) (net : remote) (symbol start_date end_date : option string)
         (ma rt vt : option (list string)) (log log' : list message)
         (df : DataFrame) (qs : list Q),
    truthy symbol && truthy start_date && truthy end_date = true ->
    fetch_stock_data net (text symbol) (text start_date) (text end_date)
                     default_api_base_url log = (Returned df, log') ->
    empty df = false ->
    select (L "Close") df = [map Num (map Fin qs)] ->
    mem "SHOW_VOLATILITY" (or_empty vt) = true ->
    exists out tr,
      update_charts sqrtQ net symbol start_date end_date ma rt vt log = (Returned out, log')
      /\ data (volatility_fig out) = [tr]
      /\ name tr = "30-Day Volatility"
      /\ List.length (y tr) = List.length qs
      /\ (forall t, t < List.length qs ->
            nth_error (y tr) t
            = Some (Num (std sqrtQ (map Fin (trailing (min (t + 1) 30) t qs))))
            /\ List.length (trailing (min (t + 1) 30) t qs) = min (t + 1) 30)
      /\ nth_error (y tr) 0 = Some (Num NaN)
      /\ (forall t, 1 <= t -> t < List.length qs ->
            nth_error (y tr) t
            = Some (Num (Fin (sqrtQ (Qred (var_Q (trailing (min (t + 1) 30) t qs))))))).
Proof.
  intros sqrtQ net symbol start_date end_date ma rt vt log log' df qs
         Htruthy Hfetch Hne Hcl Hsel.
  destruct (charts_of_fetch sqrtQ _ _ _ _ ma rt vt _ _ _ _ Htruthy Hfetch Hne Hcl)
    as [volume [Hup [Hqs' Hred]]].
  assert (Hqs : qs <> []) by (intros ->; now apply Hqs').
  eexists _, _. split; [exact Hup |].
  unfold charts. cbn [volatility_fig]. rewrite Hsel.
  unfold volatility_chart. cbn [with_titles add_trace data Figure_new app].
  split; [reflexivity |]. cbn [name y]. split; [reflexivity |].
  unfold volatility_values. rewrite rolling_Fin by lia.
  split; [now rewrite !length_map, length_seq |].
  assert (Hnth : forall t, t < List.length qs ->
                   nth_error
                     (map Num (map (fun t => std sqrtQ (map Fin (trailing (min (t + 1) 30) t qs)))
                                   (seq 0 (List.length qs)))) t
                   = Some (Num (std sqrtQ (map Fin (trailing (min (t + 1) 30) t qs))))).
  { intros t Ht. now rewrite !nth_error_map, (nth_error_seq_from 0 _ t Ht). }
  split; [| split].
  - intros t Ht. split; [now apply Hnth |]. apply length_trailing; lia.
  - destruct qs as [| q l]; [congruence |].
    rewrite Hnth by (simpl; lia). reflexivity.
  - intros t H1 Ht. rewrite (Hnth t Ht). do 2 f_equal.
    apply std_Fin. rewrite length_trailing by lia. lia.
Qed.

(** ** The theorems at the sample payloads *)

Lemma non_string_symbol_returns_empty_witness :
  well_shaped (document JNull rows_success) = true
  /\ process "TEST" (document JNull rows_success)
       ([] ++ [Attempting (api_url "http://mockapi.com" "TEST" "2024-01-01" "2024-01-02")])
     = (Raised AttributeError,
        [] ++ [Attempting (api_url "http://mockapi.com" "TEST" "2024-01-01" "2024-01-02")])
  /\ fetch_stock_data (answering 200 (document JNull rows_success))
                      "TEST" "2024-01-01" "2024-01-02" "http://mockapi.com" []
     = (Returned DataFrame_new,
        [] ++ [Attempting (api_url "http://mockapi.com" "TEST" "2024-01-01" "2024-01-02");
               UnexpectedError "TEST" AttributeError]).
Proof.
  apply (non_string_symbol_returns_empty
           (answering 200 (document JNull rows_success))
           "TEST" "2024-01-01" "2024-01-02" "http://mockapi.com" []
           {| status_code := 200; body := Returned (document JNull rows_success) |}
           [("symbol", JNull); ("data", JList (map JDict rows_success))]
           JNull (map JDict rows_success));
    reflexivity.
Defined.

Lemma moving_average_is_the_trailing_mean_witness :
  exists out tr,
    update_charts sqrt_milli (answering 200 (document (JStr "TEST") rows_100_110))
                  test_symbol test_start test_end all_on all_on all_on []
    = (Returned out, snd (dashboard_fetch rows_100_110))
    /\ traces_named "50-Day MA" (price_fig out) = [tr]
    /\ List.length (y tr) = 2
    /\ (forall t, t < 2 ->
          nth_error (y tr) t
          = Some (Num (Fin (Qred (mean_Q (trailing (min (t + 1) 50) t
                                                   [inject_Z 100; inject_Z 110]))))))
    /\ nth_error (y tr) 0 = Some (Num (of_Z 100))
    /\ (forall a b, [inject_Z 100; inject_Z 110] = [a; b] ->
          y tr = [Num (Fin a); Num (Fin (Qred ((a + b) / 2)))]).
Proof.
  apply (moving_average_is_the_trailing_mean
           sqrt_milli (answering 200 (document (JStr "TEST") rows_100_110))
           test_symbol test_start test_end all_on all_on all_on []
           (snd (dashboard_fetch rows_100_110))
           (absorbed (fst (dashboard_fetch rows_100_110)))
           [inject_Z 100; inject_Z 110] "MA50" 50 "50-Day MA");
    try reflexivity.
  simpl. tauto.
Defined.

Lemma volatility_is_the_trailing_deviation_witness :
  exists out tr,
    update_charts sqrt_milli (answering 200 (document (JStr "TEST") rows_100_110))
                  test_symbol test_start test_end all_on all_on all_on []
    = (Returned out, snd (dashboard_fetch rows_100_110))
    /\ data (volatility_fig out) = [tr]
    /\ name tr = "30-Day Volatility"
    /\ List.length (y tr) = 2
    /\ (forall t, t < 2 ->
          nth_error (y tr) t
          = Some (Num (std sqrt_milli
                           (map Fin (trailing (min (t + 1) 30) t
                                              [inject_Z 100; inject_Z 110]))))
          /\ List.length (trailing (min (t + 1) 30) t [inject_Z 100; inject_Z 110])
             = min (t + 1) 30)
    /\ nth_error (y tr) 0 = Some (Num NaN)
    /\ (forall t, 1 <= t -> t < 2 ->
          nth_error (y tr) t
          = Some (Num (Fin (sqrt_milli
                              (Qred (var_Q (trailing (min (t + 1) 30) t
                                                     [inject_Z 100; inject_Z 110]))))))).
Proof.
  apply (volatility_is_the_trailing_deviation
           sqrt_milli (answering 200 (document (JStr "TEST") rows_100_110))
           test_symbol test_start test_end all_on all_on all_on []
           (snd (dashboard_fetch rows_100_110))
           (absorbed (fst (dashboard_fetch rows_100_110)))
           [inject_Z 100; inject_Z 110]);
    reflexivity.
Defined.

(** ** The tests of tests/test_dashboard.py, evaluated *)

(** [test_fetch_stock_data_success]: the columns come in the order of the
    keys of the records. *)
Example test_fetch_stock_data_success :
  fst (fetch_stock_data (answering 200 (document (JStr "TEST") rows_success))
                        "TEST" "2024-01-01" "2024-01-02" "http://mockapi.com" [])
  = Returned
      {| index := LabelIndex (L "Date") [day 1; day 2];
         columns :=
           [(L "Open", [Num (of_Z 150); Num (of_Z 156)]);
            (L "Close", [Num (of_Z 155); Num (of_Z 158)]);
            (L "High", [Num (of_Z 157); Num (of_Z 159)]);
            (L "Low", [Num (of_Z 149); Num (of_Z 154)]);
            (L "Volume", [Num (of_Z 1000000); Num (of_Z 1100000)])] |}.
Proof. reflexivity. Qed.

(** [test_fetch_stock_data_api_error]: status 404. *)
Example test_fetch_stock_data_api_error :
  fetch_stock_data (answering 404 JNull)
                   "TEST" "2024-01-01" "2024-01-02" "http://mockapi.com" []
  = (Returned DataFrame_new,
     [Attempting "http://mockapi.com/data/stock/TEST?from=2024-01-01&to=2024-01-02";
      HTTPErrorFetching "TEST" HTTPError]).
Proof. reflexivity. Qed.

(** [test_fetch_stock_data_request_exception]. *)
Example test_fetch_stock_data_request_exception :
  fetch_stock_data (fun _ _ => GetRaised ConnectionError)
                   "TEST" "2024-01-01" "2024-01-02" "http://mockapi.com" []
  = (Returned DataFrame_new,
     [Attempting "http://mockapi.com/data/stock/TEST?from=2024-01-01&to=2024-01-02";
      ErrorFetching "TEST" ConnectionError]).
Proof. reflexivity. Qed.

(** [test_fetch_stock_data_json_decode_error]. *)
Example test_fetch_stock_data_json_decode_error :
  fetch_stock_data
    (fun _ _ => GetResponse {| status_code := 200; body := Raised RequestsJSONDecodeError |})
    "TEST" "2024-01-01" "2024-01-02" "http://mockapi.com" []
  = (Returned DataFrame_new,
     [Attempting "http://mockapi.com/data/stock/TEST?from=2024-01-01&to=2024-01-02";
      ErrorDecodingJSON "TEST" RequestsJSONDecodeError]).
Proof. reflexivity. Qed.

(** [test_fetch_stock_data_invalid_format_missing_data_key]. *)
Example test_fetch_stock_data_invalid_format_missing_data_key :
  fetch_stock_data
    (answering 200 (JDict [("symbol", JStr "TEST"); ("records", JList [])]))
    "TEST" "2024-01-01" "2024-01-02" "http://mockapi.com" []
  = (Returned DataFrame_new,
     [Attempting "http://mockapi.com/data/stock/TEST?from=2024-01-01&to=2024-01-02";
      InvalidDataFormat "TEST"]).
Proof. reflexivity. Qed.

(** [test_fetch_stock_data_invalid_format_data_not_list]. *)
Example test_fetch_stock_data_invalid_format_data_not_list :
  fetch_stock_data
    (answering 200 (JDict [("symbol", JStr "TEST"); ("data", JStr "not a list")]))
    "TEST" "2024-01-01" "2024-01-02" "http://mockapi.com" []
  = (Returned DataFrame_new,
     [Attempting "http://mockapi.com/data/stock/TEST?from=2024-01-01&to=2024-01-02";
      InvalidDataFormat "TEST"]).
Proof. reflexivity. Qed.

(** [test_fetch_stock_data_empty_data_list]. *)
Example test_fetch_stock_data_empty_data_list :
  fetch_stock_data (answering 200 (document (JStr "TEST") []))
                   "TEST" "2024-01-01" "2024-01-02" "http://mockapi.com" []
  = (Returned DataFrame_new,
     [Attempting "http://mockapi.com/data/stock/TEST?from=2024-01-01&to=2024-01-02";
      NoDataPoints "TEST"]).
Proof. reflexivity. Qed.

(** [test_fetch_stock_data_missing_columns_in_df]. *)
Example test_fetch_stock_data_missing_columns_in_df :
  fetch_stock_data (answering 200 (document (JStr "TEST") rows_missing_open))
                   "TEST" "2024-01-01" "2024-01-02" "http://mockapi.com" []
  = (Returned DataFrame_new,
     [Attempting "http://mockapi.com/data/stock/TEST?from=2024-01-01&to=2024-01-02";
      MissingRequiredColumns [L "Date"; L "Close"; L "High"; L "Low"; L "Volume"]]).
Proof. reflexivity. Qed.

(** A date that does not parse stops the pipeline at line 78. *)
Example fetch_unparsable_date :
  fetch_stock_data
    (answering 200
       (document (JStr "TEST")
          [point "soon" (num 150) (num 155) (num 157) (num 149) (num 1000000)]))
    "TEST" "2024-01-01" "2024-01-02" "http://mockapi.com" []
  = (Returned DataFrame_new,
     [Attempting "http://mockapi.com/data/stock/TEST?from=2024-01-01&to=2024-01-02";
      UnexpectedError "TEST" ValueError]).
Proof. reflexivity. Qed.

(** ** Every path through [build_frame] *)

Lemma coerce_column_cases df col log :
  (exists s, select (L col) df = [s]
             /\ coerce_column df col log = (Returned (coerce df col), log))
  \/ (exists e, coerce_column df col log = (Raised e, log)).
Proof.
  unfold coerce_column, getitem, coerce, bind.
  destruct (select (L col) df) as [| s [| s' rest]]; simpl.
  - right. now exists KeyError.
  - left. now exists s.
  - right. now exists TypeError.
Qed.

Lemma for_each_coerce_cases cols df log :
  NoDup cols ->
  ((forall col, In col cols -> exists s, select (L col) df = [s])
   /\ for_each cols coerce_column df log = (Returned (fold_left coerce cols df), log))
  \/ (exists e, for_each cols coerce_column df log = (Raised e, log)).
Proof.
  revert df. induction cols as [| col cols IH]; intros df Hnd.
  - left. split; [intros ? [] | reflexivity].
  - inversion Hnd as [| ? ? Hn Hnd']; subst. cbn [for_each fold_left].
    destruct (coerce_column_cases df col log) as [[s [Hs E]] | [e E]].
    + rewrite (bind_returned _ _ _ _ _ E).
      destruct (IH (coerce df col) Hnd') as [[Hsel Ef] | [e Ef]].
      * left. split; [| exact Ef].
        intros c [<- | Hc]; [eauto |].
        destruct (Hsel c Hc) as [s' Hs']. exists s'. rewrite <- Hs'.
        symmetry. apply select_coerce_other. simpl.
        destruct (String.eqb_spec col c) as [Ec | N]; [| reflexivity].
        subst. contradiction.
      * right. now exists e.
    + right. exists e. now rewrite (bind_raised _ _ _ _ _ E).
Qed.

(** Records whose six canonical columns are each one column of the
    renamed frame are complete and unambiguous. *)
Lemma valid_of_selects rows :
  (forall c, In c required_cols -> exists s, select (L c) (renamed rows) = [s]) ->
  unambiguous rows = true /\ complete rows = true.
Proof.
  intros Hone. split.
  - apply distinct_NoDup. apply NoDup_canon; [apply union_keys_NoDup |].
    intros c Hc. destruct (Hone c Hc) as [s' Hs'].
    rewrite select_renamed in Hs'.
    apply (f_equal (@List.length _)) in Hs'. rewrite length_map in Hs'.
    simpl in Hs'. lia.
  - apply forallb_forall. intros c Hc. rewrite <- has_column_renamed.
    rewrite has_column_select. destruct (Hone c Hc) as [s' ->]. reflexivity.
Qed.

(** [build_frame] ends in one of three ways: it raises, having printed
    nothing; it stops at the column gate; or it returns the canonical
    frame of valid records. *)
Lemma build_frame_cases symbol data log :
  data <> [] ->
  (exists e, build_frame symbol data log = (Raised e, log))
  \/ (exists available,
         build_frame symbol data log
         = (Returned DataFrame_new, log ++ [MissingRequiredColumns available]))
  \/ (exists rows dates,
         data = map JDict rows
         /\ rows <> []
         /\ complete rows = true
         /\ unambiguous rows = true
         /\ to_datetime_values (raw_column "Date" rows) = Returned dates
         /\ build_frame symbol data log
            = (Returned (canonical_frame dates (renamed rows)),
               log ++ (if isnull_any (canonical_frame dates (renamed rows))
                       then [WarningNonNumeric symbol] else []))).
Proof.
  intros Hne. destruct data as [| x rest]; [congruence |].
  destruct x as [| b | q | s | l | kv];
    try (right; left; eexists; unfold build_frame, DataFrame_of, bind, ret; cbn;
         reflexivity).
  destruct (as_records (JDict kv :: rest)) as [rows |] eqn:E.
  2: { left. exists AttributeError. unfold build_frame, DataFrame_of. now rewrite E. }
  apply as_records_Some in E. rewrite E.
  assert (Hrows : rows <> []) by (destruct rows; [discriminate | congruence]).
  clear E Hne kv rest.
  destruct (forallb (fun col => has_column (L col) (renamed rows)) required_cols) eqn:Hgate.
  2: { right. left. eexists. unfold build_frame.
       rewrite (bind_returned _ _ _ _ _ (DataFrame_of_records rows log Hrows)).
       fold (renamed rows). rewrite Hgate. reflexivity. }
  assert (E0 : build_frame symbol (map JDict rows) log
               = (s <- getitem (L "Date") (renamed rows) ;;
                  dates <- to_datetime s ;;
                  df <- set_index (L "Date") (setitem (L "Date") dates (renamed rows)) ;;
                  df <- for_each numeric_cols coerce_column df ;;
                  df <- coerce_column df "Volume" ;;
                  when (isnull_any df) (print (WarningNonNumeric symbol)) ;;
                  ret df) log).
  { unfold build_frame.
    rewrite (bind_returned _ _ _ _ _ (DataFrame_of_records rows log Hrows)).
    fold (renamed rows). now rewrite Hgate. }
  destruct (select (L "Date") (renamed rows)) as [| sd [| sd' more]] eqn:Hd.
  { left. exists KeyError. rewrite E0. unfold bind, getitem. now rewrite Hd. }
  2: { left. exists ValueError. rewrite E0. unfold bind, getitem. now rewrite Hd. }
  destruct (to_datetime_values sd) as [dates | e] eqn:Hdates.
  2: { left. exists e. rewrite E0.
       rewrite (bind_returned _ _ _ _ _ (getitem_one _ _ _ log Hd)).
       unfold bind, to_datetime. now rewrite Hdates. }
  assert (Hcol : has_column (L "Date") (renamed rows) = true)
    by (rewrite has_column_select, Hd; reflexivity).
  assert (E1 : build_frame symbol (map JDict rows) log
               = (df <- for_each numeric_cols coerce_column (indexed dates (renamed rows)) ;;
                  df <- coerce_column df "Volume" ;;
                  when (isnull_any df) (print (WarningNonNumeric symbol)) ;;
                  ret df) log).
  { rewrite E0. rewrite (bind_returned _ _ _ _ _ (getitem_one _ _ _ log Hd)).
    unfold to_datetime. rewrite Hdates.
    unfold lift at 1. unfold bind at 1, ret at 1.
    rewrite (bind_returned _ _ _ _ _
               (set_index_ok _ _ _ [] log (select_setitem_one _ dates _ _ Hd))).
    now rewrite (indexed_setitem dates _ Hcol). }
  destruct (for_each_coerce_cases numeric_cols (indexed dates (renamed rows)) log)
    as [[Hsel Ef] | [e Ef]].
  { unfold numeric_cols. repeat constructor; simpl; intuition discriminate. }
  2: { left. exists e. now rewrite E1, (bind_raised _ _ _ _ _ Ef). }
  destruct (coerce_column_cases
              (fold_left coerce numeric_cols (indexed dates (renamed rows))) "Volume" log)
    as [[sv [Hv Ev]] | [e Ev]].
  2: { left. exists e.
       now rewrite E1, (bind_returned _ _ _ _ _ Ef), (bind_raised _ _ _ _ _ Ev). }
  rewrite select_fold_coerce_other in Hv by (simpl; intuition discriminate).
  rewrite select_indexed in Hv by reflexivity.
  assert (Hone : forall c, In c required_cols -> exists s, select (L c) (renamed rows) = [s]).
  { intros c Hc. simpl in Hc.
    destruct Hc as [<- | [<- | [<- | [<- | [<- | [<- | []]]]]]];
      try solve [eauto];
      match goal with
      | |- exists s, select (L ?c) _ = _ =>
          destruct (Hsel c ltac:(simpl; tauto)) as [s' Hs'];
          rewrite select_indexed in Hs' by reflexivity; eauto
      end. }
  destruct (valid_of_selects rows Hone) as [Hu Hcomp].
  assert (Hsels : forall c, In c required_cols ->
                            select (L c) (renamed rows) = [raw_column c rows]).
  { intros c Hin. apply select_canonical; [exact Hu | now apply complete_In]. }
  assert (Hraw : sd = raw_column "Date" rows).
  { pose proof (Hsels "Date" ltac:(simpl; tauto)). congruence. }
  right. right. exists rows, dates. subst sd.
  split; [reflexivity |]. repeat (split; [assumption |]).
  apply (build_frame_ok symbol rows log _ dates _ _ _ _ _ Hrows
           (Hsels "Date" ltac:(simpl; tauto)) Hdates
           (Hsels "Open" ltac:(simpl; tauto)) (Hsels "High" ltac:(simpl; tauto))
           (Hsels "Low" ltac:(simpl; tauto)) (Hsels "Close" ltac:(simpl; tauto))
           (Hsels "Volume" ltac:(simpl; tauto))).
Qed.

(** ** Every path through [fetch_stock_data] *)

Lemma quiet_symbol_warning symbol s : forallb quiet (symbol_warning symbol s) = true.
Proof. unfold symbol_warning. now destruct (negb _). Qed.

Lemma is_diagnostic_failure_line symbol e : is_diagnostic (failure_line symbol e) = true.
Proof.
  unfold failure_line.
  destruct (isinstance e cls_HTTPError); [reflexivity |].
  now destruct (isinstance e cls_RequestException).
Qed.

Lemma is_diagnostic_decode_line symbol e : is_diagnostic (decode_line symbol e) = true.
Proof. unfold decode_line. now destruct (isinstance e cls_json_JSONDecodeError). Qed.

(** A call either returns the empty frame, its last line a diagnostic
    and the lines before it warnings; or it was served a valid payload
    and returns its canonical frame, having printed warnings only. *)
Lemma fetch_cases net symbol start_date end_date base log :
  (exists warn line,
      forallb quiet warn = true /\ is_diagnostic line = true
      /\ fetch_stock_data net symbol start_date end_date base log
         = (Returned DataFrame_new,
            log ++ [Attempting (api_url base symbol start_date end_date)]
                ++ warn ++ [line]))
  \/ (exists doc s rows dates,
         served net symbol start_date end_date base doc
         /\ payload s rows doc
         /\ rows <> []
         /\ complete rows = true
         /\ unambiguous rows = true
         /\ to_datetime_values (raw_column "Date" rows) = Returned dates
         /\ fetch_stock_data net symbol start_date end_date base log
            = (Returned (canonical_frame dates (renamed rows)),
               log ++ [Attempting (api_url base symbol start_date end_date)]
                   ++ symbol_warning symbol s
                   ++ (if isnull_any (canonical_frame dates (renamed rows))
                       then [WarningNonNumeric symbol] else []))).
Proof.
  set (url := api_url base symbol start_date end_date).
  destruct (net url 10) as [e | r] eqn:Hnet.
  { left. exists [], (failure_line symbol e).
    split; [reflexivity |]. split; [apply is_diagnostic_failure_line |].
    now apply fetch_get_raised. }
  destruct (bad_status (status_code r)) eqn:Hst.
  { left. exists [], (HTTPErrorFetching symbol HTTPError).
    split; [reflexivity |]. split; [reflexivity |].
    now apply fetch_bad_status with (r := r). }
  destruct (body r) as [doc | e] eqn:Hbody.
  2: { left.
       exists [], (if isinstance e cls_json_JSONDecodeError
                      || isinstance e cls_requests_JSONDecodeError
                   then decode_line symbol e else failure_line symbol e).
       split; [reflexivity |].
       split; [| now apply fetch_body_raised with (r := r)].
       destruct (isinstance e cls_json_JSONDecodeError
                 || isinstance e cls_requests_JSONDecodeError);
         [apply is_diagnostic_decode_line | apply is_diagnostic_failure_line]. }
  destruct (well_shaped doc) eqn:Hshape.
  2: { left. exists [], (InvalidDataFormat symbol).
       split; [reflexivity |]. split; [reflexivity |].
       rewrite (fetch_served net symbol start_date end_date base r doc log Hnet Hst Hbody).
       rewrite (process_ill_shaped symbol doc _ Hshape).
       now rewrite <- app_assoc. }
  destruct doc as [| | | | | d]; try discriminate.
  simpl in Hshape.
  destruct (dict_get "symbol" d) as [v |] eqn:Hsym; [| discriminate].
  destruct (dict_get "data" d) as [[| | | | data |] |] eqn:Hdata; try discriminate.
  destruct (is_str v) eqn:Hstr.
  2: { left. exists [], (UnexpectedError symbol AttributeError).
       split; [reflexivity |]. split; [reflexivity |].
       rewrite (fetch_served net symbol start_date end_date base r _ log Hnet Hst Hbody).
       rewrite (process_symbol_not_str symbol d v data _ Hsym Hdata Hstr).
       now rewrite <- app_assoc. }
  destruct v as [| | | s | |]; try discriminate.
  pose proof (fetch_well_shaped net symbol start_date end_date base log r d s data
                Hnet Hst Hbody Hsym Hdata) as E.
  fold url in E.
  destruct data as [| x rest].
  { left. exists (symbol_warning symbol s), (NoDataPoints symbol).
    split; [apply quiet_symbol_warning |]. split; [reflexivity |].
    rewrite E. reflexivity. }
  destruct (build_frame_cases symbol (x :: rest) []) as [[e B] | [[av B] | B]];
    [discriminate | | |].
  - left. exists (symbol_warning symbol s), (failure_line symbol e).
    split; [apply quiet_symbol_warning |].
    split; [apply is_diagnostic_failure_line |].
    rewrite E. unfold after_symbol. rewrite B. reflexivity.
  - left. exists (symbol_warning symbol s), (MissingRequiredColumns av).
    split; [apply quiet_symbol_warning |]. split; [reflexivity |].
    rewrite E. unfold after_symbol. rewrite B. reflexivity.
  - right. destruct B as [rows [dates [Hd [Hne [Hc [Hu [Hdt B]]]]]]].
    exists (JDict d), s, rows, dates.
    split; [exists r; auto |].
    split; [exists d; rewrite <- Hd; auto |].
    repeat (split; [assumption |]).
    rewrite E. unfold after_symbol. rewrite B. cbn. now rewrite app_nil_r.
Qed.

(** The canonical frame of valid records is not empty. *)
Lemma canonical_frame_not_empty rows dates :
  rows <> [] -> complete rows = true -> unambiguous rows = true ->
  to_datetime_values (raw_column "Date" rows) = Returned dates ->
  empty (canonical_frame dates (renamed rows)) = false.
Proof.
  intros Hne Hc Hu Hd.
  apply empty_canonical_frame with (s := raw_column "Close" rows).
  - intros ->. apply to_datetime_values_length in Hd.
    unfold raw_column in Hd. rewrite length_map in Hd.
    destruct rows; [congruence | discriminate].
  - apply select_canonical; [exact Hu |].
    apply complete_In; [exact Hc | simpl; tauto].
Qed.

(** ** Properties of [fetch_stock_data] beyond the stated ones *)





Lemma to_datetime_values_stamps s dates :
  to_datetime_values s = Returned dates -> forallb is_stamp dates = true.
Proof.
  revert dates. induction s as [| c s IH]; intros dates H; simpl in H.
  - now injection H as <-.
  - destruct (to_datetime_value c) as [t |] eqn:Ht; [| discriminate].
    destruct (to_datetime_values s) as [ts |]; [| discriminate].
    injection H as <-. simpl. rewrite (IH ts eq_refl), andb_true_r.
    destruct c as [[| | | str | |] | [| | |] | t']; simpl in Ht; try discriminate;
      try (injection Ht as <-; reflexivity).
    destruct (parse_iso_date str); [| discriminate]. now injection Ht as <-.
Qed.

Lemma select_date_canonical_frame dates df :
  select (L "Date") (canonical_frame dates df) = [].
Proof.
  unfold canonical_frame.
  rewrite select_fold_coerce_other by (simpl; intuition discriminate).
  unfold select, indexed. cbn [columns].
  induction (Pandas.columns df) as [| [c v] l IH]; [reflexivity |].
  cbn [filter fst]. destruct (label_eqb c (L "Date")) eqn:E; cbn [negb]; [exact IH |].
  cbn [filter fst]. rewrite E. exact IH.
Qed.

(** X3. The shape of every non-empty frame that [fetch_stock_data]
    returns: it is indexed by [Date], every entry of the index a
    timestamp; [Date] is no longer a column; no two columns bear the
    same label; and each of Open, High, Low, Close and Volume is one
    column with one cell per row, none of them a string: what did not
    read as a number has become NaN. *)
Theorem nonempty_result_has_the_series_shape :
  forall (net : remote) (symbol start_date end_date base : string)
         (log log' : list message) (df : DataFrame),
    fetch_stock_data net symbol start_date end_date base log = (Returned df, log') ->
    empty df = false ->
    (exists dates, index df = LabelIndex (L "Date") dates
                   /\ forallb is_stamp dates = true)
    /\ select (L "Date") df = []
    /\ NoDup (labels df)
    /\ forall f, In f value_fields ->
         exists col, select (L f) df = [col]
                     /\ List.length col = nrows df
                     /\ existsb is_text col = false.
Proof.
  intros net symbol start_date end_date base log log' df Hfetch Hempty.
  destruct (fetch_nonempty_inv _ _ _ _ _ _ _ _ Hfetch Hempty)
    as [rows [dates [Hne [Hc [Hu [Hd ->]]]]]].
  split; [| split; [| split]].
  - exists dates. split; [apply index_canonical_frame |].
    now apply to_datetime_values_stamps with (s := raw_column "Date" rows).
  - apply select_date_canonical_frame.
  - now apply labels_canonical_frame.
  - intros f Hf.
    assert (Hreq : In f required_cols) by (simpl in Hf |- *; tauto).
    destruct (select_canonical f rows Hu (complete_In rows f Hc Hreq)) as [_ [_ Hsel]].
    exists (coerced (raw_column f rows)). split; [| split].
    + apply (select_canonical_frame dates _ f _ Hf Hsel).
    + rewrite (nrows_canonical_frame dates rows Hd).
      unfold coerced, raw_column. now rewrite !length_map.
    + unfold coerced. clear Hsel. generalize (raw_column f rows).
      intros l. induction l as [| c l IH]; [reflexivity | exact IH].
Qed.

Lemma nonempty_result_has_the_series_shape_witness :
  (exists dates,
      index (absorbed (fst (dashboard_fetch rows_non_numeric)))
      = LabelIndex (L "Date") dates
      /\ forallb is_stamp dates = true)
  /\ select (L "Date") (absorbed (fst (dashboard_fetch rows_non_numeric))) = []
  /\ NoDup (labels (absorbed (fst (dashboard_fetch rows_non_numeric))))
  /\ forall f, In f value_fields ->
       exists col,
         select (L f) (absorbed (fst (dashboard_fetch rows_non_numeric))) = [col]
         /\ List.length col = nrows (absorbed (fst (dashboard_fetch rows_non_numeric)))
         /\ existsb is_text col = false.
Proof.
  apply (nonempty_result_has_the_series_shape
           (answering 200 (document (JStr "TEST") rows_non_numeric))
           "TEST" "2024-01-01" "2024-01-02" default_api_base_url []
           (snd (dashboard_fetch rows_non_numeric))
           (absorbed (fst (dashboard_fetch rows_non_numeric))));
    reflexivity.
Defined.

Lemma labels_indexed_renamed dates rows :
  labels (indexed dates (renamed rows))
  = map L (filter (fun c => negb (String.eqb c "Date")) (map canon (union_keys rows))).
Proof.
  unfold labels, indexed, renamed, rename, of_records. cbn [columns].
  induction (union_keys rows) as [| k ks IH]; [reflexivity |].
  cbn [map filter fst rename_label label_eqb]. fold (canon k).
  destruct (String.eqb (canon k) "Date"); cbn [negb map fst]; now rewrite IH.
Qed.

(** A key that is not mapped to a required name is a column of the
    canonical frame, its cells untouched. *)
Lemma select_extra_key dates rows k :
  unambiguous rows = true -> In k (union_keys rows) -> ~ In (canon k) required_cols ->
  select (L k) (canonical_frame dates (renamed rows)) = [map (cell_of k) rows].
Proof.
  intros Hu Hk Hextra.
  assert (Hcanon : canon k = k) by (destruct (canon_cases k); tauto).
  assert (Hnot : ~ In k required_cols) by now rewrite <- Hcanon.
  unfold canonical_frame.
  rewrite select_fold_coerce_other by (intros Hin; apply Hnot; simpl in Hin |- *; tauto).
  rewrite select_indexed.
  2: { simpl. apply String.eqb_neq. intros ->. apply Hnot. simpl. tauto. }
  rewrite select_renamed.
  replace (filter (fun k' => String.eqb (canon k') k) (union_keys rows))
    with (filter (fun k' => String.eqb (canon k') (canon k)) (union_keys rows))
    by now rewrite Hcanon.
  rewrite filter_canon_one; [reflexivity | | exact Hk].
  now apply distinct_NoDup.
Qed.

(** X4. The columns of a returned series are the keys of the
    point-records in the order in which the payload first shows them,
    renamed, without [Date]; and a key that is not one of the six the API
    documents comes back as one column under its own name, one cell per
    point-record. *)
Theorem payload_keys_become_the_columns :
  forall (net : remote) (symbol start_date end_date base : string) (log : list message)
         (doc : json) (s : string) (rows : list record) (dates : list cell),
    served net symbol start_date end_date base doc ->
    payload s rows doc ->
    rows <> [] ->
    complete rows = true ->
    unambiguous rows = true ->
    to_datetime_values (raw_column "Date" rows) = Returned dates ->
    exists df log',
      fetch_stock_data net symbol start_date end_date base log = (Returned df, log')
      /\ labels df
         = map L (filter (fun c => negb (String.eqb c "Date"))
                         (map canon (union_keys rows)))
      /\ forall k, In k (union_keys rows) -> ~ In (canon k) required_cols ->
           exists col, select (L k) df = [col] /\ List.length col = List.length rows.
Proof.
  intros net symbol start_date end_date base log doc s rows dates Hs Hp Hne Hc Hu Hd.
  eexists _, _. split; [exact (fetch_canonical_frame _ _ _ _ _ log _ _ _ _ Hs Hp Hne Hc Hu Hd) |].
  split.
  - unfold canonical_frame. rewrite labels_fold_coerce. apply labels_indexed_renamed.
  - intros k Hk Hextra. exists (map (cell_of k) rows).
    split; [now apply select_extra_key | apply length_map].
Qed.

Lemma payload_keys_become_the_columns_witness :
  exists df log',
    fetch_stock_data (answering 200 (document (JStr "TEST") rows_adjusted))
                     "TEST" "2024-01-01" "2024-01-02" default_api_base_url []
    = (Returned df, log')
    /\ labels df = [L "Open"; L "Close"; L "High"; L "Low"; L "Volume"; L "adj_close"]
    /\ forall k, In k (union_keys rows_adjusted) -> ~ In (canon k) required_cols ->
         exists col, select (L k) df = [col]
                     /\ List.length col = List.length rows_adjusted.
Proof.
  apply (payload_keys_become_the_columns
           (answering 200 (document (JStr "TEST") rows_adjusted))
           "TEST" "2024-01-01" "2024-01-02" default_api_base_url []
           (document (JStr "TEST") rows_adjusted) "TEST" rows_adjusted
           [day 1; day 2]).
  - apply served_answering. reflexivity.
  - apply payload_document.
  - discriminate.
  - reflexivity.
  - reflexivity.
  - reflexivity.
Defined.

(** X5. On a valid payload the warning about non-numeric values is
    printed exactly when some cell of the returned frame is null, in any
    column: a value that did not parse in one of the five numeric
    columns, but also a null under a key that the API adds. *)
Theorem non_numeric_warning_follows_null_cells :
  forall (net : remote) (symbol start_date end_date base : string)
         (doc : json) (s : string) (rows : list record) (dates : list cell),
    served net symbol start_date end_date base doc ->
    payload s rows doc ->
    rows <> [] ->
    complete rows = true ->
    unambiguous rows = true ->
    to_datetime_values (raw_column "Date" rows) = Returned dates ->
    exists df log',
      fetch_stock_data net symbol start_date end_date base [] = (Returned df, log')
      /\ (In (WarningNonNumeric symbol) log'
          <-> exists c col x, In (c, col) (columns df) /\ In x col /\ null x = true)
      /\ forall k r, In k (union_keys rows) -> ~ In (canon k) required_cols ->
           In r rows -> dict_get k r = Some JNull ->
           In (WarningNonNumeric symbol) log'.
Proof.
  intros net symbol start_date end_date base doc s rows dates Hs Hp Hne Hc Hu Hd.
  pose proof (fetch_canonical_frame _ _ _ _ _ [] _ _ _ _ Hs Hp Hne Hc Hu Hd) as E.
  set (df := canonical_frame dates (renamed rows)) in *.
  assert (Hiff : isnull_any df = true
                 <-> exists c col x, In (c, col) (columns df) /\ In x col /\ null x = true).
  { unfold isnull_any. rewrite existsb_exists. split.
    - intros [[c col] [Hin Hx]]. apply existsb_exists in Hx.
      destruct Hx as [x [Hx Hn]]. now exists c, col, x.
    - intros [c [col [x [Hin [Hx Hn]]]]]. exists (c, col). split; [exact Hin |].
      apply existsb_exists. now exists x. }
  assert (Hlog : In (WarningNonNumeric symbol)
                    ([] ++ [Attempting (api_url base symbol start_date end_date)]
                        ++ symbol_warning symbol s
                        ++ (if isnull_any df then [WarningNonNumeric symbol] else []))
                 <-> isnull_any df = true).
  { cbn [app]. unfold symbol_warning.
    destruct (negb (String.eqb (upper s) (upper symbol))), (isnull_any df);
      simpl; intuition congruence. }
  eexists _, _. split; [exact E |]. split.
  - now rewrite Hlog.
  - intros k r Hk Hextra Hr Hnull. apply Hlog. apply Hiff.
    assert (Hsel : select (L k) df = [map (cell_of k) rows])
      by now apply select_extra_key.
    assert (Hcol : In (map (cell_of k) rows) (select (L k) df))
      by (rewrite Hsel; now left).
    unfold select in Hcol. apply in_map_iff in Hcol.
    destruct Hcol as [[c col] [Hcol Hin]]. simpl in Hcol. subst col.
    apply filter_In in Hin. destruct Hin as [Hin _].
    exists c, (map (cell_of k) rows), (Obj JNull). split; [exact Hin |].
    split; [| reflexivity].
    apply in_map_iff. exists r. split; [| exact Hr].
    unfold cell_of. now rewrite Hnull.
Qed.

Lemma non_numeric_warning_follows_null_cells_witness :
  exists df log',
    fetch_stock_data (answering 200 (document (JStr "TEST") rows_note))
                     "TEST" "2024-01-01" "2024-01-02" default_api_base_url []
    = (Returned df, log')
    /\ (In (WarningNonNumeric "TEST") log'
        <-> exists c col x, In (c, col) (columns df) /\ In x col /\ null x = true)
    /\ forall k r, In k (union_keys rows_note) -> ~ In (canon k) required_cols ->
         In r rows_note -> dict_get k r = Some JNull ->
         In (WarningNonNumeric "TEST") log'.
Proof.
  apply (non_numeric_warning_follows_null_cells
           (answering 200 (document (JStr "TEST") rows_note))
           "TEST" "2024-01-01" "2024-01-02" default_api_base_url
           (document (JStr "TEST") rows_note) "TEST" rows_note
           [day 1; day 2]).
  - apply served_answering. reflexivity.
  - apply payload_document.
  - discriminate.
  - reflexivity.
  - reflexivity.
  - reflexivity.
Defined.

(** ** Every path through [update_charts] *)

Section Paths.
Variable sqrtQ : Q -> Q.
Variable net : remote.
Variables symbol start_date end_date : option string.

Lemma update_charts_missing ma rt vt log :
  truthy symbol && truthy start_date && truthy end_date = false ->
  update_charts sqrtQ net symbol start_date end_date ma rt vt log
  = (Returned missing_inputs, log).
Proof. intros H. unfold update_charts. now rewrite H. Qed.

Lemma update_charts_no_data ma rt vt log df log' :
  truthy symbol && truthy start_date && truthy end_date = true ->
  fetch_stock_data net (text symbol) (text start_date) (text end_date)
                   default_api_base_url log = (Returned df, log') ->
  empty df = true ->
  update_charts sqrtQ net symbol start_date end_date ma rt vt log
  = (Returned (no_data (text symbol) (text start_date) (text end_date)), log').
Proof.
  intros H Hfetch Hempty. unfold update_charts. rewrite H. cbv [negb].
  rewrite (bind_returned _ _ _ _ _ Hfetch). cbv zeta. now rewrite Hempty.
Qed.

(** The three ways in which the callback ends. *)
Lemma update_charts_cases log :
  (truthy symbol && truthy start_date && truthy end_date = false
   /\ forall ma rt vt,
        update_charts sqrtQ net symbol start_date end_date ma rt vt log
        = (Returned missing_inputs, log))
  \/ (truthy symbol && truthy start_date && truthy end_date = true
      /\ exists df log',
           fetch_stock_data net (text symbol) (text start_date) (text end_date)
                            default_api_base_url log = (Returned df, log')
           /\ ((empty df = true
                /\ forall ma rt vt,
                     update_charts sqrtQ net symbol start_date end_date ma rt vt log
                     = (Returned (no_data (text symbol) (text start_date) (text end_date)),
                        log'))
               \/ (empty df = false
                   /\ exists closes volume,
                        select (L "Close") df = [map Num closes]
                        /\ select (L "Volume") df = [volume]
                        /\ List.length (index_values df) = nrows df
                        /\ List.length closes = nrows df
                        /\ List.length volume = nrows df
                        /\ closes <> []
                        /\ Forall reduced closes
                        /\ forall ma rt vt,
                             update_charts sqrtQ net symbol start_date end_date ma rt vt log
                             = (Returned (charts sqrtQ (text symbol) (or_empty ma)
                                                 (or_empty rt) (or_empty vt)
                                                 (index_values df) closes volume),
                                log')))).
Proof.
  destruct (truthy symbol && truthy start_date && truthy end_date) eqn:Htruthy.
  2: { left. split; [reflexivity |]. intros. now apply update_charts_missing. }
  right. split; [reflexivity |].
  destruct (fetch_cases net (text symbol) (text start_date) (text end_date)
              default_api_base_url log)
    as [[warn [line [Hw [Hl E]]]]
       | [doc [s [rows [dates [Hs [Hp [Hne [Hc [Hu [Hd E]]]]]]]]]]].
  - eexists _, _. split; [exact E |]. left. split; [reflexivity |].
    intros. now apply update_charts_no_data with (df := DataFrame_new).
  - eexists _, _. split; [exact E |]. right.
    pose proof (canonical_frame_not_empty rows dates Hne Hc Hu Hd) as Hempty.
    split; [exact Hempty |].
    set (df := canonical_frame dates (renamed rows)) in *.
    assert (Hsel : forall f, In f value_fields ->
                     select (L f) df = [map Num (map to_numeric_cell (raw_column f rows))]).
    { intros f Hf.
      assert (Hreq : In f required_cols) by (simpl in Hf |- *; tauto).
      destruct (select_canonical f rows Hu (complete_In rows f Hc Hreq)) as [_ [_ Hsel]].
      unfold df. rewrite (select_canonical_frame dates _ f _ Hf Hsel).
      unfold coerced. now rewrite map_map. }
    assert (Hrows : nrows df = List.length rows) by now apply nrows_canonical_frame.
    assert (Hix : index_values df = dates).
    { unfold index_values, df. now rewrite index_canonical_frame. }
    exists (map to_numeric_cell (raw_column "Close" rows)),
           (map Num (map to_numeric_cell (raw_column "Volume" rows))).
    split; [apply Hsel; simpl; tauto |].
    split; [apply Hsel; simpl; tauto |].
    split.
    { rewrite Hix, Hrows. apply to_datetime_values_length in Hd.
      rewrite Hd. unfold raw_column. now rewrite length_map. }
    split; [rewrite Hrows; unfold raw_column; now rewrite !length_map |].
    split; [rewrite Hrows; unfold raw_column; now rewrite !length_map |].
    assert (Hcl : map to_numeric_cell (raw_column "Close" rows) <> []).
    { unfold raw_column. destruct rows; [congruence | discriminate]. }
    split; [exact Hcl |].
    split.
    { unfold raw_column. rewrite map_map. apply Forall_forall.
      intros x0 Hx. apply in_map_iff in Hx. destruct Hx as [r [<- _]].
      apply to_numeric_cell_reduced. }
    intros ma rt vt. apply update_charts_ok; try assumption.
    split; [unfold df; now apply labels_canonical_frame |].
    split; [apply Hsel; simpl; tauto |].
    split; [apply Hsel; simpl; tauto | reflexivity].
Qed.

End Paths.

(** ** Properties of [update_charts] beyond the stated ones *)

Lemma length_ffill_from last xs : List.length (ffill_from last xs) = List.length xs.
Proof.
  revert last. induction xs as [| x0 xs IH]; intros last; [reflexivity |].
  simpl. now rewrite IH.
Qed.

Lemma length_shift xs : List.length (shift xs) = List.length xs.
Proof.
  destruct xs as [| x0 xs]; [reflexivity |]. unfold shift.
  cbn [List.length]. f_equal.
  assert (H := @app_removelast_last _ (x0 :: xs) NaN ltac:(discriminate)).
  apply (f_equal (@List.length _)) in H. rewrite length_app in H. simpl in H |- *. lia.
Qed.

Lemma length_zip_with {A B C} (f : A -> B -> C) xs ys :
  List.length xs = List.length ys -> List.length (zip_with f xs ys) = List.length xs.
Proof.
  revert ys. induction xs as [| x0 xs IH]; intros [| y0 ys] H;
    try reflexivity; try discriminate.
  simpl in *. f_equal. apply IH. lia.
Qed.

Lemma length_pct_change xs : List.length (pct_change xs) = List.length xs.
Proof.
  unfold pct_change, ffill.
  rewrite length_zip_with by now rewrite length_shift.
  apply length_ffill_from.
Qed.

Lemma length_return_values closes :
  List.length (return_values closes) = List.length closes.
Proof. unfold return_values, scale. now rewrite !length_map, length_pct_change. Qed.

Lemma length_ma_values w closes : List.length (ma_values w closes) = List.length closes.
Proof. unfold ma_values. now rewrite length_map, length_rolling. Qed.

Lemma length_volatility_values sqrtQ closes :
  List.length (volatility_values sqrtQ closes) = List.length closes.
Proof. unfold volatility_values. now rewrite length_map, length_rolling. Qed.

(** The traces of the charts of a series are drawn over its dates, one
    value per date. *)
Lemma charts_aligned sqrtQ symbol ma rt vt dates closes volume n :
  List.length dates = n -> List.length closes = n -> List.length volume = n ->
  Forall (fun tr => x tr = dates /\ List.length (y tr) = n)
         (all_traces (charts sqrtQ symbol ma rt vt dates closes volume)).
Proof.
  intros Hd Hc Hv. unfold all_traces, charts, with_ma. cbn [price_fig volume_fig
    daily_returns_fig volatility_fig].
  destruct (mem "MA50" ma && negb (isnull_all (ma_values 50 closes)));
    destruct (mem "MA200" ma && negb (isnull_all (ma_values 200 closes)));
    destruct (mem "SHOW_RETURNS" rt); destruct (mem "SHOW_VOLATILITY" vt);
    cbn; repeat constructor; cbn;
    rewrite ?length_map, ?length_ma_values, ?length_return_values,
      ?length_volatility_values; assumption.
Qed.

(** X7. The callback prints nothing of its own and asks the remote
    source nothing of its own: what it adds to the log is what its one
    call of [fetch_stock_data] adds, and with an input missing it leaves
    the log as it is and answers the same whatever the remote source
    would do. *)
Theorem update_charts_prints_what_the_fetch_prints :
  forall (sqrtQ : Q -> Q) (net : remote) (symbol start_date end_date : option string)
         (ma rt vt : option (list string)) (log : list message),
    printed (update_charts sqrtQ net symbol start_date end_date ma rt vt log)
    = (if truthy symbol && truthy start_date && truthy end_date
       then printed (fetch_stock_data net (text symbol) (text start_date) (text end_date)
                                      default_api_base_url log)
       else log)
    /\ (truthy symbol && truthy start_date && truthy end_date = false ->
        forall net',
          update_charts sqrtQ net' symbol start_date end_date ma rt vt log
          = update_charts sqrtQ net symbol start_date end_date ma rt vt log).
Proof.
  intros sqrtQ net symbol start_date end_date ma rt vt log.
  destruct (update_charts_cases sqrtQ net symbol start_date end_date log)
    as [[Ht E] | [Ht [df [log' [Hf [[He E] | [He [closes [volume H]]]]]]]]].
  - rewrite Ht, E. split; [reflexivity |].
    intros _ net'. now rewrite update_charts_missing.
  - rewrite Ht, E, Hf. split; [reflexivity | discriminate].
  - destruct H as [_ [_ [_ [_ [_ [_ [_ E]]]]]]].
    rewrite Ht, E, Hf. split; [reflexivity | discriminate].
Qed.

(** X8. Every trace of every figure that [update_charts] returns is
    drawn over the dates of the series fetched and has one value per
    row: the closing prices, the moving averages, the volumes, the daily
    returns and the volatility are aligned with the index. *)
Theorem traces_are_aligned_with_the_dates :
  forall (sqrtQ : Q -> Q) (net : remote) (symbol start_date end_date : option string)
         (ma rt vt : option (list string)) (log log1 log' : list message)
         (df : DataFrame) (out : Outputs),
    fetch_stock_data net (text symbol) (text start_date) (text end_date)
                     default_api_base_url log = (Returned df, log1) ->
    update_charts sqrtQ net symbol start_date end_date ma rt vt log = (Returned out, log') ->
    Forall (fun tr => x tr = index_values df
                      /\ List.length (x tr) = nrows df
                      /\ List.length (y tr) = nrows df)
           (all_traces out).
Proof.
  intros sqrtQ net symbol start_date end_date ma rt vt log log1 log' df out Hfetch Hupd.
  destruct (update_charts_cases sqrtQ net symbol start_date end_date log)
    as [[Ht E] | [Ht [df' [log2 [Hf [[He E] | [He [closes [volume H]]]]]]]]].
  - rewrite E in Hupd. injection Hupd as <- _. constructor.
  - rewrite E in Hupd. injection Hupd as <- _. constructor.
  - destruct H as [_ [_ [Hix [Hcl [Hvo [_ [_ E]]]]]]].
    rewrite E in Hupd. injection Hupd as <- _.
    rewrite Hf in Hfetch. injection Hfetch as -> _.
    eapply Forall_impl; [| exact (charts_aligned sqrtQ _ _ _ _ _ _ _ _ Hix Hcl Hvo)].
    intros tr [Hx Hy]. rewrite Hx. auto.
Qed.

Lemma traces_are_aligned_with_the_dates_witness :
  Forall (fun tr => x tr = index_values (absorbed (fst (dashboard_fetch rows_gap)))
                    /\ List.length (x tr) = nrows (absorbed (fst (dashboard_fetch rows_gap)))
                    /\ List.length (y tr) = nrows (absorbed (fst (dashboard_fetch rows_gap))))
         (all_traces
            (charts sqrt_milli "TEST" (or_empty all_on) (or_empty all_on) (or_empty all_on)
                    [day 1; day 2; day 3] [of_Z 100; NaN; of_Z 110]
                    [Num (of_Z 1000); Num (of_Z 1000); Num (of_Z 1000)])).
Proof.
  apply (traces_are_aligned_with_the_dates
           sqrt_milli (answering 200 (document (JStr "TEST") rows_gap))
           test_symbol (Some "2024-01-01") (Some "2024-01-02") all_on all_on all_on []
           (snd (dashboard_fetch rows_gap)) (snd (dashboard_fetch rows_gap))
           (absorbed (fst (dashboard_fetch rows_gap))));
    reflexivity.
Defined.

(** ** Moving averages over closing prices some of which are missing *)

Lemma observations_numbers w :
  Forall reduced w -> observations w = map Fin (numbers w).
Proof.
  induction 1 as [| x0 w Hx Hw IH]; [reflexivity |].
  destruct x0 as [q | | |]; simpl in Hx; try contradiction.
  - unfold observations in *. simpl. now rewrite IH.
  - exact IH.
Qed.

Lemma reduced_window w t xs : Forall reduced xs -> Forall reduced (window_of w t xs).
Proof.
  intros H. apply Forall_forall. intros z Hz. apply In_window in Hz.
  rewrite Forall_forall in H. now apply H.
Qed.

(** A rolling aggregate sees the numbers of its window only. *)
Lemma rolling_reduced_nth w m agg xs t :
  Forall reduced xs -> t < List.length xs ->
  nth_error (rolling w m agg xs) t
  = Some (if List.length (numbers (window_of w t xs)) <? m then NaN
          else agg (map Fin (numbers (window_of w t xs)))).
Proof.
  intros Hred Ht. rewrite (rolling_nth w m agg xs t Ht). cbv zeta.
  now rewrite (observations_numbers _ (reduced_window w t xs Hred)), length_map.
Qed.

Lemma numbers_all_nan xs : Forall (fun x => x = NaN) xs -> numbers xs = [].
Proof. induction 1 as [| x0 xs -> _ IH]; [reflexivity | exact IH]. Qed.

Lemma numbers_In q xs : In (Fin q) xs <-> In q (numbers xs).
Proof.
  induction xs as [| x0 xs IH]; [reflexivity |].
  destruct x0 as [q0 | | |]; simpl; rewrite <- IH; intuition congruence.
Qed.

Lemma some_number xs :
  Forall reduced xs -> Forall (fun x => x = NaN) xs \/ exists q, In (Fin q) xs.
Proof.
  induction 1 as [| x0 xs Hx Hxs [IH | [q IH]]]; [left; constructor | |].
  - destruct x0 as [q | | |]; simpl in Hx; try contradiction.
    + right. exists q. now left.
    + left. now constructor.
  - right. exists q. now right.
Qed.

(** Closing prices that are all NaN give a moving average that is all
    NaN. *)
Lemma all_nan_rolling w closes :
  Forall (fun x => x = NaN) closes -> isnull_all (ma_values w closes) = true.
Proof.
  intros Hnan. unfold isnull_all, ma_values. apply forallb_forall.
  intros c Hc. apply in_map_iff in Hc. destruct Hc as [v [<- Hv]].
  apply In_nth_error in Hv. destruct Hv as [t Ht].
  assert (Hlt : t < List.length closes).
  { rewrite <- (length_rolling w 1 mean closes). apply nth_error_Some. congruence. }
  assert (Hred : Forall reduced closes).
  { eapply Forall_impl; [| exact Hnan]. now intros a ->. }
  rewrite (rolling_reduced_nth w 1 mean closes t Hred Hlt) in Ht.
  rewrite numbers_all_nan in Ht.
  2: { apply Forall_forall. intros z Hz. apply In_window in Hz.
       rewrite Forall_forall in Hnan. now apply Hnan. }
  simpl in Ht. now injection Ht as <-.
Qed.

Lemma some_number_shows w closes q :
  0 < w -> Forall reduced closes -> In (Fin q) closes ->
  isnull_all (ma_values w closes) = false.
Proof.
  intros Hw Hred Hq.
  destruct (isnull_all (ma_values w closes)) eqn:E; [| reflexivity].
  pose proof (all_nan_mean w closes Hw Hred E) as Hnan.
  rewrite Forall_forall in Hnan. discriminate (Hnan _ Hq).
Qed.

Lemma ma_window_positive flag window legend :
  In (flag, window, legend) [("MA50", 50, "50-Day MA"); ("MA200", 200, "200-Day MA")] ->
  0 < window.
Proof. intros [E | [E | []]]; injection E as <- <- <-; lia. Qed.

(** X10. A moving-average trace is in the price figure exactly when its
    average is selected and at least one closing price of the series is a
    number; there is never more than one trace of that name. *)
Theorem moving_average_trace_iff_selected_and_numeric :
  forall (sqrtQ : Q -> Q) (net : remote) (symbol start_date end_date : option string)
         (ma rt vt : option (list string)) (log log' : list message)
         (df : DataFrame) (closes : list fval)
         (flag : string) (window : nat) (legend : string),
    truthy symbol && truthy start_date && truthy end_date = true ->
    fetch_stock_data net (text symbol) (text start_date) (text end_date)
                     default_api_base_url log = (Returned df, log') ->
    empty df = false ->
    select (L "Close") df = [map Num closes] ->
    In (flag, window, legend) [("MA50", 50, "50-Day MA"); ("MA200", 200, "200-Day MA")] ->
    exists out,
      update_charts sqrtQ net symbol start_date end_date ma rt vt log = (Returned out, log')
      /\ (traces_named legend (price_fig out) <> []
          <-> mem flag (or_empty ma) = true /\ exists q, In (Fin q) closes)
      /\ List.length (traces_named legend (price_fig out)) <= 1.
Proof.
  intros sqrtQ net symbol start_date end_date ma rt vt log log' df closes
         flag window legend Htruthy Hfetch Hne Hcl Hin.
  destruct (charts_of_fetch sqrtQ _ _ _ _ ma rt vt _ _ _ _ Htruthy Hfetch Hne Hcl)
    as [volume [E [Hnil Hred]]].
  eexists. split; [exact E |].
  rewrite (traces_named_ma _ _ _ _ _ _ _ _ _ _ _ Hin).
  pose proof (ma_window_positive _ _ _ Hin) as Hw.
  destruct (mem flag (or_empty ma)) eqn:Hmem; cbn [andb].
  2: { split; [| simpl; lia]. split; [congruence | intros [F _]; discriminate]. }
  destruct (some_number closes Hred) as [Hnan | [q Hq]].
  - rewrite (all_nan_rolling window closes Hnan). cbn [negb].
    split; [| simpl; lia]. split; [congruence |].
    intros [_ [q Hq]]. rewrite Forall_forall in Hnan. discriminate (Hnan _ Hq).
  - rewrite (some_number_shows window closes q Hw Hred Hq). cbn [negb].
    split; [| simpl; lia]. split; [intros _; eauto | discriminate].
Qed.

Lemma moving_average_trace_iff_selected_and_numeric_witness :
  exists out,
    update_charts sqrt_milli (answering 200 (document (JStr "TEST") rows_gap))
                  test_symbol test_start test_end all_on all_on all_on []
    = (Returned out, snd (dashboard_fetch rows_gap))
    /\ (traces_named "200-Day MA" (price_fig out) <> []
        <-> mem "MA200" (or_empty all_on) = true
            /\ exists q, In (Fin q) [of_Z 100; NaN; of_Z 110])
    /\ List.length (traces_named "200-Day MA" (price_fig out)) <= 1.
Proof.
  apply (moving_average_trace_iff_selected_and_numeric
           sqrt_milli (answering 200 (document (JStr "TEST") rows_gap))
           test_symbol test_start test_end all_on all_on all_on []
           (snd (dashboard_fetch rows_gap))
           (absorbed (fst (dashboard_fetch rows_gap)))
           [of_Z 100; NaN; of_Z 110] "MA200" 200 "200-Day MA");
    try reflexivity.
  simpl. tauto.
Defined.

(** X11. A moving average passes over missing closing prices: its value
    at a row is the mean of the closing prices of its window that are
    numbers, and NaN only where the window holds none ([min_periods=1]
    counts observations, not rows). *)
Theorem moving_average_skips_missing_prices :
  forall (sqrtQ : Q -> Q) (net : remote) (symbol start_date end_date : option string)
         (ma rt vt : option (list string)) (log log' : list message)
         (df : DataFrame) (closes : list fval)
         (flag : string) (window : nat) (legend : string),
    truthy symbol && truthy start_date && truthy end_date = true ->
    fetch_stock_data net (text symbol) (text start_date) (text end_date)
                     default_api_base_url log = (Returned df, log') ->
    empty df = false ->
    select (L "Close") df = [map Num closes] ->
    In (flag, window, legend) [("MA50", 50, "50-Day MA"); ("MA200", 200, "200-Day MA")] ->
    mem flag (or_empty ma) = true ->
    (exists q, In (Fin q) closes) ->
    exists out tr,
      update_charts sqrtQ net symbol start_date end_date ma rt vt log = (Returned out, log')
      /\ traces_named legend (price_fig out) = [tr]
      /\ forall t, t < List.length closes ->
           nth_error (y tr) t
           = Some (Num match numbers (window_of window t closes) with
                       | [] => NaN
                       | q :: qs => Fin (Qred (mean_Q (q :: qs)))
                       end).
Proof.
  intros sqrtQ net symbol start_date end_date ma rt vt log log' df closes
         flag window legend Htruthy Hfetch Hne Hcl Hin Hmem [q Hq].
  destruct (charts_of_fetch sqrtQ _ _ _ _ ma rt vt _ _ _ _ Htruthy Hfetch Hne Hcl)
    as [volume [E [Hnil Hred]]].
  pose proof (ma_window_positive _ _ _ Hin) as Hw.
  eexists _, _. split; [exact E |].
  rewrite (traces_named_ma _ _ _ _ _ _ _ _ _ _ _ Hin).
  rewrite Hmem, (some_number_shows window closes q Hw Hred Hq). cbn [andb negb].
  split; [reflexivity |].
  intros t Ht. cbn [y]. unfold ma_values. rewrite nth_error_map.
  rewrite (rolling_reduced_nth window 1 mean closes t Hred Ht).
  destruct (numbers (window_of window t closes)) as [| q0 qs] eqn:En; [reflexivity |].
  cbn [List.length Nat.ltb Nat.leb option_map].
  now rewrite mean_Fin by discriminate.
Qed.

Lemma moving_average_skips_missing_prices_witness :
  exists out tr,
    update_charts sqrt_milli (answering 200 (document (JStr "TEST") rows_gap))
                  test_symbol test_start test_end all_on all_on all_on []
    = (Returned out, snd (dashboard_fetch rows_gap))
    /\ traces_named "50-Day MA" (price_fig out) = [tr]
    /\ forall t, t < 3 ->
         nth_error (y tr) t
         = Some (Num match numbers (window_of 50 t [of_Z 100; NaN; of_Z 110]) with
                     | [] => NaN
                     | q :: qs => Fin (Qred (mean_Q (q :: qs)))
                     end).
Proof.
  apply (moving_average_skips_missing_prices
           sqrt_milli (answering 200 (document (JStr "TEST") rows_gap))
           test_symbol test_start test_end all_on all_on all_on []
           (snd (dashboard_fetch rows_gap))
           (absorbed (fst (dashboard_fetch rows_gap)))
           [of_Z 100; NaN; of_Z 110] "MA50" 50 "50-Day MA");
    try reflexivity.
  - simpl. tauto.
  - exists (inject_Z 100). simpl. tauto.
Defined.

(** ** Short series *)

Lemma window_of_start w w' t (xs : list fval) :
  t < w -> t < w' -> window_of w t xs = window_of w' t xs.
Proof.
  intros H H'. unfold window_of. cbv zeta.
  replace (t + 1 - w) with 0 by lia. replace (t + 1 - w') with 0 by lia.
  reflexivity.
Qed.

Lemma rolling_start w w' m agg xs t :
  t < w -> t < w' ->
  nth_error (rolling w m agg xs) t = nth_error (rolling w' m agg xs) t.
Proof.
  intros H H'. destruct (Nat.lt_ge_cases t (List.length xs)) as [Ht | Ht].
  - rewrite !rolling_nth by exact Ht. cbv zeta.
    now rewrite (window_of_start w w' t xs H H').
  - transitivity (@None fval); [| symmetry];
      apply nth_error_None; now rewrite length_rolling.
Qed.

Lemma rolling_short w w' m agg xs :
  List.length xs <= w -> List.length xs <= w' ->
  rolling w m agg xs = rolling w' m agg xs.
Proof.
  intros H H'. unfold rolling. apply map_ext_in. intros t Ht.
  apply in_seq in Ht. cbv zeta.
  now rewrite (window_of_start w w' t xs) by lia.
Qed.

(** X12. On the first fifty rows the 200-day average has the values of
    the 50-day average: both are the mean of all the rows so far.  On a
    series of at most fifty rows the two traces carry the same values
    throughout. *)
Theorem long_average_follows_the_short_one_at_first :
  forall (sqrtQ : Q -> Q) (net : remote) (symbol start_date end_date : option string)
         (ma rt vt : option (list string)) (log log' : list message)
         (df : DataFrame) (closes : list fval),
    truthy symbol && truthy start_date && truthy end_date = true ->
    fetch_stock_data net (text symbol) (text start_date) (text end_date)
                     default_api_base_url log = (Returned df, log') ->
    empty df = false ->
    select (L "Close") df = [map Num closes] ->
    mem "MA50" (or_empty ma) = true ->
    mem "MA200" (or_empty ma) = true ->
    (exists q, In (Fin q) closes) ->
    exists out short long,
      update_charts sqrtQ net symbol start_date end_date ma rt vt log = (Returned out, log')
      /\ traces_named "50-Day MA" (price_fig out) = [short]
      /\ traces_named "200-Day MA" (price_fig out) = [long]
      /\ x short = x long
      /\ (forall t, t < 50 -> nth_error (y short) t = nth_error (y long) t)
      /\ (List.length closes <= 50 -> y short = y long).
Proof.
  intros sqrtQ net symbol start_date end_date ma rt vt log log' df closes
         Htruthy Hfetch Hne Hcl H50 H200 [q Hq].
  destruct (charts_of_fetch sqrtQ _ _ _ _ ma rt vt _ _ _ _ Htruthy Hfetch Hne Hcl)
    as [volume [E [Hnil Hred]]].
  eexists _, _, _. split; [exact E |].
  rewrite (traces_named_ma _ _ _ _ _ _ _ _ "MA50" 50 "50-Day MA") by (simpl; tauto).
  rewrite (traces_named_ma _ _ _ _ _ _ _ _ "MA200" 200 "200-Day MA") by (simpl; tauto).
  rewrite H50, H200.
  rewrite (some_number_shows 50 closes q ltac:(lia) Hred Hq).
  rewrite (some_number_shows 200 closes q ltac:(lia) Hred Hq).
  cbn [andb negb]. split; [reflexivity |]. split; [reflexivity |].
  split; [reflexivity |]. cbn [y]. unfold ma_values. split.
  - intros t Ht. rewrite !nth_error_map.
    now rewrite (rolling_start 50 200 1 mean closes t) by lia.
  - intros Hlen. now rewrite (rolling_short 50 200 1 mean closes) by lia.
Qed.

Lemma long_average_follows_the_short_one_at_first_witness :
  exists out short long,
    update_charts sqrt_milli (answering 200 (document (JStr "TEST") rows_gap))
                  test_symbol test_start test_end all_on all_on all_on []
    = (Returned out, snd (dashboard_fetch rows_gap))
    /\ traces_named "50-Day MA" (price_fig out) = [short]
    /\ traces_named "200-Day MA" (price_fig out) = [long]
    /\ x short = x long
    /\ (forall t, t < 50 -> nth_error (y short) t = nth_error (y long) t)
    /\ (List.length [of_Z 100; NaN; of_Z 110] <= 50 -> y short = y long).
Proof.
  apply (long_average_follows_the_short_one_at_first
           sqrt_milli (answering 200 (document (JStr "TEST") rows_gap))
           test_symbol test_start test_end all_on all_on all_on []
           (snd (dashboard_fetch rows_gap))
           (absorbed (fst (dashboard_fetch rows_gap)))
           [of_Z 100; NaN; of_Z 110]);
    try reflexivity.
  exists (inject_Z 100). simpl. tauto.
Defined.

(** ** Division by a closing price of zero *)

Lemma pct_of_zero c p :
  (p == 0)%Q ->
  is_finite (fmul (fsub (fdiv (Fin c) (Fin p)) (of_Z 1)) (of_Z 100)) = false
  /\ (fmul (fsub (fdiv (Fin c) (Fin p)) (of_Z 1)) (of_Z 100) = NaN <-> (c == 0)%Q).
Proof.
  intros Hp. unfold fdiv. apply Qeq_bool_iff in Hp. rewrite Hp.
  unfold sign. destruct (Qcompare_spec c 0) as [Hc | Hc | Hc]; cbn.
  - split; [reflexivity | tauto].
  - split; [reflexivity |]. split; [discriminate |].
    intros E. rewrite E in Hc. now apply Qlt_irrefl in Hc.
  - split; [reflexivity |]. split; [discriminate |].
    intros E. rewrite E in Hc. now apply Qlt_irrefl in Hc.
Qed.

(** ** Volatility over closing prices some of which are missing *)

(** X14. The volatility at a row is NaN exactly when the thirty rows
    that end there hold fewer than two closing prices that are numbers;
    otherwise it is the square root of their sample variance.  One
    number in the window is enough for a moving average, not for a
    deviation. *)
Theorem volatility_needs_two_prices :
  forall (sqrtQ : Q -> Q) (net : remote) (symbol start_date end_date : option string)
         (ma rt vt : option (list string)) (log log' : list message)
         (df : DataFrame) (closes : list fval),
    truthy symbol && truthy start_date && truthy end_date = true ->
    fetch_stock_data net (text symbol) (text start_date) (text end_date)
                     default_api_base_url log = (Returned df, log') ->
    empty df = false ->
    select (L "Close") df = [map Num closes] ->
    mem "SHOW_VOLATILITY" (or_empty vt) = true ->
    exists out tr,
      update_charts sqrtQ net symbol start_date end_date ma rt vt log = (Returned out, log')
      /\ data (volatility_fig out) = [tr]
      /\ forall t, t < List.length closes ->
           exists v,
             nth_error (y tr) t = Some (Num v)
             /\ (v = NaN <-> List.length (numbers (window_of 30 t closes)) < 2)
             /\ (2 <= List.length (numbers (window_of 30 t closes)) ->
                 v = Fin (sqrtQ (Qred (var_Q (numbers (window_of 30 t closes)))))).
Proof.
  intros sqrtQ net symbol start_date end_date ma rt vt log log' df closes
         Htruthy Hfetch Hne Hcl Hvt.
  destruct (charts_of_fetch sqrtQ _ _ _ _ ma rt vt _ _ _ _ Htruthy Hfetch Hne Hcl)
    as [volume [E [Hnil Hred]]].
  eexists _, _. split; [exact E |].
  unfold charts. cbn [volatility_fig]. rewrite Hvt.
  split; [reflexivity |].
  intros t Ht. cbn [y]. unfold volatility_values. rewrite nth_error_map.
  rewrite (rolling_reduced_nth 30 1 (std sqrtQ) closes t Hred Ht).
  cbn [option_map].
  destruct (numbers (window_of 30 t closes)) as [| a [| b l]] eqn:En.
  - exists NaN. split; [reflexivity |]. simpl. split; [intuition lia | lia].
  - exists NaN. split; [reflexivity |]. simpl. split; [intuition lia | lia].
  - eexists. split; [reflexivity |].
    cbn [List.length Nat.ltb Nat.leb].
    rewrite (std_Fin sqrtQ (a :: b :: l)) by (simpl; lia).
    split; [| reflexivity]. split; [discriminate | simpl; lia].
Qed.

Lemma volatility_needs_two_prices_witness :
  exists out tr,
    update_charts sqrt_milli (answering 200 (document (JStr "TEST") rows_gap))
                  test_symbol test_start test_end all_on all_on all_on []
    = (Returned out, snd (dashboard_fetch rows_gap))
    /\ data (volatility_fig out) = [tr]
    /\ forall t, t < 3 ->
         exists v,
           nth_error (y tr) t = Some (Num v)
           /\ (v = NaN
               <-> List.length (numbers (window_of 30 t [of_Z 100; NaN; of_Z 110])) < 2)
           /\ (2 <= List.length (numbers (window_of 30 t [of_Z 100; NaN; of_Z 110])) ->
               v = Fin (sqrt_milli
                          (Qred (var_Q (numbers (window_of 30 t
                                                   [of_Z 100; NaN; of_Z 110])))))).
Proof.
  apply (volatility_needs_two_prices
           sqrt_milli (answering 200 (document (JStr "TEST") rows_gap))
           test_symbol test_start test_end all_on all_on all_on []
           (snd (dashboard_fetch rows_gap))
           (absorbed (fst (dashboard_fetch rows_gap)))
           [of_Z 100; NaN; of_Z 110]);
    reflexivity.
Defined.

(** ** The symbol of the document and the status of the response *)


(** X16. Beyond the 4XX and 5XX codes the status of the response is not
    looked at: two responses with the same body, neither status an error
    code, give the same frame and the same lines, be the status 200, 204
    or 302. *)
Theorem accepted_status_is_not_looked_at :
  forall (net1 net2 : remote) (symbol start_date end_date base : string)
         (log : list message) (r1 r2 : Response),
    net1 (api_url base symbol start_date end_date) 10 = GetResponse r1 ->
    net2 (api_url base symbol start_date end_date) 10 = GetResponse r2 ->
    bad_status (status_code r1) = false ->
    bad_status (status_code r2) = false ->
    body r1 = body r2 ->
    fetch_stock_data net1 symbol start_date end_date base log
    = fetch_stock_data net2 symbol start_date end_date base log.
Proof.
  intros net1 net2 symbol start_date end_date base log r1 r2 H1 H2 S1 S2 Hbody.
  destruct (body r1) as [doc | e] eqn:B1; symmetry in Hbody.
  - rewrite (fetch_served net1 symbol start_date end_date base r1 doc log H1 S1 B1).
    now rewrite (fetch_served net2 symbol start_date end_date base r2 doc log H2 S2 Hbody).
  - rewrite (fetch_body_raised net1 symbol start_date end_date base r1 e log H1 S1 B1).
    now rewrite (fetch_body_raised net2 symbol start_date end_date base r2 e log H2 S2 Hbody).
Qed.

Lemma accepted_status_is_not_looked_at_witness :
  fetch_stock_data (answering 200 (document (JStr "TEST") rows_success))
                   "TEST" "2024-01-01" "2024-01-02" default_api_base_url []
  = fetch_stock_data (answering 302 (document (JStr "TEST") rows_success))
                     "TEST" "2024-01-01" "2024-01-02" default_api_base_url [].
Proof.
  apply (accepted_status_is_not_looked_at
           (answering 200 (document (JStr "TEST") rows_success))
           (answering 302 (document (JStr "TEST") rows_success))
           "TEST" "2024-01-01" "2024-01-02" default_api_base_url []
           {| status_code := 200; body := Returned (document (JStr "TEST") rows_success) |}
           {| status_code := 302; body := Returned (document (JStr "TEST") rows_success) |});
    reflexivity.
Defined.

(** ** The page as it loads *)

Lemma truthy_nonempty s : s <> "" -> truthy (Some s) = true.
Proof.
  intros H. unfold truthy. destruct (String.eqb_spec s ""); [contradiction | reflexivity].
Qed.

Lemma fetch_announces net symbol start_date end_date base log :
  exists df notes,
    fetch_stock_data net symbol start_date end_date base log
    = (Returned df,
       log ++ Attempting (api_url base symbol start_date end_date) :: notes).
Proof.
  destruct (fetch_cases net symbol start_date end_date base log)
    as [[warn [line [_ [_ E]]]]
       | [doc [s [rows [dates [_ [_ [_ [_ [_ [_ E]]]]]]]]]]];
    eexists _, _; exact E.
Qed.

(** X17. With the values the layout starts with, the first call of the
    callback asks the API on localhost:8000 for AAPL over the two dates
    of the picker; whatever the answer, the returns chart and the
    volatility chart are the hidden placeholders (both toggles start
    off), and the price figure carries no trace other than the closing
    price and the two moving averages. *)
Theorem page_load_requests_the_default_symbol :
  forall (sqrtQ : Q -> Q) (net : remote) (three_months_ago today : string)
         (log : list message),
    three_months_ago <> "" ->
    today <> "" ->
    exists out notes,
      initial_update sqrtQ net three_months_ago today log
      = (Returned out,
         log ++ Attempting ("http://localhost:8000/data/stock/AAPL?from="
                              ++ three_months_ago ++ "&to=" ++ today)%string :: notes)
      /\ daily_returns_fig out = returns_placeholder
      /\ volatility_fig out = volatility_placeholder
      /\ forall tr, In tr (data (price_fig out)) ->
           In (name tr) ["Close"; "50-Day MA"; "200-Day MA"].
Proof.
  intros sqrtQ net three_months_ago today log Hstart Hend.
  assert (Ht : truthy stock_symbol_input && truthy (Some three_months_ago)
               && truthy (Some today) = true).
  { now rewrite (truthy_nonempty _ Hstart), (truthy_nonempty _ Hend). }
  destruct (fetch_announces net "AAPL" three_months_ago today default_api_base_url log)
    as [df0 [notes E0]].
  unfold initial_update.
  destruct (update_charts_cases sqrtQ net stock_symbol_input (Some three_months_ago)
              (Some today) log)
    as [[Hf _] | [_ [df [log' [Hf [[He E] | [He [closes [volume H]]]]]]]]].
  - rewrite Ht in Hf. discriminate.
  - cbn [text stock_symbol_input] in Hf. rewrite E0 in Hf. injection Hf as _ <-.
    eexists _, notes. split; [apply E |].
    split; [reflexivity |]. split; [reflexivity |]. intros tr [].
  - destruct H as [_ [_ [_ [_ [_ [_ [_ E]]]]]]].
    cbn [text stock_symbol_input] in Hf. rewrite E0 in Hf. injection Hf as _ <-.
    eexists _, notes. split; [apply E |].
    split; [reflexivity |]. split; [reflexivity |].
    unfold charts, with_ma. cbn [price_fig].
    destruct (mem "MA50" (or_empty ma_toggles) && negb (isnull_all (ma_values 50 closes)));
      destruct (mem "MA200" (or_empty ma_toggles)
                && negb (isnull_all (ma_values 200 closes)));
      cbn; intros tr Htr; intuition (subst; cbn; tauto).
Qed.

Lemma page_load_requests_the_default_symbol_witness :
  exists out notes,
    initial_update sqrt_milli (answering 200 (document (JStr "AAPL") rows_success))
                   "2024-01-01" "2024-03-31" []
    = (Returned out,
       [] ++ Attempting "http://localhost:8000/data/stock/AAPL?from=2024-01-01&to=2024-03-31"
          :: notes)
    /\ daily_returns_fig out = returns_placeholder
    /\ volatility_fig out = volatility_placeholder
    /\ forall tr, In tr (data (price_fig out)) ->
         In (name tr) ["Close"; "50-Day MA"; "200-Day MA"].
Proof.
  apply (page_load_requests_the_default_symbol
           sqrt_milli (answering 200 (document (JStr "AAPL") rows_success))
           "2024-01-01" "2024-03-31" []);
    discriminate.
Defined.

(** ** Payloads whose numeric fields pandas and the model read alike *)

Lemma map_JDict_inj (rows rows' : list record) :
  map JDict rows = map JDict rows' -> rows = rows'.
Proof.
  revert rows'. induction rows as [| r rows IH]; intros [| r' rows'] H;
    try discriminate; [reflexivity |].
  simpl in H. injection H as -> H. f_equal. now apply IH.
Qed.

(** What a remote source that answers with one document serves. *)
Lemma payload_of_answering status s0 rows0 symbol start_date end_date base doc s rows :
  served (answering status (document (JStr s0) rows0)) symbol start_date end_date base doc ->
  payload s rows doc -> s = s0 /\ rows = rows0.
Proof.
  intros [r [Hnet [_ Hb]]] [d [Hd [Hsym Hdata]]].
  unfold answering in Hnet. injection Hnet as <-. simpl in Hb. injection Hb as <-.
  unfold document in Hd. injection Hd as <-. simpl in Hsym, Hdata.
  injection Hsym as <-. injection Hdata as Hmap.
  split; [reflexivity |]. symmetry. now apply map_JDict_inj.
Qed.

Lemma plain_payload_answering status s0 rows0 symbol start_date end_date :
  is_ascii s0 = true ->
  plain_fields rows0 = true ->
  plain_payload (answering status (document (JStr s0) rows0)) symbol start_date end_date.
Proof.
  intros Ha H doc s rows Hs Hp.
  destruct (payload_of_answering _ _ _ _ _ _ _ _ _ _ Hs Hp) as [-> ->]. now split.
Qed.



(** X9. Each toggle acts on its own chart only, provided that what the
    remote source serves is a plain payload (on a column of booleans
    turning the returns on may make the callback raise).  The volume
    figure and the
    error fields do not depend on any toggle, the price figure depends on
    the moving-average selection only, the returns figure on the returns
    toggle only and the volatility figure on the volatility toggle only;
    the toggles change neither the request nor what is printed.  A toggle
    that is [None] counts as the empty selection. *)
Theorem toggles_act_on_their_own_chart :
  forall (sqrtQ : Q -> Q) (net : remote) (symbol start_date end_date : option string)
         (ma rt vt ma' rt' vt' : option (list string)) (log : list message),
    plain_payload net (text symbol) (text start_date) (text end_date) ->
    exists out out' log',
      update_charts sqrtQ net symbol start_date end_date ma rt vt log = (Returned out, log')
      /\ update_charts sqrtQ net symbol start_date end_date ma' rt' vt' log
         = (Returned out', log')
      /\ volume_fig out = volume_fig out'
      /\ error_message out = error_message out'
      /\ error_className out = error_className out'
      /\ (or_empty ma = or_empty ma' -> price_fig out = price_fig out')
      /\ (or_empty rt = or_empty rt' -> daily_returns_fig out = daily_returns_fig out')
      /\ (or_empty vt = or_empty vt' -> volatility_fig out = volatility_fig out').
Proof.
  intros sqrtQ net symbol start_date end_date ma rt vt ma' rt' vt' log _.
  destruct (update_charts_cases sqrtQ net symbol start_date end_date log)
    as [[Ht E] | [Ht [df [log' [Hf [[He E] | [He [closes [volume H]]]]]]]]].
  - eexists _, _, _. split; [apply E |]. split; [apply E |]. auto 10.
  - eexists _, _, _. split; [apply E |]. split; [apply E |]. auto 10.
  - destruct H as [_ [_ [_ [_ [_ [_ [_ E]]]]]]].
    eexists _, _, _. split; [apply E |]. split; [apply E |].
    unfold charts. cbn [price_fig volume_fig daily_returns_fig volatility_fig
                        error_message error_className].
    repeat split; intros ->; reflexivity.
Qed.

Lemma toggles_act_on_their_own_chart_witness :
  exists out out' log',
    update_charts sqrt_milli (answering 200 (document (JStr "TEST") rows_success))
                  test_symbol test_start test_end all_on all_on all_on []
    = (Returned out, log')
    /\ update_charts sqrt_milli (answering 200 (document (JStr "TEST") rows_success))
                     test_symbol test_start test_end all_on None None []
       = (Returned out', log')
    /\ volume_fig out = volume_fig out'
    /\ error_message out = error_message out'
    /\ error_className out = error_className out'
    /\ (or_empty all_on = or_empty all_on -> price_fig out = price_fig out')
    /\ (or_empty all_on = or_empty None -> daily_returns_fig out = daily_returns_fig out')
    /\ (or_empty all_on = or_empty None -> volatility_fig out = volatility_fig out').
Proof.
  apply (toggles_act_on_their_own_chart
           sqrt_milli (answering 200 (document (JStr "TEST") rows_success))
           test_symbol test_start test_end all_on all_on all_on all_on None None []).
  apply plain_payload_answering; reflexivity.
Defined.

(** X13. A closing price of zero does not break the returns chart, on a
    plain payload (numeric fields that are numbers float64 holds
    exactly, nulls or strings that spell no number): the daily return of
    the following row is not a finite number (infinite, or NaN when that
    row closes at zero too), the chart is drawn and no exception is
    raised. *)
Theorem zero_close_gives_a_non_finite_return :
  forall (sqrtQ : Q -> Q) (net : remote) (symbol start_date end_date : option string)
         (ma rt vt : option (list string)) (log log' : list message)
         (df : DataFrame) (qs : list Q) (t : nat) (c p : Q),
    plain_payload net (text symbol) (text start_date) (text end_date) ->
    truthy symbol && truthy start_date && truthy end_date = true ->
    fetch_stock_data net (text symbol) (text start_date) (text end_date)
                     default_api_base_url log = (Returned df, log') ->
    empty df = false ->
    select (L "Close") df = [map Num (map Fin qs)] ->
    mem "SHOW_RETURNS" (or_empty rt) = true ->
    nth_error qs t = Some p ->
    nth_error qs (S t) = Some c ->
    (p == 0)%Q ->
    exists out tr v,
      update_charts sqrtQ net symbol start_date end_date ma rt vt log = (Returned out, log')
      /\ data (daily_returns_fig out) = [tr]
      /\ nth_error (y tr) (S t) = Some (Num v)
      /\ is_finite v = false
      /\ (v = NaN <-> (c == 0)%Q).
Proof.
  intros sqrtQ net symbol start_date end_date ma rt vt log log' df qs t c p
         _ Htruthy Hfetch Hne Hcl Hrt Hp Hc Hzero.
  destruct (charts_of_fetch sqrtQ _ _ _ _ ma rt vt _ _ _ _ Htruthy Hfetch Hne Hcl)
    as [volume [E _]].
  eexists _, _, _. split; [exact E |].
  unfold charts. cbn [daily_returns_fig]. rewrite Hrt.
  split; [reflexivity |]. cbn [y]. unfold return_values.
  split; [| exact (pct_of_zero c p Hzero)].
  rewrite nth_error_map. now rewrite (pct_change_next qs t c p Hc Hp).
Qed.

Lemma zero_close_gives_a_non_finite_return_witness :
  exists out tr v,
    update_charts sqrt_milli (answering 200 (document (JStr "TEST") rows_0_5))
                  test_symbol test_start test_end all_on all_on all_on []
    = (Returned out, snd (dashboard_fetch rows_0_5))
    /\ data (daily_returns_fig out) = [tr]
    /\ nth_error (y tr) 1 = Some (Num v)
    /\ is_finite v = false
    /\ (v = NaN <-> (inject_Z 5 == 0)%Q).
Proof.
  apply (zero_close_gives_a_non_finite_return
           sqrt_milli (answering 200 (document (JStr "TEST") rows_0_5))
           test_symbol test_start test_end all_on all_on all_on []
           (snd (dashboard_fetch rows_0_5))
           (absorbed (fst (dashboard_fetch rows_0_5)))
           [inject_Z 0; inject_Z 5] 0 (inject_Z 5) (inject_Z 0));
    try reflexivity.
  apply plain_payload_answering; reflexivity.
Defined.

(** ** A moving average that is NaN throughout *)

(** A selected moving average is attached to the frame whatever its
    values; only its trace depends on them. *)
Lemma moving_average_selected selected flag window legend df fig log closes volume dates :
  mem flag selected = true ->
  tidy df closes volume dates ->
  moving_average selected flag window legend (df, fig) log
  = (Returned (setitem (L flag) (ma_values window closes) df,
               with_ma selected flag window legend dates closes fig), log).
Proof.
  intros Hmem [Hnd [Hcl [Hvo Hix]]].
  unfold moving_average, with_ma. rewrite Hmem.
  rewrite (bind_returned _ _ _ _ _ (getitem_one _ _ _ log Hcl)).
  unfold as_series at 1. unfold bind at 1, ret at 1.
  rewrite (bind_returned _ _ _ _ _ (floats_Num closes log)).
  fold (ma_values window closes).
  rewrite (bind_returned _ _ _ _ _
             (getitem_one _ _ _ log (select_setitem_any _ (ma_values window closes) _ Hnd))).
  unfold as_series. unfold bind, ret.
  change (index_values (setitem (L flag) (ma_values window closes) df))
    with (index_values df). rewrite Hix.
  now destruct (isnull_all (ma_values window closes)).
Qed.

(** C2.  On a non-empty series fetched from a plain payload, when MA50
    (or MA200) is requested and every value of the moving average is NaN
    (the closing prices are then all NaN), the price figure that
    [update_charts] returns has no trace of that average.  The column itself is attached all the same: line 70
    (or 75) assigns it to the callback's frame before the test of line 71
    (or 76), which guards the trace only; the frame is not part of what
    the callback returns. *)
Theorem all_nan_moving_average_is_not_plotted :
  forall (sqrtQ : Q -> Q) (net : remote) (symbol start_date end_date : option string)
         (ma rt vt : option (list string)) (log log' : list message)
         (df : DataFrame) (closes : list fval)
         (flag : string) (window : nat) (legend : string),
    plain_payload net (text symbol) (text start_date) (text end_date) ->
    truthy symbol && truthy start_date && truthy end_date = true ->
    fetch_stock_data net (text symbol) (text start_date) (text end_date)
                     default_api_base_url log = (Returned df, log') ->
    empty df = false ->
    select (L "Close") df = [map Num closes] ->
    In (flag, window, legend) [("MA50", 50, "50-Day MA"); ("MA200", 200, "200-Day MA")] ->
    mem flag (or_empty ma) = true ->
    isnull_all (map Num (rolling window 1 mean closes)) = true ->
    (exists out,
        update_charts sqrtQ net symbol start_date end_date ma rt vt log = (Returned out, log')
        /\ traces_named legend (price_fig out) = []
        /\ Forall (fun x => x = NaN) closes)
    /\ (forall fig log0,
           exists df',
             moving_average (or_empty ma) flag window legend (df, fig) log0
             = (Returned (df', fig), log0)
             /\ has_column (L flag) df' = true
             /\ select (L flag) df' = [map Num (rolling window 1 mean closes)]
             /\ List.length (rolling window 1 mean closes) = nrows df).
Proof.
  intros sqrtQ net symbol start_date end_date ma rt vt log log' df closes flag window legend
         _ Htruthy Hfetch Hne Hcl Hin Hsel Hnull.
  split.
  - destruct (charts_of_fetch sqrtQ _ _ _ _ ma rt vt _ _ _ _ Htruthy Hfetch Hne Hcl)
      as [volume [Hup [Hqs Hred]]].
    eexists. split; [exact Hup |]. split.
    + rewrite (traces_named_ma _ _ _ _ _ _ _ _ _ _ _ Hin). unfold ma_values.
      now rewrite Hnull, andb_false_r.
    + apply all_nan_mean with (window := window); [| exact Hred | exact Hnull].
      destruct Hin as [E | [E | []]]; inversion E; lia.
  - intros fig log0.
    destruct (fetch_returns_canonical_series _ _ _ _ _ _ _ _ Hfetch Hne)
      as [closes' [Hnd [Hcl' [[volume Hvo] [Hlen [Hne' Hred]]]]]].
    assert (closes' = closes) by (apply map_Num_inj; congruence). subst closes'.
    assert (Ht : tidy df closes volume (index_values df)) by (repeat split; assumption).
    exists (setitem (L flag) (ma_values window closes) df).
    assert (Hs : select (L flag) (setitem (L flag) (ma_values window closes) df)
                 = [ma_values window closes])
      by now apply select_setitem_any.
    split; [| split; [| split]].
    + rewrite (moving_average_selected _ _ window legend _ fig log0 _ _ _ Hsel Ht).
      unfold with_ma, ma_values. now rewrite Hnull, andb_false_r.
    + rewrite has_column_select, Hs. reflexivity.
    + exact Hs.
    + now rewrite length_rolling.
Qed.

Lemma all_nan_moving_average_is_not_plotted_witness :
  (exists out,
      update_charts sqrt_milli (answering 200 (document (JStr "TEST") rows_no_close))
                    test_symbol test_start test_end all_on all_on all_on []
      = (Returned out, snd (dashboard_fetch rows_no_close))
      /\ traces_named "50-Day MA" (price_fig out) = []
      /\ Forall (fun x => x = NaN) [NaN; NaN])
  /\ (forall fig log0,
         exists df',
           moving_average (or_empty all_on) "MA50" 50 "50-Day MA"
                          (absorbed (fst (dashboard_fetch rows_no_close)), fig) log0
           = (Returned (df', fig), log0)
           /\ has_column (L "MA50") df' = true
           /\ select (L "MA50") df' = [map Num (rolling 50 1 mean [NaN; NaN])]
           /\ List.length (rolling 50 1 mean [NaN; NaN])
              = nrows (absorbed (fst (dashboard_fetch rows_no_close)))).
Proof.
  apply (all_nan_moving_average_is_not_plotted
           sqrt_milli (answering 200 (document (JStr "TEST") rows_no_close))
           test_symbol test_start test_end all_on all_on all_on []
           (snd (dashboard_fetch rows_no_close))
           (absorbed (fst (dashboard_fetch rows_no_close)))
           [NaN; NaN] "MA50" 50 "50-Day MA");
    try reflexivity.
  - apply plain_payload_answering; reflexivity.
  - simpl. tauto.
Defined.

(** The claim as the specification words it (the all-NaN column is not
    attached) fails on closing prices none of which is a number: after
    lines 69-72 the frame has the column [MA50], every value NaN, while
    the figure has received no trace. *)
Lemma all_nan_average_is_attached_to_the_frame :
  exists df',
    moving_average ["MA50"] "MA50" 50 "50-Day MA"
                   (absorbed (fst (dashboard_fetch rows_no_close)), Figure_new) []
    = (Returned (df', Figure_new), [])
    /\ has_column (L "MA50") (absorbed (fst (dashboard_fetch rows_no_close))) = false
    /\ has_column (L "MA50") df' = true
    /\ select (L "MA50") df' = [[Num NaN; Num NaN]].
Proof. eexists. split; [reflexivity |]. repeat split. Qed.

(** ** Values that fail numeric parsing *)

Lemma alien_char c :
  alien c = true ->
  digit c = None /\ c <> "."%char /\ c <> "-"%char /\ c <> "+"%char.
Proof.
  destruct c as [[] [] [] [] [] [] [] []]; intros H;
    try discriminate H; repeat split; try reflexivity; discriminate.
Qed.

Lemma digits_from_None acc s c :
  In c (list_ascii_of_string s) -> digit c = None -> digits_from acc s = None.
Proof.
  revert acc. induction s as [| a s IH]; intros acc Hin Hd; [contradiction |].
  simpl in Hin |- *. destruct Hin as [-> | Hin]; [now rewrite Hd |].
  destruct (digit a); [now apply IH | reflexivity].
Qed.

Lemma digits_None s c :
  In c (list_ascii_of_string s) -> digit c = None -> digits s = None.
Proof.
  destruct s as [| a s]; [contradiction |]. intros Hin Hd.
  unfold digits. now apply digits_from_None with (c := c).
Qed.

Lemma split_point_In s c :
  In c (list_ascii_of_string s) -> c <> "."%char ->
  In c (list_ascii_of_string (fst (split_point s)))
  \/ exists f, snd (split_point s) = Some f /\ In c (list_ascii_of_string f).
Proof.
  induction s as [| a s IH]; [contradiction |]. intros Hin Hne.
  simpl in Hin |- *. destruct (Ascii.eqb_spec a "."%char) as [Ea | Na].
  - destruct Hin as [E | Hin]; [congruence |]. right. exists s. now split.
  - destruct (split_point s) as [ip fp] eqn:E. simpl in IH |- *.
    destruct Hin as [-> | Hin]; [left; now left |].
    destruct (IH Hin Hne) as [H | [f [Hf H]]]; [left; now right | right; now exists f].
Qed.

Lemma unsigned_decimal_None s c :
  In c (list_ascii_of_string s) -> digit c = None -> c <> "."%char ->
  unsigned_decimal s = None.
Proof.
  intros Hin Hd Hne. unfold unsigned_decimal.
  pose proof (split_point_In s c Hin Hne) as H.
  destruct (split_point s) as [ip [fp |]]; simpl in H;
    destruct H as [H | [f [Hf H]]].
  - now rewrite (digits_None ip c H Hd).
  - injection Hf as ->. rewrite (digits_None f c H Hd). now destruct (digits ip).
  - now rewrite (digits_None ip c H Hd).
  - discriminate.
Qed.

Lemma parse_decimal_unsigned h t :
  h <> "-"%char -> h <> "+"%char ->
  parse_decimal (String h t) = unsigned_decimal (String h t).
Proof.
  intros Hm Hp. destruct h as [[] [] [] [] [] [] [] []];
    try reflexivity; congruence.
Qed.

(** The model's parser refuses every wordy string. *)
Lemma parse_decimal_wordy s : wordy s = true -> parse_decimal s = None.
Proof.
  unfold wordy. intros H. apply existsb_exists in H. destruct H as [c [Hin Ha]].
  destruct (alien_char c Ha) as [Hd [Hpt [Hm Hp]]].
  destruct s as [| h t]; [contradiction |].
  destruct (Ascii.eqb_spec h "-"%char) as [-> | Nm].
  { simpl in Hin. destruct Hin as [E | Hin]; [congruence |].
    change (option_map (fun q => Qred (Qopp q)) (unsigned_decimal t) = None).
    now rewrite (unsigned_decimal_None t c Hin Hd Hpt). }
  destruct (Ascii.eqb_spec h "+"%char) as [-> | Np].
  { simpl in Hin. destruct Hin as [E | Hin]; [congruence |].
    change (unsigned_decimal t = None).
    exact (unsigned_decimal_None t c Hin Hd Hpt). }
  rewrite (parse_decimal_unsigned h t Nm Np).
  exact (unsigned_decimal_None (String h t) c Hin Hd Hpt).
Qed.

Lemma to_numeric_unparsable k r :
  unparsable (dict_get k r) -> to_numeric_cell (cell_of k r) = NaN.
Proof.
  unfold cell_of. intros [E | [E | [s [E Hw]]]]; rewrite E; try reflexivity.
  simpl. now rewrite (parse_decimal_wordy s Hw).
Qed.

(** A plain cell holds a number that float64 holds exactly, or a value
    that fails numeric parsing. *)
Lemma plain_cell k r :
  plain (cell_of k r) = true ->
  (exists q, dict_get k r = Some (JNum q) /\ binary64 q = true)
  \/ unparsable (dict_get k r).
Proof.
  unfold cell_of, unparsable.
  destruct (dict_get k r) as [[| b | q | s | l | d] |]; simpl; intros H;
    try discriminate; eauto 6.
Qed.

(** C4.  For N point-records that pass the structural gate and the
    column gate, under a symbol in ASCII, whose dates parse, in which
    every required column comes from one key and the values of the
    numeric fields are numbers that float64 holds exactly, nulls,
    missing, or strings that spell no number: the series is returned with exactly N rows, and in each of
    Open, High, Low, Close and Volume the cell of row [i] is the number
    that the [i]-th record holds under the column's key, or NaN where
    that value fails numeric parsing, whatever the other rows and fields
    hold.  (The two gates alone do not suffice: a date that does not
    parse loses the whole series.) *)
Theorem numeric_failure_is_confined_to_its_cell :
  forall (net : remote) (symbol start_date end_date base : string) (log : list message)
         (doc : json) (s : string) (rows : list record) (dates : list cell),
    served net symbol start_date end_date base doc ->
    payload s rows doc ->
    rows <> [] ->
    complete rows = true ->
    unambiguous rows = true ->
    to_datetime_values (raw_column "Date" rows) = Returned dates ->
    is_ascii s = true ->
    plain_fields rows = true ->
    exists df log',
      fetch_stock_data net symbol start_date end_date base log = (Returned df, log')
      /\ empty df = false
      /\ nrows df = List.length rows
      /\ forall f, In f value_fields ->
           exists col,
             select (L f) df = [col]
             /\ List.length col = List.length rows
             /\ forall i r, nth_error rows i = Some r ->
                  (forall q, dict_get (source_key f rows) r = Some (JNum q) ->
                             nth_error col i = Some (Num (Fin (Qred q))))
                  /\ (unparsable (dict_get (source_key f rows) r) ->
                      nth_error col i = Some (Num NaN))
                  /\ ((exists q, dict_get (source_key f rows) r = Some (JNum q)
                                 /\ binary64 q = true)
                      \/ unparsable (dict_get (source_key f rows) r)).
Proof.
  intros net symbol start_date end_date base log doc s rows dates
         Hserved Hpayload Hne Hc Hu Hdates _ Hplain.
  eexists _, _. split;
    [apply (fetch_canonical_frame _ _ _ _ _ log _ _ _ _ Hserved Hpayload Hne Hc Hu Hdates) |].
  assert (Hsel : forall c, In c required_cols ->
                           select (L c) (renamed rows) = [raw_column c rows]).
  { intros c Hin. apply select_canonical; [exact Hu | now apply complete_In]. }
  split; [| split].
  - now apply canonical_frame_not_empty.
  - now apply nrows_canonical_frame.
  - intros f Hf. exists (coerced (raw_column f rows)). split; [| split].
    + apply select_canonical_frame; [exact Hf |].
      apply Hsel. unfold value_fields in Hf. simpl in *. tauto.
    + unfold coerced, raw_column. now rewrite !length_map.
    + intros i r Hi.
      assert (Hcell : nth_error (coerced (raw_column f rows)) i
                      = Some (Num (to_numeric_cell (cell_of (source_key f rows) r)))).
      { unfold coerced, raw_column. now rewrite !nth_error_map, Hi. }
      split; [| split].
      * intros q Hq. rewrite Hcell. unfold cell_of. now rewrite Hq.
      * intros Hun. rewrite Hcell. now rewrite (to_numeric_unparsable _ _ Hun).
      * apply plain_cell.
        unfold plain_fields in Hplain. rewrite forallb_forall in Hplain.
        specialize (Hplain f Hf). rewrite forallb_forall in Hplain.
        apply Hplain. unfold raw_column. apply in_map.
        now apply nth_error_In with (n := i).
Qed.

Lemma numeric_failure_is_confined_to_its_cell_witness :
  exists df log',
    fetch_stock_data (answering 200 (document (JStr "TEST") rows_non_numeric))
                     "TEST" "2024-01-01" "2024-01-02" "http://mockapi.com" []
    = (Returned df, log')
    /\ empty df = false
    /\ nrows df = List.length rows_non_numeric
    /\ forall f, In f value_fields ->
         exists col,
           select (L f) df = [col]
           /\ List.length col = List.length rows_non_numeric
           /\ forall i r, nth_error rows_non_numeric i = Some r ->
                (forall q, dict_get (source_key f rows_non_numeric) r = Some (JNum q) ->
                           nth_error col i = Some (Num (Fin (Qred q))))
                /\ (unparsable (dict_get (source_key f rows_non_numeric) r) ->
                    nth_error col i = Some (Num NaN))
                /\ ((exists q, dict_get (source_key f rows_non_numeric) r = Some (JNum q)
                               /\ binary64 q = true)
                    \/ unparsable (dict_get (source_key f rows_non_numeric) r)).
Proof.
  apply (numeric_failure_is_confined_to_its_cell
           (answering 200 (document (JStr "TEST") rows_non_numeric))
           "TEST" "2024-01-01" "2024-01-02" "http://mockapi.com" []
           (document (JStr "TEST") rows_non_numeric) "TEST" rows_non_numeric
           [day 1; day 2]).
  - apply served_answering. reflexivity.
  - apply payload_document.
  - discriminate.
  - reflexivity.
  - reflexivity.
  - reflexivity.
  - reflexivity.
  - reflexivity.
Defined.

(** The claim as the specification words it (the two gates suffice)
    fails on two point-records the first of which bears a date that does
    not parse and an opening price that is no number: the document
    passes the structural gate, the records pass the column gate, and
    the function returns the empty frame, not a series of two rows with
    one NaN. *)
Lemma gates_passed_and_series_lost :
  well_shaped (document (JStr "TEST") rows_not_dated) = true
  /\ forallb (fun col => has_column (L col) (renamed rows_not_dated)) required_cols = true
  /\ (exists r, nth_error rows_not_dated 0 = Some r
                /\ unparsable (dict_get (source_key "Open" rows_not_dated) r))
  /\ dashboard_fetch rows_not_dated
     = (Returned DataFrame_new,
        [Attempting "http://localhost:8000/data/stock/TEST?from=2024-01-01&to=2024-01-02";
         UnexpectedError "TEST" ValueError])
  /\ nrows DataFrame_new <> List.length rows_not_dated.
Proof.
  split; [reflexivity |]. split; [reflexivity |]. split.
  - eexists. split; [reflexivity |]. right. right. eexists. split; reflexivity.
  - split; [reflexivity | discriminate].
Qed.

(** ** The daily returns, in binary64 *)

Lemma b64_div_nan x : PrimFloat.div x PrimFloat.nan = PrimFloat.nan.
Proof.
  apply FloatAxioms.Prim2SF_inj. rewrite FloatAxioms.div_spec.
  change (FloatOps.Prim2SF PrimFloat.nan) with SpecFloat.S754_nan.
  destruct (FloatOps.Prim2SF x); reflexivity.
Qed.

Lemma b64_ffill_from last xs :
  Forall (fun x => PrimFloat.is_nan x = false) xs -> Binary64.ffill_from last xs = xs.
Proof.
  intros H. revert last. induction H as [| x0 xs Hx _ IH]; intros last; [reflexivity |].
  simpl. rewrite Hx. now rewrite IH.
Qed.

Lemma b64_pct_change xs :
  Forall (fun x => PrimFloat.is_nan x = false) xs ->
  Binary64.pct_change xs
  = zip_with (fun cur prev => PrimFloat.sub (PrimFloat.div cur prev) Binary64.one)
             xs (PrimFloat.nan :: xs).
Proof.
  intros H. unfold Binary64.pct_change, Binary64.ffill.
  rewrite (b64_ffill_from _ xs H). unfold Binary64.shift.
  destruct xs as [| x0 xs]; [reflexivity |].
  apply zip_with_removelast. simpl. lia.
Qed.

(** C7.  The column [Daily Return] of line 100 on closing prices that
    are float64 numbers, when the chart is requested: one value per row;
    the first is NaN; the value of every later row [t] is
    [(Close[t] / Close[t-1] - 1) * 100], each operation rounded to
    float64.  That is the percentage change of the specification up to
    rounding, not bit for bit: for the prices 100, 110 the second value
    is [10.000000000000009], where the quotient
    [(Close[t] - Close[t-1]) / Close[t-1] * 100] gives [10.0]. *)
Theorem daily_return_is_the_rounded_percentage_change :
  forall (return_toggle_value : list string) (closes : list PrimFloat.float),
    mem "SHOW_RETURNS" return_toggle_value = true ->
    closes <> [] ->
    Forall (fun x => PrimFloat.is_nan x = false) closes ->
    exists returns,
      Binary64.daily_returns return_toggle_value (Some closes) = Some returns
      /\ List.length returns = List.length closes
      /\ nth_error returns 0 = Some PrimFloat.nan
      /\ forall t c p,
           nth_error closes t = Some p -> nth_error closes (S t) = Some c ->
           nth_error returns (S t)
           = Some (PrimFloat.mul (PrimFloat.sub (PrimFloat.div c p) Binary64.one)
                                 Binary64.hundred).
Proof.
  intros toggles closes Hmem Hne Hnum.
  exists (Binary64.daily_return closes).
  split; [| split; [| split]].
  - unfold Binary64.daily_returns. rewrite Hmem.
    destruct closes; [congruence | reflexivity].
  - unfold Binary64.daily_return, Binary64.scale.
    rewrite length_map, (b64_pct_change closes Hnum).
    apply length_zip_with_shifted.
  - unfold Binary64.daily_return, Binary64.scale.
    rewrite (b64_pct_change closes Hnum).
    destruct closes as [| x0 xs]; [congruence |].
    cbn [zip_with map nth_error]. now rewrite b64_div_nan.
  - intros t c p Hp Hc.
    unfold Binary64.daily_return, Binary64.scale.
    rewrite nth_error_map, (b64_pct_change closes Hnum).
    now rewrite (zip_with_shifted_nth _ closes PrimFloat.nan t c p Hc Hp).
Qed.

Lemma daily_return_is_the_rounded_percentage_change_witness :
  exists returns,
    Binary64.daily_returns ["SHOW_RETURNS"] (Some Binary64.closes_100_110) = Some returns
    /\ List.length returns = List.length Binary64.closes_100_110
    /\ nth_error returns 0 = Some PrimFloat.nan
    /\ forall t c p,
         nth_error Binary64.closes_100_110 t = Some p ->
         nth_error Binary64.closes_100_110 (S t) = Some c ->
         nth_error returns (S t)
         = Some (PrimFloat.mul (PrimFloat.sub (PrimFloat.div c p) Binary64.one)
                               Binary64.hundred).
Proof.
  apply (daily_return_is_the_rounded_percentage_change
           ["SHOW_RETURNS"] Binary64.closes_100_110).
  - reflexivity.
  - discriminate.
  - repeat constructor.
Defined.

(** The claim as the specification words it (for the prices 100, 110
    the second daily return equals 10.0) fails: line 100 computes
    [(110 / 100 - 1) * 100], which in float64 is [10.000000000000009];
    the quotient the specification writes, [(110 - 100) / 100 * 100],
    would have given [10.0]. *)
Lemma daily_return_of_100_110_is_not_ten :
  nth_error (Binary64.daily_return Binary64.closes_100_110) 1
  = Some Binary64.ten_and_five_ulps
  /\ PrimFloat.eqb Binary64.ten_and_five_ulps Binary64.ten = false
  /\ nth_error (Binary64.daily_return Binary64.closes_100_110) 1 <> Some Binary64.ten
  /\ Binary64.stated_return Binary64.price_110 Binary64.price_100 = Binary64.ten.
Proof.
  split; [reflexivity |]. split; [reflexivity |]. split; [| reflexivity].
  intros H.
  apply (f_equal (fun o => match o with
                           | Some x => PrimFloat.eqb x Binary64.ten
                           | None => false
                           end)) in H.
  vm_compute in H. discriminate H.
Qed.

(** ** The symbol of the document, on a stream that may refuse a line *)

Lemma uniform_stdout_print accepts m : uniform (Stdout.print accepts m).
Proof. unfold Stdout.print. destruct (accepts m); auto with uniform. Qed.

#[export] Hint Resolve uniform_stdout_print : uniform.












